(** * Vision Transformer: attention block, encoder and top-level assembly

    A shallow embedding of [models/layers/attentions/attention.py] and
    [models/vit.py].  Tensors are idealised over the real numbers: a tensor
    is a shape together with its elements, Python exceptions are an explicit
    result type, parameters are passed to every call, and the randomness of
    dropout is an explicit key. *)

From Stdlib Require Import Reals List ZArith Bool String Lia Lra
  FunctionalExtensionality Permutation.
Import ListNotations.

Open Scope string_scope.
Open Scope list_scope.
Open Scope R_scope.

(** ** Python exceptions and results *)

(** An [AssertionError] carries the source text of the condition that
    failed, an [AttributeError] the class and the attribute that was looked
    up, the others a short description. *)
Inductive PyError : Type :=
| AssertionError (cond : string)
| ZeroDivisionError
| AttributeError (cls attr : string)
| ValueError (what : string)
| TypeError (what : string)
| IndexError (what : string).

Inductive Result (A : Type) : Type :=
| Ok (a : A)
| Raise (e : PyError).
Arguments Ok {A} a.
Arguments Raise {A} e.

Definition bind {A B : Type} (m : Result A) (k : A -> Result B) : Result B :=
  match m with
  | Ok a => k a
  | Raise e => Raise e
  end.

Notation "x <- m ;; k" := (bind m (fun x => k))
  (at level 61, m at next level, right associativity).
Notation "m ;;; k" := (bind m (fun _ => k))
  (at level 61, right associativity).

(** [assert cond], with the text of [cond] kept for the error. *)
Definition assert (b : bool) (cond : string) : Result unit :=
  if b then Ok tt else Raise (AssertionError cond).

(** Python's [a % b] on integers: floored, as [Z.modulo], and raising on a
    zero divisor. *)
Definition py_mod (a b : Z) : Result Z :=
  if (b =? 0)%Z then Raise ZeroDivisionError else Ok (a mod b)%Z.

(** [int(a / b)]: true division followed by truncation towards zero. *)
Definition py_int_truediv (a b : Z) : Result Z :=
  if (b =? 0)%Z then Raise ZeroDivisionError else Ok (Z.quot a b).

(** A dimension handed to the array library has to be non-negative. *)
Definition dim_of_int (z : Z) : Result nat :=
  if (z <? 0)%Z then Raise (ValueError "negative dimensions are not allowed")
  else Ok (Z.to_nat z).

(** ** Tensors *)

Definition Index := list nat.

Record Tensor : Type := mkTensor {
  shape : list nat;
  elem : Index -> R
}.

Definition ndim (t : Tensor) : nat := List.length (shape t).

(** [t.shape[-1]] *)
Definition last_dim (t : Tensor) : nat := last (shape t) 0%nat.

Fixpoint in_bounds (idx : Index) (sh : list nat) : bool :=
  match idx, sh with
  | [], [] => true
  | i :: idx', n :: sh' => (i <? n)%nat && in_bounds idx' sh'
  | _, _ => false
  end.

(** The tensor of shape [sh] whose element at an index inside the shape is
    [f idx].  Every operation below builds its result with [tabulate], so
    two tensors are equal as soon as they agree inside their shape. *)
Definition tabulate (sh : list nat) (f : Index -> R) : Tensor :=
  {| shape := sh;
     elem := fun idx => if in_bounds idx sh then f idx else 0 |}.

(** Sum of [f 0 .. f (n-1)]. *)
Fixpoint Rsum (n : nat) (f : nat -> R) : R :=
  match n with
  | O => 0
  | S k => Rsum k f + f k
  end.

(** *** Broadcasting *)

Definition broadcast_dim (a b : nat) : Result nat :=
  if (a =? b)%nat then Ok a
  else if (a =? 1)%nat then Ok b
  else if (b =? 1)%nat then Ok a
  else Raise (ValueError "operands could not be broadcast together").

(** Position read in an axis of size [a] for position [i] of the broadcast
    axis. *)
Definition bidx (a i : nat) : nat := if (a =? 1)%nat then 0%nat else i.

Fixpoint broadcast_rev (a b : list nat) : Result (list nat) :=
  match a, b with
  | [], _ => Ok b
  | _, [] => Ok a
  | x :: a', y :: b' =>
      d <- broadcast_dim x y ;;
      r <- broadcast_rev a' b' ;;
      Ok (d :: r)
  end.

Definition broadcast_shapes (a b : list nat) : Result (list nat) :=
  r <- broadcast_rev (rev a) (rev b) ;; Ok (rev r).

Fixpoint zip_bidx (sh : list nat) (idx : Index) : Index :=
  match sh, idx with
  | a :: sh', i :: idx' => bidx a i :: zip_bidx sh' idx'
  | _, _ => []
  end.

Definition bcast_index (sh : list nat) (idx : Index) : Index :=
  zip_bidx sh (skipn (List.length idx - List.length sh) idx).

(** [a + b] on arrays. *)
Definition tensor_add (a b : Tensor) : Result Tensor :=
  sh <- broadcast_shapes (shape a) (shape b) ;;
  Ok (tabulate sh (fun idx =>
        elem a (bcast_index (shape a) idx) + elem b (bcast_index (shape b) idx))).

(** ** Randomness *)

(** A key is a tree of uniform samples in [0,1): [key path idx] is the sample
    drawn for element [idx] by the consumer at [path]. *)
Definition PRNGKey := list nat -> Index -> R.

Definition fold_in (key : PRNGKey) (n : nat) : PRNGKey :=
  fun path => key (n :: path).

(** ** Library layers (flax.linen, jax.numpy) *)

(** [nn.Dropout(rate)(inputs, deterministic)] *)
Definition Dropout (rate : R) (inputs : Tensor) (deterministic : bool)
    (rng : PRNGKey) : Tensor :=
  if Req_dec_T rate 0 then inputs
  else if deterministic then inputs
  else
    let keep_prob := 1 - rate in
    tabulate (shape inputs) (fun idx =>
      if Rlt_dec (rng [] idx) keep_prob
      then elem inputs idx / keep_prob
      else 0).

(** [nn.softmax(x)], over the last axis of a rank-4 tensor. *)
Definition softmax (x : Tensor) : Tensor :=
  tabulate (shape x) (fun idx =>
    match idx with
    | [b; h; q; k] =>
        exp (elem x [b; h; q; k])
        / Rsum (last_dim x) (fun j => exp (elem x [b; h; q; j]))
    | _ => 0
    end).

(** Parameters of [nn.LayerNorm]: scale and bias over the last axis. *)
Record LayerNormParams : Type := {
  ln_scale : Index -> R;
  ln_bias : Index -> R
}.

Definition ln_epsilon : R := / 1000000.

(** Index with its last position replaced by [j]. *)
Definition set_last (idx : Index) (j : nat) : Index :=
  removelast idx ++ [j].

(** [nn.LayerNorm(dtype)(x)]: normalisation over the last axis. *)
Definition LayerNorm (p : LayerNormParams) (x : Tensor) : Result Tensor :=
  match shape x with
  | [] => Raise (ValueError "axis -1 is out of bounds for array of dimension 0")
  | _ =>
      let n := last_dim x in
      let mean idx := Rsum n (fun j => elem x (set_last idx j)) / INR n in
      let var idx :=
        Rsum n (fun j => Rsqr (elem x (set_last idx j) - mean idx)) / INR n in
      Ok (tabulate (shape x) (fun idx =>
            (elem x idx - mean idx) / sqrt (var idx + ln_epsilon)
            * ln_scale p [last idx 0%nat] + ln_bias p [last idx 0%nat]))
  end.

(** Parameters of a dense layer. *)
Record DenseParams : Type := {
  kernel : Index -> R;
  bias : Index -> R
}.

(** [nn.Dense(features, use_bias)(x)]: contraction of the last axis. *)
Definition Dense (features : nat) (use_bias : bool) (p : DenseParams)
    (x : Tensor) : Result Tensor :=
  match shape x with
  | [] => Raise (ValueError "Dense: input has no axis to contract")
  | _ =>
      let c := last_dim x in
      Ok (tabulate (removelast (shape x) ++ [features]) (fun idx =>
            let o := last idx 0%nat in
            let s := Rsum c (fun j => elem x (set_last idx j) * kernel p [j; o]) in
            if use_bias then s + bias p [o] else s))
  end.

(** [nn.DenseGeneral(axis=-1, features=(h, d), use_bias)(x)] on a rank-3
    input: the projection into [h] heads of [d] channels. *)
Definition DenseGeneral_heads (h d : nat) (use_bias : bool) (p : DenseParams)
    (x : Tensor) : Result Tensor :=
  match shape x with
  | [b; l; c] =>
      Ok (tabulate [b; l; h; d] (fun idx =>
            match idx with
            | [i; t; hh; dd] =>
                let s :=
                  Rsum c (fun j => elem x [i; t; j] * kernel p [j; hh; dd]) in
                if use_bias then s + bias p [hh; dd] else s
            | _ => 0
            end))
  | _ => Raise (ValueError "DenseGeneral: expected a rank-3 input")
  end.

(** [nn.DenseGeneral(features=o, axis=(-2, -1), use_bias)(x)] on a rank-4
    input: heads and channels are flattened and projected to [o]. *)
Definition DenseGeneral_merge (o : nat) (use_bias : bool) (p : DenseParams)
    (x : Tensor) : Result Tensor :=
  match shape x with
  | [b; l; h; d] =>
      Ok (tabulate [b; l; o] (fun idx =>
            match idx with
            | [i; t; oo] =>
                let s :=
                  Rsum h (fun hh =>
                    Rsum d (fun dd =>
                      elem x [i; t; hh; dd] * kernel p [hh; dd; oo])) in
                if use_bias then s + bias p [oo] else s
            | _ => 0
            end))
  | _ => Raise (ValueError "DenseGeneral: expected a rank-4 input")
  end.

(** ** Module configuration *)

Inductive DType : Type := float16 | bfloat16 | float32 | float64.

Inductive Precision : Type := DEFAULT | HIGH | HIGHEST.

(** An initializer makes a tensor of a given shape from a key. *)
Definition Initializer := PRNGKey -> list nat -> Tensor.

(** [initializers.zeros] *)
Definition zeros : Initializer := fun _ sh => tabulate sh (fun _ => 0).

(** Values an attribute of a module can hold. *)
Inductive PyValue : Type :=
| VInt (z : Z)
| VOptInt (o : option Z)
| VBool (b : bool)
| VFloat (r : R)
| VDType (d : DType)
| VPrecision (p : Precision)
| VCallable (i : Initializer).

Fixpoint lookup_attr (name : string) (fields : list (string * PyValue))
    : option PyValue :=
  match fields with
  | [] => None
  | (n, v) :: rest => if String.eqb n name then Some v else lookup_attr name rest
  end.

(** [x or y] on an optional integer: [None] and [0] are falsy, and [y] is
    evaluated only then. *)
Definition py_or (x : option Z) (y : Result Z) : Result Z :=
  match x with
  | Some v => if (v =? 0)%Z then y else Ok v
  | None => y
  end.

(** ** attention.py *)

Module AttentionBlock.

Record t : Type := {
  num_heads : Z;
  head_ch : option Z;
  out_ch : option Z;
  talking_heads : bool;
  attn_drop_rate : R;
  out_drop_rate : R;
  use_bias : bool;
  dtype : DType;
  precision : Precision;
  kernel_init : Initializer;
  bias_init : Initializer
}.

(** Defaults of the class declaration. *)
Definition default_head_ch : option Z := None.
Definition default_out_ch : option Z := None.
Definition default_talking_heads : bool := false.
Definition default_attn_drop_rate : R := 0.
Definition default_out_drop_rate : R := 0.
Definition default_use_bias : bool := false.
Definition default_dtype : DType := float32.
Definition default_precision : Precision := DEFAULT.
Definition default_bias_init : Initializer := zeros.

(** The attributes an instance has: its dataclass fields, by name.  (A
    flax module also carries [name], [parent] and [scope]; no attribute is
    added under any other name.) *)
Definition fields (self : t) : list (string * PyValue) :=
  [ ("num_heads", VInt (num_heads self));
    ("head_ch", VOptInt (head_ch self));
    ("out_ch", VOptInt (out_ch self));
    ("talking_heads", VBool (talking_heads self));
    ("attn_drop_rate", VFloat (attn_drop_rate self));
    ("out_drop_rate", VFloat (out_drop_rate self));
    ("use_bias", VBool (use_bias self));
    ("dtype", VDType (dtype self));
    ("precision", VPrecision (precision self));
    ("kernel_init", VCallable (kernel_init self));
    ("bias_init", VCallable (bias_init self)) ].

(** [self.name] *)
Definition getattr (self : t) (name : string) : Result PyValue :=
  match lookup_attr name (fields self) with
  | Some v => Ok v
  | None => Raise (AttributeError "AttentionBlock" name)
  end.

Definition getattr_float (self : t) (name : string) : Result R :=
  v <- getattr self name ;;
  match v with
  | VFloat r => Ok r
  | _ => Raise (ValueError "rate is not a float")
  end.

(** Parameters, by the names the module gives them. *)
Record Params : Type := {
  queries : DenseParams;
  keys : DenseParams;
  values : DenseParams;
  pre_softmax : Index -> R;
  post_softmax : Index -> R;
  DenseGeneral_0 : DenseParams
}.

(** The local variables after line 45. *)
Record Projections : Type := {
  l_head_ch : Z;
  l_out_ch : Z;
  l_query : Tensor;
  l_key : Tensor;
  l_value : Tensor
}.

(** Lines 25-45: the two assertions, the defaults of [head_ch] and
    [out_ch], the three projections and the scaling of the query. *)
Definition project (self : t) (params : Params) (inputs_q inputs_kv : Tensor)
    : Result Projections :=
  assert ((ndim inputs_q =? ndim inputs_kv)%nat && (ndim inputs_kv =? 3)%nat)
    "inputs_q.ndim == inputs_kv.ndim == 3" ;;;
  let in_ch := Z.of_nat (last_dim inputs_q) in
  m <- py_mod in_ch (num_heads self) ;;
  assert (m =? 0)%Z "in_ch % self.num_heads == 0" ;;;
  head_ch <- py_or (head_ch self) (py_int_truediv in_ch (num_heads self)) ;;
  out_ch <- py_or (out_ch self) (Ok in_ch) ;;
  h <- dim_of_int (num_heads self) ;;
  d <- dim_of_int head_ch ;;
  query <- DenseGeneral_heads h d (use_bias self) (queries params) inputs_q ;;
  key <- DenseGeneral_heads h d (use_bias self) (keys params) inputs_kv ;;
  value <- DenseGeneral_heads h d (use_bias self) (values params) inputs_kv ;;
  let query :=
    tabulate (shape query) (fun idx => elem query idx / sqrt (IZR head_ch)) in
  Ok {| l_head_ch := head_ch; l_out_ch := out_ch;
        l_query := query; l_key := key; l_value := value |}.

(** [jnp.einsum('... q h d, ... k h d -> ... h q k', query, key)] *)
Definition einsum_qk (query key : Tensor) : Result Tensor :=
  match shape query, shape key with
  | [bq; lq; h; d], [bk; lk; _; _] =>
      b <- broadcast_dim bq bk ;;
      Ok (tabulate [b; h; lq; lk] (fun idx =>
            match idx with
            | [i; hh; q; k] =>
                Rsum d (fun dd =>
                  elem query [bidx bq i; q; hh; dd]
                  * elem key [bidx bk i; k; hh; dd])
            | _ => 0
            end))
  | _, _ => Raise (ValueError "einsum: operand rank does not match")
  end.

(** [jnp.einsum('... h q k, h i -> ... i q k', w, m)], and the same
    contraction for ['... i q k, i h -> ... h q k']. *)
Definition einsum_heads (w : Tensor) (m : Index -> R) : Result Tensor :=
  match shape w with
  | [b; h; lq; lk] =>
      Ok (tabulate [b; h; lq; lk] (fun idx =>
            match idx with
            | [i; hh; q; k] =>
                Rsum h (fun j => elem w [i; j; q; k] * m [j; hh])
            | _ => 0
            end))
  | _ => Raise (ValueError "einsum: operand rank does not match")
  end.

(** [jnp.einsum('... h q k, ... k h d -> ... q h d', w, value)] *)
Definition einsum_wv (w value : Tensor) : Result Tensor :=
  match shape w, shape value with
  | [bw; h; lq; lk], [bv; _; _; d] =>
      b <- broadcast_dim bw bv ;;
      Ok (tabulate [b; lq; h; d] (fun idx =>
            match idx with
            | [i; q; hh; dd] =>
                Rsum lk (fun k =>
                  elem w [bidx bw i; hh; q; k]
                  * elem value [bidx bv i; k; hh; dd])
            | _ => 0
            end))
  | _, _ => Raise (ValueError "einsum: operand rank does not match")
  end.

(** Lines 47-57: the scores, mixed across heads when [talking_heads]. *)
Definition scores (self : t) (params : Params) (pr : Projections)
    : Result Tensor :=
  attn_weights <- einsum_qk (l_query pr) (l_key pr) ;;
  if talking_heads self
  then einsum_heads attn_weights (pre_softmax params)
  else Ok attn_weights.

(** Lines 61-68: the mixing after the softmax. *)
Definition post_mix (self : t) (params : Params) (attn_weights : Tensor)
    : Result Tensor :=
  if talking_heads self
  then einsum_heads attn_weights (post_softmax params)
  else Ok attn_weights.

(** Lines 25-68: the attention weights handed to the first dropout,
    with the local variables the rest of the call reads. *)
Definition weights (self : t) (params : Params)
    (inputs_q inputs_kv : Tensor) : Result (Projections * Tensor) :=
  pr <- project self params inputs_q inputs_kv ;;
  s <- scores self params pr ;;
  attn_weights <- post_mix self params (softmax s) ;;
  Ok (pr, attn_weights).

(** Lines 70-89, once the rate of the first dropout is known. *)
Definition attend (self : t) (params : Params) (rng : PRNGKey)
    (is_training : bool) (pr : Projections) (rate : R)
    (attn_weights : Tensor) : Result Tensor :=
  let attn_weights :=
    Dropout rate attn_weights (negb is_training) (fold_in rng 0) in
  attn_scores <- einsum_wv attn_weights (l_value pr) ;;
  o <- dim_of_int (l_out_ch pr) ;;
  output <-
    DenseGeneral_merge o (use_bias self) (DenseGeneral_0 params) attn_scores ;;
  Ok (Dropout (out_drop_rate self) output (negb is_training) (fold_in rng 1)).

(** [AttentionBlock.__call__] *)
Definition call (self : t) (params : Params) (rng : PRNGKey)
    (inputs_q inputs_kv : Tensor) (is_training : bool) : Result Tensor :=
  pw <- weights self params inputs_q inputs_kv ;;
  rate <- getattr_float self "attn_dropout_rate" ;;
  attend self params rng is_training (fst pw) rate (snd pw).

End AttentionBlock.

Module SelfAttentionBlock.

Record t : Type := {
  num_heads : Z;
  head_ch : option Z;
  out_ch : option Z;
  talking_heads : bool;
  attn_drop_rate : R;
  out_drop_rate : R;
  use_bias : bool;
  dtype : DType;
  precision : Precision;
  kernel_init : Initializer;
  bias_init : Initializer
}.

(** Defaults of the class declaration. *)
Definition default_head_ch : option Z := None.
Definition default_out_ch : option Z := None.
Definition default_talking_heads : bool := false.
Definition default_use_bias : bool := false.
Definition default_bias_init : Initializer := zeros.

(** The [AttentionBlock] built on lines 107-117. *)
Definition inner (self : t) : AttentionBlock.t :=
  {| AttentionBlock.num_heads := num_heads self;
     AttentionBlock.head_ch := head_ch self;
     AttentionBlock.out_ch := out_ch self;
     AttentionBlock.talking_heads := talking_heads self;
     AttentionBlock.attn_drop_rate := attn_drop_rate self;
     AttentionBlock.out_drop_rate := out_drop_rate self;
     AttentionBlock.use_bias := use_bias self;
     AttentionBlock.dtype := dtype self;
     AttentionBlock.precision := precision self;
     AttentionBlock.kernel_init := kernel_init self;
     AttentionBlock.bias_init := bias_init self |}.

(** [SelfAttentionBlock.__call__] *)
Definition call (self : t) (params : AttentionBlock.Params) (rng : PRNGKey)
    (inputs : Tensor) (is_training : bool) : Result Tensor :=
  AttentionBlock.call (inner self) params rng inputs inputs is_training.

End SelfAttentionBlock.

(** ** vit.py *)

(** Configuration of [FFBlock], as [EncoderBlock] passes it. *)
Module FFBlock.
Record t : Type := {
  expand_ratio : R;
  dropout_rate : R;
  activation_fn : R -> R;
  dtype : DType;
  precision : Precision;
  kernel_init : Initializer;
  bias_init : Initializer
}.
End FFBlock.

(** Configuration of [PatchEmbedBlock], as [ViT] passes it. *)
Module PatchEmbedBlock.
Record t : Type := {
  patch_shape : Z * Z;
  embed_dim : Z;
  dtype : DType;
  precision : Precision;
  kernel_init : Initializer
}.
End PatchEmbedBlock.

(** [vit.py] takes its four layers from [models.layers]:
    [from models.layers import SelfAttentionBlock, FFBlock, AddAbsPosEmbed,
    PatchEmbedBlock].  The calls of the imported layers are the interface
    the encoder is written against.  [attention.py] provides the first; the
    code of the feed-forward block, the positional embedding and the patch
    embedding is not part of the two files. *)
Class Layers : Type := {
  SelfAttentionBlockParams : Type;
  SelfAttentionBlock_call :
    SelfAttentionBlock.t -> SelfAttentionBlockParams -> PRNGKey -> Tensor ->
    bool -> Result Tensor;
  FFBlockParams : Type;
  FFBlock_call :
    FFBlock.t -> FFBlockParams -> PRNGKey -> Tensor -> bool -> Result Tensor;
  AddAbsPosEmbedParams : Type;
  AddAbsPosEmbed_call : AddAbsPosEmbedParams -> Tensor -> Result Tensor;
  PatchEmbedParams : Type;
  PatchEmbedBlock_call :
    PatchEmbedBlock.t -> PatchEmbedParams -> Tensor -> Result Tensor
}.

(** The layers of the repository: the self-attention block of
    [attention.py], and the three other layers as given. *)
Definition repository_layers (FFP PosP PatchP : Type)
    (ff : FFBlock.t -> FFP -> PRNGKey -> Tensor -> bool -> Result Tensor)
    (pos : PosP -> Tensor -> Result Tensor)
    (patch : PatchEmbedBlock.t -> PatchP -> Tensor -> Result Tensor)
    : Layers :=
  {| SelfAttentionBlockParams := AttentionBlock.Params;
     SelfAttentionBlock_call := SelfAttentionBlock.call;
     FFBlockParams := FFP;
     FFBlock_call := ff;
     AddAbsPosEmbedParams := PosP;
     AddAbsPosEmbed_call := pos;
     PatchEmbedParams := PatchP;
     PatchEmbedBlock_call := patch |}.

Module EncoderBlock.

Record t : Type := {
  num_heads : Z;
  expand_ratio : R;
  attn_dropout_rate : R;
  dropout_rate : R;
  activation_fn : R -> R;
  dtype : DType;
  precision : Precision;
  kernel_init : Initializer;
  bias_init : Initializer
}.

Definition default_bias_init : Initializer := zeros.

(** The [SelfAttentionBlock] built on lines 26-31; the fields that are not
    passed take the defaults of the class. *)
Definition attention (self : t) : SelfAttentionBlock.t :=
  {| SelfAttentionBlock.num_heads := num_heads self;
     SelfAttentionBlock.head_ch := SelfAttentionBlock.default_head_ch;
     SelfAttentionBlock.out_ch := SelfAttentionBlock.default_out_ch;
     SelfAttentionBlock.talking_heads :=
       SelfAttentionBlock.default_talking_heads;
     SelfAttentionBlock.attn_drop_rate := attn_dropout_rate self;
     SelfAttentionBlock.out_drop_rate := dropout_rate self;
     SelfAttentionBlock.use_bias := SelfAttentionBlock.default_use_bias;
     SelfAttentionBlock.dtype := dtype self;
     SelfAttentionBlock.precision := precision self;
     SelfAttentionBlock.kernel_init := kernel_init self;
     SelfAttentionBlock.bias_init := SelfAttentionBlock.default_bias_init |}.

(** The [FFBlock] built on lines 36-42. *)
Definition feed_forward (self : t) : FFBlock.t :=
  {| FFBlock.expand_ratio := expand_ratio self;
     FFBlock.dropout_rate := dropout_rate self;
     FFBlock.activation_fn := activation_fn self;
     FFBlock.dtype := dtype self;
     FFBlock.precision := precision self;
     FFBlock.kernel_init := kernel_init self;
     FFBlock.bias_init := bias_init self |}.

Section WithLayers.
Context {L : Layers}.

Record Params : Type := {
  LayerNorm_0 : LayerNormParams;
  SelfAttentionBlock_0 : SelfAttentionBlockParams;
  LayerNorm_1 : LayerNormParams;
  FFBlock_0 : FFBlockParams
}.

(** [EncoderBlock.__call__] *)
Definition call (self : t) (params : Params) (rng : PRNGKey)
    (inputs : Tensor) (is_training : bool) : Result Tensor :=
  x <- LayerNorm (LayerNorm_0 params) inputs ;;
  x <- SelfAttentionBlock_call (attention self)
         (SelfAttentionBlock_0 params) (fold_in rng 0) x is_training ;;
  x <- tensor_add x inputs ;;
  y <- LayerNorm (LayerNorm_1 params) x ;;
  y <- FFBlock_call (feed_forward self) (FFBlock_0 params) (fold_in rng 1)
         y is_training ;;
  output <- tensor_add x y ;;
  Ok output.

End WithLayers.

End EncoderBlock.

Module Encoder.

Record t : Type := {
  num_layers : Z;
  num_heads : Z;
  expand_ratio : R;
  attn_dropout_rate : R;
  dropout_rate : R;
  activation_fn : R -> R;
  dtype : DType;
  precision : Precision;
  kernel_init : Initializer;
  bias_init : Initializer
}.

(** The [EncoderBlock] built on lines 65-72, the same for every layer;
    [bias_init] is not passed and takes the default of the class. *)
Definition block (self : t) : EncoderBlock.t :=
  {| EncoderBlock.num_heads := num_heads self;
     EncoderBlock.expand_ratio := expand_ratio self;
     EncoderBlock.attn_dropout_rate := attn_dropout_rate self;
     EncoderBlock.dropout_rate := dropout_rate self;
     EncoderBlock.activation_fn := activation_fn self;
     EncoderBlock.dtype := dtype self;
     EncoderBlock.precision := precision self;
     EncoderBlock.kernel_init := kernel_init self;
     EncoderBlock.bias_init := EncoderBlock.default_bias_init |}.

Section WithLayers.
Context {L : Layers}.

Record Params : Type := {
  AddAbsPosEmbed_0 : AddAbsPosEmbedParams;
  EncoderBlock_ : nat -> EncoderBlock.Params;
  LayerNorm_0 : LayerNormParams
}.

(** The loop of lines 64-73: [n] more layers, the next one being
    layer [i]. *)
Fixpoint layers (self : t) (params : Params) (rng : PRNGKey)
    (is_training : bool) (n i : nat) (x : Tensor) : Result Tensor :=
  match n with
  | O => Ok x
  | S n' =>
      x <- EncoderBlock.call (block self) (EncoderBlock_ params i)
             (fold_in rng (S i)) x is_training ;;
      layers self params rng is_training n' (S i) x
  end.

(** [Encoder.__call__] *)
Definition call (self : t) (params : Params) (rng : PRNGKey)
    (inputs : Tensor) (is_training : bool) : Result Tensor :=
  x <- AddAbsPosEmbed_call (AddAbsPosEmbed_0 params) inputs ;;
  let x := Dropout (dropout_rate self) x (negb is_training) (fold_in rng 0) in
  x <- layers self params rng is_training (Z.to_nat (num_layers self)) 0 x ;;
  output <- LayerNorm (LayerNorm_0 params) x ;;
  Ok output.

End WithLayers.

End Encoder.

(** [jnp.tile(a, [b, 1, 1])] on a rank-3 tensor. *)
Definition tile_batch (a : Tensor) (b : nat) : Result Tensor :=
  match shape a with
  | [n; l; c] =>
      Ok (tabulate [(b * n)%nat; l; c] (fun idx =>
            match idx with
            | [i; j; k] => elem a [Nat.modulo i n; j; k]
            | _ => 0
            end))
  | _ => Raise (ValueError "tile: expected a rank-3 input")
  end.

(** [jnp.concatenate([a, x], axis=1)] with a first operand of rank 3, as on
    line 110.  The shape rule of the concatenation rejects operands of
    different ranks, and operands whose shapes differ off the axis, with a
    [TypeError]. *)
Definition concatenate_axis1 (a x : Tensor) : Result Tensor :=
  match shape a, shape x with
  | [ba; la; ca], [bx; lx; cx] =>
      if (ba =? bx)%nat && (ca =? cx)%nat
      then Ok (tabulate [ba; (la + lx)%nat; ca] (fun idx =>
                 match idx with
                 | [i; j; k] =>
                     if (j <? la)%nat then elem a [i; j; k]
                     else elem x [i; (j - la)%nat; k]
                 | _ => 0
                 end))
      else Raise (TypeError
                    "Cannot concatenate arrays with shapes that differ in dimensions other than the one being concatenated")
  | [_; _; _], _ =>
      Raise (TypeError
               "Cannot concatenate arrays with different numbers of dimensions")
  | _, _ => Raise (ValueError "concatenate: first operand is not of rank 3")
  end.

(** [x[:, 0]] *)
Definition take_row0 (x : Tensor) : Result Tensor :=
  match shape x with
  | b :: l :: rest =>
      if (l =? 0)%nat
      then Raise (IndexError "index 0 is out of bounds for axis 1 with size 0")
      else Ok (tabulate (b :: rest) (fun idx =>
                 match idx with
                 | i :: idx' => elem x (i :: 0%nat :: idx')
                 | [] => 0
                 end))
  | _ => Raise (IndexError "too many indices for array")
  end.

Module ViT.

Record t : Type := {
  num_classes : Z;
  num_layers : Z;
  num_heads : Z;
  embed_dim : Z;
  patch_shape : Z * Z;
  expand_ratio : R;
  dropout_rate : R;
  attn_dropout_rate : R;
  activation_fn : R -> R;
  dtype : DType;
  precision : Precision;
  kernel_init : Initializer;
  bias_init : Initializer
}.

(** The [PatchEmbedBlock] built on lines 98-104. *)
Definition patch_embed (self : t) : PatchEmbedBlock.t :=
  {| PatchEmbedBlock.patch_shape := patch_shape self;
     PatchEmbedBlock.embed_dim := embed_dim self;
     PatchEmbedBlock.dtype := dtype self;
     PatchEmbedBlock.precision := precision self;
     PatchEmbedBlock.kernel_init := kernel_init self |}.

(** The [Encoder] built on lines 112-121. *)
Definition encoder (self : t) : Encoder.t :=
  {| Encoder.num_layers := num_layers self;
     Encoder.num_heads := num_heads self;
     Encoder.expand_ratio := expand_ratio self;
     Encoder.attn_dropout_rate := attn_dropout_rate self;
     Encoder.dropout_rate := dropout_rate self;
     Encoder.activation_fn := activation_fn self;
     Encoder.dtype := dtype self;
     Encoder.precision := precision self;
     Encoder.kernel_init := kernel_init self;
     Encoder.bias_init := bias_init self |}.

(** The parameters the classification head is created with, lines
    124-130: [kernel_init=initializers.zeros], [bias_init=self.bias_init]. *)
Definition head_init (self : t) (key : PRNGKey) (in_features features : nat)
    : DenseParams :=
  {| kernel := elem (zeros (fold_in key 0) [in_features; features]);
     bias := elem (bias_init self (fold_in key 1) [features]) |}.

(** Lines 106-110: the class token in front of the patch tokens. *)
Definition prepend_cls (self : t) (cls : Index -> R) (x : Tensor)
    : Result Tensor :=
  match shape x with
  | [b; l; _] =>
      e <- dim_of_int (embed_dim self) ;;
      let cls_token := tabulate [1%nat; 1%nat; e] cls in
      cls_token <- tile_batch cls_token b ;;
      concatenate_axis1 cls_token x
  | _ => Raise (ValueError "wrong number of values to unpack")
  end.

(** Lines 123-130: the head on row 0. *)
Definition classify (self : t) (head : DenseParams) (x : Tensor)
    : Result Tensor :=
  cls_token <- take_row0 x ;;
  n <- dim_of_int (num_classes self) ;;
  output <- Dense n true head cls_token ;;
  Ok output.

Section WithLayers.
Context {L : Layers}.

Record Params : Type := {
  PatchEmbedBlock_0 : PatchEmbedParams;
  cls : Index -> R;
  Encoder_0 : Encoder.Params;
  Dense_0 : DenseParams
}.

(** Lines 96-110: the token sequence handed to the encoder. *)
Definition tokens (self : t) (params : Params) (inputs : Tensor)
    : Result Tensor :=
  m <- py_mod (embed_dim self) (num_heads self) ;;
  assert (m =? 0)%Z "self.embed_dim % self.num_heads == 0" ;;;
  x <- PatchEmbedBlock_call (patch_embed self) (PatchEmbedBlock_0 params)
         inputs ;;
  prepend_cls self (cls params) x.

(** [ViT.__call__] *)
Definition call (self : t) (params : Params) (rng : PRNGKey)
    (inputs : Tensor) (is_training : bool) : Result Tensor :=
  x <- tokens self params inputs ;;
  x <- Encoder.call (encoder self) (Encoder_0 params) rng x is_training ;;
  classify self (Dense_0 params) x.

End WithLayers.

End ViT.

(** ** Instances and inputs used in the statements *)


Definition set_head_ch (self : AttentionBlock.t) (v : option Z)
    : AttentionBlock.t :=
  {| AttentionBlock.num_heads := AttentionBlock.num_heads self;
     AttentionBlock.head_ch := v;
     AttentionBlock.out_ch := AttentionBlock.out_ch self;
     AttentionBlock.talking_heads := AttentionBlock.talking_heads self;
     AttentionBlock.attn_drop_rate := AttentionBlock.attn_drop_rate self;
     AttentionBlock.out_drop_rate := AttentionBlock.out_drop_rate self;
     AttentionBlock.use_bias := AttentionBlock.use_bias self;
     AttentionBlock.dtype := AttentionBlock.dtype self;
     AttentionBlock.precision := AttentionBlock.precision self;
     AttentionBlock.kernel_init := AttentionBlock.kernel_init self;
     AttentionBlock.bias_init := AttentionBlock.bias_init self |}.

Definition set_out_ch (self : AttentionBlock.t) (v : option Z)
    : AttentionBlock.t :=
  {| AttentionBlock.num_heads := AttentionBlock.num_heads self;
     AttentionBlock.head_ch := AttentionBlock.head_ch self;
     AttentionBlock.out_ch := v;
     AttentionBlock.talking_heads := AttentionBlock.talking_heads self;
     AttentionBlock.attn_drop_rate := AttentionBlock.attn_drop_rate self;
     AttentionBlock.out_drop_rate := AttentionBlock.out_drop_rate self;
     AttentionBlock.use_bias := AttentionBlock.use_bias self;
     AttentionBlock.dtype := AttentionBlock.dtype self;
     AttentionBlock.precision := AttentionBlock.precision self;
     AttentionBlock.kernel_init := AttentionBlock.kernel_init self;
     AttentionBlock.bias_init := AttentionBlock.bias_init self |}.


Definition identity_matrix : Index -> R :=
  fun idx =>
    match idx with
    | [i; j] => if (i =? j)%nat then 1 else 0
    | _ => 0
    end.


Definition ones (sh : list nat) : Tensor := tabulate sh (fun _ => 1).

Definition dense_ones : DenseParams :=
  {| kernel := fun _ => 1; bias := fun _ => 0 |}.

Definition example_params : AttentionBlock.Params :=
  {| AttentionBlock.queries := dense_ones;
     AttentionBlock.keys := dense_ones;
     AttentionBlock.values := dense_ones;
     AttentionBlock.pre_softmax := identity_matrix;
     AttentionBlock.post_softmax := identity_matrix;
     AttentionBlock.DenseGeneral_0 := dense_ones |}.

Definition example_key : PRNGKey := fun _ _ => 0.

(** [AttentionBlock(num_heads=2, attn_drop_rate=0.1)] *)
Definition example_attention : AttentionBlock.t :=
  {| AttentionBlock.num_heads := 2;
     AttentionBlock.head_ch := AttentionBlock.default_head_ch;
     AttentionBlock.out_ch := AttentionBlock.default_out_ch;
     AttentionBlock.talking_heads := AttentionBlock.default_talking_heads;
     AttentionBlock.attn_drop_rate := / 10;
     AttentionBlock.out_drop_rate := AttentionBlock.default_out_drop_rate;
     AttentionBlock.use_bias := AttentionBlock.default_use_bias;
     AttentionBlock.dtype := AttentionBlock.default_dtype;
     AttentionBlock.precision := AttentionBlock.default_precision;
     AttentionBlock.kernel_init := zeros;
     AttentionBlock.bias_init := AttentionBlock.default_bias_init |}.

(** [SelfAttentionBlock(num_heads=2)] *)
Definition example_self_attention : SelfAttentionBlock.t :=
  {| SelfAttentionBlock.num_heads := 2;
     SelfAttentionBlock.head_ch := SelfAttentionBlock.default_head_ch;
     SelfAttentionBlock.out_ch := SelfAttentionBlock.default_out_ch;
     SelfAttentionBlock.talking_heads :=
       SelfAttentionBlock.default_talking_heads;
     SelfAttentionBlock.attn_drop_rate := 0;
     SelfAttentionBlock.out_drop_rate := 0;
     SelfAttentionBlock.use_bias := SelfAttentionBlock.default_use_bias;
     SelfAttentionBlock.dtype := float32;
     SelfAttentionBlock.precision := DEFAULT;
     SelfAttentionBlock.kernel_init := zeros;
     SelfAttentionBlock.bias_init := SelfAttentionBlock.default_bias_init |}.

(** ** The divisibility check of line 28 *)

(** The test [in_ch % self.num_heads == 0] evaluates to true. *)
Definition divisible (in_ch num_heads : Z) : Prop :=
  py_mod in_ch num_heads = Ok 0%Z.

(** The error line 28 raises when the test does not evaluate to true: the
    assertion fails, or, for [num_heads = 0], the test itself divides by
    zero. *)
Definition divisibility_error (num_heads : Z) : PyError :=
  if (num_heads =? 0)%Z then ZeroDivisionError
  else AssertionError "in_ch % self.num_heads == 0".

(** The errors of line 28, which the specification calls configuration
    errors of the attention block. *)
Definition ConfigurationError (e : PyError) : Prop :=
  e = AssertionError "in_ch % self.num_heads == 0" \/ e = ZeroDivisionError.

(** Errors raised by the array library or by the attribute lookup: none of
    them comes from line 28. *)
Definition later_error (e : PyError) : Prop :=
  (exists s, e = ValueError s) \/ (exists c a, e = AttributeError c a).


(** ** A model instance *)

(** Stand-ins for the three layers whose code is not in the two files: each
    keeps its input, the patch embedding makes 196 tokens of width 64 for
    each of 4 images. *)
Definition stub_ff
    : FFBlock.t -> unit -> PRNGKey -> Tensor -> bool -> Result Tensor :=
  fun _ _ _ x _ => Ok x.

Definition stub_pos : unit -> Tensor -> Result Tensor := fun _ x => Ok x.

Definition stub_patch : PatchEmbedBlock.t -> unit -> Tensor -> Result Tensor :=
  fun _ _ _ => Ok (ones [4; 196; 64]%nat).

Definition example_layers : Layers :=
  repository_layers unit unit unit stub_ff stub_pos stub_patch.

(** Layers in which the self-attention block is a stand-in as well. *)
Definition stub_layers : Layers :=
  {| SelfAttentionBlockParams := unit;
     SelfAttentionBlock_call := fun _ _ _ x _ => Ok x;
     FFBlockParams := unit;
     FFBlock_call := stub_ff;
     AddAbsPosEmbedParams := unit;
     AddAbsPosEmbed_call := stub_pos;
     PatchEmbedParams := unit;
     PatchEmbedBlock_call := stub_patch |}.

Definition ln_ones : LayerNormParams :=
  {| ln_scale := fun _ => 1; ln_bias := fun _ => 0 |}.

(** [ViT(num_classes=10, num_layers=n, num_heads=8, embed_dim=64,
    patch_shape=(16, 16))] *)
Definition example_vit (n : Z) : ViT.t :=
  {| ViT.num_classes := 10;
     ViT.num_layers := n;
     ViT.num_heads := 8;
     ViT.embed_dim := 64;
     ViT.patch_shape := (16%Z, 16%Z);
     ViT.expand_ratio := 4;
     ViT.dropout_rate := 0;
     ViT.attn_dropout_rate := 0;
     ViT.activation_fn := fun x => x;
     ViT.dtype := float32;
     ViT.precision := DEFAULT;
     ViT.kernel_init := zeros;
     ViT.bias_init := zeros |}.

Definition example_block_params
    : EncoderBlock.Params (L := example_layers) :=
  {| EncoderBlock.LayerNorm_0 := ln_ones;
     EncoderBlock.SelfAttentionBlock_0 :=
       (example_params : @SelfAttentionBlockParams example_layers);
     EncoderBlock.LayerNorm_1 := ln_ones;
     EncoderBlock.FFBlock_0 := (tt : @FFBlockParams example_layers) |}.

(** Parameters of the model, the head as [head_init] creates it. *)
Definition example_vit_params (n : Z) : ViT.Params (L := example_layers) :=
  {| ViT.PatchEmbedBlock_0 := (tt : @PatchEmbedParams example_layers);
     ViT.cls := fun _ => 0;
     ViT.Encoder_0 :=
       {| Encoder.AddAbsPosEmbed_0 :=
            (tt : @AddAbsPosEmbedParams example_layers);
          Encoder.EncoderBlock_ := fun _ => example_block_params;
          Encoder.LayerNorm_0 := ln_ones |};
     ViT.Dense_0 := ViT.head_init (example_vit n) example_key 64 10 |}.

Definition example_images : Tensor := ones [4; 224; 224; 3]%nat.

Definition example_encoder_block : EncoderBlock.t :=
  Encoder.block (ViT.encoder (example_vit 2)).

Definition stub_block_params : EncoderBlock.Params (L := stub_layers) :=
  {| EncoderBlock.LayerNorm_0 := ln_ones;
     EncoderBlock.SelfAttentionBlock_0 :=
       (tt : @SelfAttentionBlockParams stub_layers);
     EncoderBlock.LayerNorm_1 := ln_ones;
     EncoderBlock.FFBlock_0 := (tt : @FFBlockParams stub_layers) |}.

(** The parameters [params] with the four biases and the two head-mixing
    matrices replaced, the kernels kept. *)
Definition set_biases_and_mixing (params : AttentionBlock.Params)
    (bq bk bv bo pre post : Index -> R) : AttentionBlock.Params :=
  {| AttentionBlock.queries :=
       {| kernel := kernel (AttentionBlock.queries params); bias := bq |};
     AttentionBlock.keys :=
       {| kernel := kernel (AttentionBlock.keys params); bias := bk |};
     AttentionBlock.values :=
       {| kernel := kernel (AttentionBlock.values params); bias := bv |};
     AttentionBlock.pre_softmax := pre;
     AttentionBlock.post_softmax := post;
     AttentionBlock.DenseGeneral_0 :=
       {| kernel := kernel (AttentionBlock.DenseGeneral_0 params);
          bias := bo |} |}.

(** ** Further instances used in the statements *)

(** The parameters [params] with the bias of the key projection replaced. *)
Definition set_keys_bias (params : AttentionBlock.Params) (b : Index -> R)
    : AttentionBlock.Params :=
  {| AttentionBlock.queries := AttentionBlock.queries params;
     AttentionBlock.keys :=
       {| kernel := kernel (AttentionBlock.keys params); bias := b |};
     AttentionBlock.values := AttentionBlock.values params;
     AttentionBlock.pre_softmax := AttentionBlock.pre_softmax params;
     AttentionBlock.post_softmax := AttentionBlock.post_softmax params;
     AttentionBlock.DenseGeneral_0 := AttentionBlock.DenseGeneral_0 params |}.

(** The result with a function applied to the value, errors kept. *)
Definition result_map {A B : Type} (f : A -> B) (r : Result A) : Result B :=
  match r with
  | Ok a => Ok (f a)
  | Raise e => Raise e
  end.

(** In inference mode the imported blocks do not read the key. *)
Definition key_free_at_inference (L : Layers) : Prop :=
  (forall cfg p g g' x,
     SelfAttentionBlock_call cfg p g x false
     = SelfAttentionBlock_call cfg p g' x false)
  /\ (forall cfg p g g' x,
        FFBlock_call cfg p g x false = FFBlock_call cfg p g' x false).

Definition stub_encoder_params : Encoder.Params (L := stub_layers) :=
  {| Encoder.AddAbsPosEmbed_0 := (tt : @AddAbsPosEmbedParams stub_layers);
     Encoder.EncoderBlock_ := fun _ => stub_block_params;
     Encoder.LayerNorm_0 := ln_ones |}.

Definition stub_vit_params : ViT.Params (L := stub_layers) :=
  {| ViT.PatchEmbedBlock_0 := (tt : @PatchEmbedParams stub_layers);
     ViT.cls := fun _ => 0;
     ViT.Encoder_0 := stub_encoder_params;
     ViT.Dense_0 := dense_ones |}.

(** Two score tensors of shape (b, h, lq, lk) that differ, on every row, by
    a constant over the key axis. *)
Definition shifted_over_keys (b h lq lk : nat) (s s' : Tensor) : Prop :=
  shape s = [b; h; lq; lk]
  /\ shape s' = [b; h; lq; lk]
  /\ exists c : nat -> nat -> nat -> R,
       forall i hh q k,
         (i < b)%nat -> (hh < h)%nat -> (q < lq)%nat -> (k < lk)%nat ->
         elem s' [i; hh; q; k] = elem s [i; hh; q; k] + c i hh q.

(** The tensor [x] of rank 3 with the positions of its axis 1 rearranged:
    position [k] of the result holds position [sigma k] of [x]. *)
Definition permute_axis1 (sigma : nat -> nat) (x : Tensor) : Tensor :=
  tabulate (shape x) (fun idx =>
    match idx with
    | [i; k; c] => elem x [i; sigma k; c]
    | _ => 0
    end).

(** [sigma] rearranges the positions below [n]. *)
Definition rearranges (n : nat) (sigma : nat -> nat) : Prop :=
  (forall k, (k < n)%nat -> (sigma k < n)%nat)
  /\ (forall j k, (j < n)%nat -> (k < n)%nat -> sigma j = sigma k -> j = k).

(** Two tensors of shape (b, h, lq, lk), the second holding at key position
    [k] what the first holds at key position [sigma k]. *)
Definition rearranged_over_keys (sigma : nat -> nat) (b h lq lk : nat)
    (s s' : Tensor) : Prop :=
  shape s = [b; h; lq; lk]
  /\ shape s' = [b; h; lq; lk]
  /\ forall i hh q k,
       (i < b)%nat -> (hh < h)%nat -> (q < lq)%nat -> (k < lk)%nat ->
       elem s' [i; hh; q; k] = elem s [i; hh; q; sigma k].

(** Sum of a list of reals. *)
Fixpoint list_sum_R (l : list R) : R :=
  match l with
  | [] => 0
  | x :: l' => x + list_sum_R l'
  end.

(** Two tensors of shape (b, h, lq, lk), the second holding at query
    position [q] what the first holds at query position [sigma q]. *)
Definition rearranged_over_queries (sigma : nat -> nat) (b h lq lk : nat)
    (s s' : Tensor) : Prop :=
  shape s = [b; h; lq; lk]
  /\ shape s' = [b; h; lq; lk]
  /\ forall i hh q k,
       (i < b)%nat -> (hh < h)%nat -> (q < lq)%nat -> (k < lk)%nat ->
       elem s' [i; hh; q; k] = elem s [i; hh; sigma q; k].

(** The rearrangement that exchanges positions 0 and 1. *)
Definition swap01 (k : nat) : nat :=
  match k with
  | 0 => 1
  | 1 => 0
  | _ => k
  end%nat.

(** [sigma] picks, for every position below [n], a position below [n]
    (possibly the same one twice). *)
Definition selects (n : nat) (sigma : nat -> nat) : Prop :=
  forall k, (k < n)%nat -> (sigma k < n)%nat.



(** ** Tensors: basic facts *)

Lemma tabulate_ext (sh : list nat) (f g : Index -> R) :
  (forall idx, in_bounds idx sh = true -> f idx = g idx) ->
  tabulate sh f = tabulate sh g.
Proof.
  intros H. unfold tabulate. f_equal.
  apply functional_extensionality. intros idx.
  destruct (in_bounds idx sh) eqn:E; [apply H; exact E | reflexivity].
Qed.

Lemma elem_tabulate (sh : list nat) (f : Index -> R) (idx : Index) :
  in_bounds idx sh = true -> elem (tabulate sh f) idx = f idx.
Proof. intros H. simpl. rewrite H. reflexivity. Qed.

Lemma tabulate_elem (sh : list nat) (f : Index -> R) :
  tabulate sh (elem (tabulate sh f)) = tabulate sh f.
Proof. apply tabulate_ext. intros idx H. apply elem_tabulate, H. Qed.

Lemma in_bounds3 (idx : Index) (a b c : nat) :
  in_bounds idx [a; b; c] = true ->
  exists i j k, idx = [i; j; k] /\ (i < a)%nat /\ (j < b)%nat /\ (k < c)%nat.
Proof.
  destruct idx as [|i [|j [|k [|? ?]]]]; simpl; try discriminate;
    try (rewrite ?andb_false_r; discriminate).
  rewrite andb_true_r. intros H.
  apply andb_true_iff in H as [Hi H]. apply andb_true_iff in H as [Hj Hk].
  apply Nat.ltb_lt in Hi, Hj, Hk. exists i, j, k. auto.
Qed.

Lemma in_bounds4 (idx : Index) (a b c d : nat) :
  in_bounds idx [a; b; c; d] = true ->
  exists i j k l, idx = [i; j; k; l]
    /\ (i < a)%nat /\ (j < b)%nat /\ (k < c)%nat /\ (l < d)%nat.
Proof.
  destruct idx as [|i [|j [|k [|l [|? ?]]]]]; simpl; try discriminate;
    try (rewrite ?andb_false_r; discriminate).
  rewrite andb_true_r. intros H.
  apply andb_true_iff in H as [Hi H]. apply andb_true_iff in H as [Hj H].
  apply andb_true_iff in H as [Hk Hl].
  apply Nat.ltb_lt in Hi, Hj, Hk, Hl. exists i, j, k, l. auto.
Qed.

Lemma in_bounds4_intro (i j k l a b c d : nat) :
  (i < a)%nat -> (j < b)%nat -> (k < c)%nat -> (l < d)%nat ->
  in_bounds [i; j; k; l] [a; b; c; d] = true.
Proof.
  intros Hi Hj Hk Hl. simpl.
  apply Nat.ltb_lt in Hi, Hj, Hk, Hl. rewrite Hi, Hj, Hk, Hl. reflexivity.
Qed.

(** ** Sums *)

Lemma Rsum_ext (n : nat) (f g : nat -> R) :
  (forall k, (k < n)%nat -> f k = g k) -> Rsum n f = Rsum n g.
Proof.
  induction n as [|n IH]; intros H; simpl; [reflexivity|].
  rewrite IH by (intros k Hk; apply H; lia).
  rewrite H by lia. reflexivity.
Qed.

Lemma Rsum_scale (n : nat) (f : nat -> R) (c : R) :
  Rsum n (fun k => f k * c) = Rsum n f * c.
Proof.
  induction n as [|n IH]; simpl; [ring|]. rewrite IH. ring.
Qed.

Lemma Rsum_zero (n : nat) (f : nat -> R) :
  (forall k, (k < n)%nat -> f k = 0) -> Rsum n f = 0.
Proof.
  induction n as [|n IH]; intros H; simpl; [reflexivity|].
  rewrite IH by (intros k Hk; apply H; lia).
  rewrite H by lia. ring.
Qed.

Lemma Rsum_exp_pos (n : nat) (f : nat -> R) :
  (0 < n)%nat -> 0 < Rsum n (fun k => exp (f k)).
Proof.
  induction n as [|n IH]; intros Hn; [lia|]. simpl.
  destruct n as [|n].
  - simpl. rewrite Rplus_0_l. apply exp_pos.
  - apply Rplus_lt_0_compat; [apply IH; lia | apply exp_pos].
Qed.


(** ** Dropout *)

Lemma shape_Dropout (rate : R) (x : Tensor) (d : bool) (rng : PRNGKey) :
  shape (Dropout rate x d rng) = shape x.
Proof.
  unfold Dropout. destruct (Req_dec_T rate 0); [reflexivity|].
  destruct d; reflexivity.
Qed.

Lemma Dropout_rate_0 (x : Tensor) (d : bool) (rng : PRNGKey) :
  Dropout 0 x d rng = x.
Proof.
  unfold Dropout. destruct (Req_dec_T 0 0) as [_|H]; [reflexivity|].
  exfalso. apply H. reflexivity.
Qed.

Lemma Dropout_deterministic (rate : R) (x : Tensor) (rng : PRNGKey) :
  Dropout rate x true rng = x.
Proof. unfold Dropout. destruct (Req_dec_T rate 0); reflexivity. Qed.

(** ** The attribute read on line 70 *)

Lemma getattr_attn_drop_rate (self : AttentionBlock.t) :
  AttentionBlock.getattr_float self "attn_drop_rate"
  = Ok (AttentionBlock.attn_drop_rate self).
Proof. reflexivity. Qed.

Lemma getattr_attn_dropout_rate (self : AttentionBlock.t) :
  AttentionBlock.getattr_float self "attn_dropout_rate"
  = Raise (AttributeError "AttentionBlock" "attn_dropout_rate").
Proof. reflexivity. Qed.

(** Once the weights are computed, the call raises. *)
Lemma call_raises_after_weights (self : AttentionBlock.t)
    (params : AttentionBlock.Params) (rng : PRNGKey) (q kv : Tensor)
    (is_training : bool) (pw : AttentionBlock.Projections * Tensor) :
  AttentionBlock.weights self params q kv = Ok pw ->
  AttentionBlock.call self params rng q kv is_training
  = Raise (AttributeError "AttentionBlock" "attn_dropout_rate").
Proof.
  intros H. unfold AttentionBlock.call. rewrite H. reflexivity.
Qed.

Lemma call_never_returns (self : AttentionBlock.t)
    (params : AttentionBlock.Params) (rng : PRNGKey) (q kv : Tensor)
    (is_training : bool) (out : Tensor) :
  AttentionBlock.call self params rng q kv is_training <> Ok out.
Proof.
  unfold AttentionBlock.call.
  destruct (AttentionBlock.weights self params q kv) as [pw|e]; simpl;
    discriminate.
Qed.

Example example_weights_computed :
  exists pw,
    AttentionBlock.weights example_attention example_params
      (ones [2; 5; 8]%nat) (ones [2; 5; 8]%nat) = Ok pw
    /\ shape (snd pw) = [2; 2; 5; 5]%nat.
Proof. eexists. split; reflexivity. Qed.

(** C1.  The first dropout is built with [rate=self.attn_dropout_rate], but
    the field the class declares is [attn_drop_rate]: the configured rate is
    an attribute of every instance, the name the call reads is an attribute
    of none, so no call returns, and a call whose inputs pass both
    assertions raises [AttributeError] instead of applying dropout. *)
Theorem attention_dropout_reads_undeclared_attribute :
  forall (self : AttentionBlock.t) (params : AttentionBlock.Params)
         (rng : PRNGKey) (q kv : Tensor) (is_training : bool),
    AttentionBlock.getattr_float self "attn_drop_rate"
    = Ok (AttentionBlock.attn_drop_rate self)
    /\ AttentionBlock.getattr_float self "attn_dropout_rate"
       = Raise (AttributeError "AttentionBlock" "attn_dropout_rate")
    /\ (forall out,
          AttentionBlock.call self params rng q kv is_training <> Ok out)
    /\ AttentionBlock.call example_attention example_params example_key
         (ones [2; 5; 8]%nat) (ones [2; 5; 8]%nat) true
       = Raise (AttributeError "AttentionBlock" "attn_dropout_rate").
Proof.
  intros self params rng q kv is_training.
  split; [reflexivity|]. split; [reflexivity|].
  split; [intros out; apply call_never_returns|].
  destruct example_weights_computed as [pw [Hpw _]].
  exact (call_raises_after_weights _ _ _ _ _ _ pw Hpw).
Qed.

(** C2.  [SelfAttentionBlock(num_heads=2)] on an input of shape (2, 5, 8):
    the call raises [AttributeError] on line 70 of the attention block
    instead of returning a tensor of shape (2, 5, 8); no call of the block
    returns a tensor at all. *)
Theorem self_attention_call_raises :
  SelfAttentionBlock.call example_self_attention example_params example_key
    (ones [2; 5; 8]%nat) false
  = Raise (AttributeError "AttentionBlock" "attn_dropout_rate")
  /\ (forall (self : SelfAttentionBlock.t) (params : AttentionBlock.Params)
             (rng : PRNGKey) (inputs : Tensor) (is_training : bool)
             (out : Tensor),
        SelfAttentionBlock.call self params rng inputs is_training <> Ok out).
Proof.
  split.
  - unfold SelfAttentionBlock.call.
    eapply call_raises_after_weights. reflexivity.
  - intros. apply call_never_returns.
Qed.

(** ** Inversion of results *)

Lemma bind_Ok {A B : Type} (m : Result A) (k : A -> Result B) (b : B) :
  bind m k = Ok b -> exists a, m = Ok a /\ k a = Ok b.
Proof.
  destruct m as [a|e]; simpl; [|discriminate]. intros H. exists a. auto.
Qed.

Lemma bind_Raise {A B : Type} (m : Result A) (k : A -> Result B) (e : PyError) :
  bind m k = Raise e -> m = Raise e \/ exists a, m = Ok a /\ k a = Raise e.
Proof.
  destruct m as [a|e']; simpl; intros H.
  - right. exists a. auto.
  - left. injection H as ->. reflexivity.
Qed.

Tactic Notation "inv_bind" hyp(H) "as" ident(a) ident(Ha) :=
  apply bind_Ok in H; destruct H as [a [Ha H]].

(** ** Shapes inside the attention block *)

Lemma DenseGeneral_heads_Ok (h d : nat) (ub : bool) (p : DenseParams)
    (x t : Tensor) :
  DenseGeneral_heads h d ub p x = Ok t ->
  exists b l c, shape x = [b; l; c] /\ shape t = [b; l; h; d].
Proof.
  unfold DenseGeneral_heads.
  destruct (shape x) as [|b [|l [|c [|? ?]]]]; try discriminate.
  intros H. injection H as <-. exists b, l, c. split; reflexivity.
Qed.

Lemma einsum_qk_Ok (query key s : Tensor) :
  AttentionBlock.einsum_qk query key = Ok s ->
  exists bq lq h d bk lk h' d' b,
    shape query = [bq; lq; h; d] /\ shape key = [bk; lk; h'; d']
    /\ shape s = [b; h; lq; lk].
Proof.
  unfold AttentionBlock.einsum_qk.
  destruct (shape query) as [|bq [|lq [|h [|d [|? ?]]]]]; try discriminate.
  destruct (shape key) as [|bk [|lk [|h' [|d' [|? ?]]]]]; try discriminate.
  intros H. inv_bind H as b Hb. injection H as <-.
  exists bq, lq, h, d, bk, lk, h', d', b. repeat split; reflexivity.
Qed.

Lemma einsum_heads_Ok (w : Tensor) (m : Index -> R) (s : Tensor) :
  AttentionBlock.einsum_heads w m = Ok s -> 
  exists b h lq lk, shape w = [b; h; lq; lk] /\ shape s = shape w.
Proof.
  unfold AttentionBlock.einsum_heads.
  destruct (shape w) as [|b [|h [|lq [|lk [|? ?]]]]]; try discriminate.
  intros H. injection H as <-. exists b, h, lq, lk. split; reflexivity.
Qed.

Lemma project_Ok (self : AttentionBlock.t) (params : AttentionBlock.Params)
    (q kv : Tensor) (pr : AttentionBlock.Projections) :
  AttentionBlock.project self params q kv = Ok pr ->
  exists bq lq c bk lk c' h d,
    shape q = [bq; lq; c] /\ shape kv = [bk; lk; c']
    /\ dim_of_int (AttentionBlock.num_heads self) = Ok h
    /\ shape (AttentionBlock.l_query pr) = [bq; lq; h; d]
    /\ shape (AttentionBlock.l_key pr) = [bk; lk; h; d]
    /\ shape (AttentionBlock.l_value pr) = [bk; lk; h; d].
Proof.
  unfold AttentionBlock.project. intros H.
  inv_bind H as u1 E1. inv_bind H as m E2. inv_bind H as u2 E3.
  inv_bind H as hc E4. inv_bind H as oc E5. inv_bind H as h E6.
  inv_bind H as d E7. inv_bind H as query E8. inv_bind H as key E9.
  inv_bind H as value E10. injection H as <-. simpl.
  apply DenseGeneral_heads_Ok in E8 as (bq & lq & c & Hq & Hq').
  apply DenseGeneral_heads_Ok in E9 as (bk & lk & c' & Hk & Hk').
  apply DenseGeneral_heads_Ok in E10 as (bk2 & lk2 & c2 & Hv & Hv').
  rewrite Hk in Hv. injection Hv as <- <- <-.
  exists bq, lq, c, bk, lk, c', h, d. repeat split; assumption.
Qed.

Lemma scores_Ok (self : AttentionBlock.t) (params : AttentionBlock.Params)
    (pr : AttentionBlock.Projections) (s : Tensor) :
  AttentionBlock.scores self params pr = Ok s ->
  exists b h lq lk bk h' d',
    shape s = [b; h; lq; lk]
    /\ shape (AttentionBlock.l_key pr) = [bk; lk; h'; d'].
Proof.
  unfold AttentionBlock.scores. intros H. inv_bind H as a Ha.
  apply einsum_qk_Ok in Ha
    as (bq & lq & h & d & bk & lk & h' & d' & b & Hq & Hk & Hs).
  destruct (AttentionBlock.talking_heads self).
  - apply einsum_heads_Ok in H as (b1 & h1 & lq1 & lk1 & Ha & Hs').
    rewrite Hs in Hs'. exists b, h, lq, lk, bk, h', d'. auto.
  - injection H as <-. exists b, h, lq, lk, bk, h', d'. auto.
Qed.

(** ** Softmax *)

Lemma softmax_shape (x : Tensor) : shape (softmax x) = shape x.
Proof. reflexivity. Qed.

Lemma softmax_row_sum (x : Tensor) (b h lq lk i hh q k0 : nat) :
  shape x = [b; h; lq; lk] ->
  in_bounds [i; hh; q; k0] (shape x) = true ->
  Rsum lk (fun k => elem (softmax x) [i; hh; q; k]) = 1.
Proof.
  intros Hs Hin. rewrite Hs in Hin.
  apply in_bounds4 in Hin as (i' & j' & q' & k' & Heq & Hi & Hh & Hq & Hk).
  injection Heq as <- <- <- <-.
  set (S := Rsum lk (fun j => exp (elem x [i; hh; q; j]))).
  assert (HS : 0 < S) by (apply Rsum_exp_pos; lia).
  rewrite (Rsum_ext lk _ (fun k => exp (elem x [i; hh; q; k]) * / S)).
  - rewrite Rsum_scale. fold S. field. lra.
  - intros k Hlt. unfold softmax. rewrite elem_tabulate.
    + unfold last_dim. rewrite Hs. simpl. fold S. reflexivity.
    + rewrite Hs. apply in_bounds4_intro; assumption.
Qed.

(** ** The weights are computed on well-formed inputs *)

Lemma broadcast_dim_same (a : nat) : broadcast_dim a a = Ok a.
Proof. unfold broadcast_dim. rewrite Nat.eqb_refl. reflexivity. Qed.

Lemma dim_of_int_nonneg (z : Z) : (0 <= z)%Z -> dim_of_int z = Ok (Z.to_nat z).
Proof.
  intros H. unfold dim_of_int.
  destruct (Z.ltb_spec z 0); [lia | reflexivity].
Qed.

Lemma py_or_head_ch_nonneg (o : option Z) (c nh hc : Z) :
  match o with Some v => (0 <= v)%Z | None => True end ->
  (0 <= c)%Z -> (0 < nh)%Z ->
  py_or o (py_int_truediv c nh) = Ok hc -> (0 <= hc)%Z.
Proof.
  intros Ho Hc Hnh. unfold py_or, py_int_truediv.
  assert (Hq : (0 <= Z.quot c nh)%Z) by (apply Z.quot_pos; lia).
  destruct (Z.eqb_spec nh 0); [lia|].
  destruct o as [v|].
  - destruct (Z.eqb_spec v 0); intros H; injection H as <-; lia.
  - intros H; injection H as <-; lia.
Qed.

Lemma py_or_head_ch_returns (o : option Z) (c nh : Z) :
  (0 < nh)%Z -> exists hc, py_or o (py_int_truediv c nh) = Ok hc.
Proof.
  intros Hnh. unfold py_or, py_int_truediv.
  destruct (Z.eqb_spec nh 0); [lia|].
  destruct o as [v|]; [destruct (v =? 0)%Z|]; eexists; reflexivity.
Qed.

Lemma py_or_out_ch_returns (o : option Z) (c : Z) :
  exists oc, py_or o (Ok c) = Ok oc.
Proof.
  unfold py_or. destruct o as [v|]; [destruct (v =? 0)%Z|];
    eexists; reflexivity.
Qed.

Lemma weights_returns (self : AttentionBlock.t)
    (params : AttentionBlock.Params) (q kv : Tensor) (b lq c lk c' : nat) :
  shape q = [b; lq; c] ->
  shape kv = [b; lk; c'] ->
  (0 < AttentionBlock.num_heads self)%Z ->
  (Z.of_nat c mod AttentionBlock.num_heads self = 0)%Z ->
  match AttentionBlock.head_ch self with
  | Some v => (0 <= v)%Z
  | None => True
  end ->
  exists pw,
    AttentionBlock.weights self params q kv = Ok pw
    /\ shape (snd pw)
       = [b; Z.to_nat (AttentionBlock.num_heads self); lq; lk]
    /\ py_or (AttentionBlock.out_ch self) (Ok (Z.of_nat c))
       = Ok (AttentionBlock.l_out_ch (fst pw))
    /\ exists d,
         shape (AttentionBlock.l_value (fst pw))
         = [b; lk; Z.to_nat (AttentionBlock.num_heads self); d].
Proof.
  intros Hq Hkv Hnh Hmod Hhc.
  unfold AttentionBlock.weights, AttentionBlock.project.
  unfold ndim, last_dim. rewrite Hq, Hkv. simpl.
  unfold py_mod. destruct (Z.eqb_spec (AttentionBlock.num_heads self) 0);
    [lia|]. simpl. rewrite Hmod. simpl.
  destruct (py_or_head_ch_returns (AttentionBlock.head_ch self)
              (Z.of_nat c) _ Hnh) as [hc Hhc'].
  assert (Hhc0 : (0 <= hc)%Z).
  { apply (py_or_head_ch_nonneg _ (Z.of_nat c)
             (AttentionBlock.num_heads self) hc Hhc); [lia|lia|].
    exact Hhc'. }
  rewrite Hhc'. simpl.
  destruct (py_or_out_ch_returns (AttentionBlock.out_ch self) (Z.of_nat c))
    as [oc Hoc].
  rewrite Hoc. simpl.
  rewrite (dim_of_int_nonneg _ (Z.lt_le_incl _ _ Hnh)). simpl.
  rewrite (dim_of_int_nonneg _ Hhc0). simpl.
  unfold DenseGeneral_heads. rewrite Hq, Hkv. simpl.
  unfold AttentionBlock.scores, AttentionBlock.einsum_qk. simpl.
  rewrite broadcast_dim_same. simpl.
  unfold AttentionBlock.post_mix.
  destruct (AttentionBlock.talking_heads self); simpl.
  - eexists. split; [reflexivity|]. simpl. split; [reflexivity|].
    split; [reflexivity|]. eexists. reflexivity.
  - eexists. split; [reflexivity|]. simpl. split; [reflexivity|].
    split; [reflexivity|]. eexists. reflexivity.
Qed.

(** ** Normalisation of the weights *)

(** On the weights of a self-attention call, lines 70-89 return a tensor of
    shape (b, l, out_ch) for every rate of the first dropout. *)
Lemma attend_returns (self : AttentionBlock.t)
    (params : AttentionBlock.Params) (rng : PRNGKey) (is_training : bool)
    (pr : AttentionBlock.Projections) (rate : R) (w : Tensor)
    (b h lq lk d : nat) :
  shape w = [b; h; lq; lk] ->
  shape (AttentionBlock.l_value pr) = [b; lk; h; d] ->
  (0 <= AttentionBlock.l_out_ch pr)%Z ->
  exists out,
    AttentionBlock.attend self params rng is_training pr rate w = Ok out
    /\ shape out = [b; lq; Z.to_nat (AttentionBlock.l_out_ch pr)].
Proof.
  intros Hw Hv Ho. unfold AttentionBlock.attend, AttentionBlock.einsum_wv.
  rewrite shape_Dropout, Hw, Hv, broadcast_dim_same. cbn [bind].
  rewrite (dim_of_int_nonneg _ Ho). cbn [bind].
  unfold DenseGeneral_merge. cbn [shape tabulate bind].
  eexists. split; [reflexivity|]. rewrite shape_Dropout. reflexivity.
Qed.

(** The stages of the weights: the projections of lines 25-45, the scores
    of lines 47-57, the softmax of line 59 and the mixing of lines 61-68. *)
Lemma weights_stages (self : AttentionBlock.t)
    (params : AttentionBlock.Params) (q kv : Tensor)
    (pw : AttentionBlock.Projections * Tensor) :
  AttentionBlock.weights self params q kv = Ok pw ->
  exists s,
    AttentionBlock.project self params q kv = Ok (fst pw)
    /\ AttentionBlock.scores self params (fst pw) = Ok s
    /\ AttentionBlock.post_mix self params (softmax s) = Ok (snd pw).
Proof.
  unfold AttentionBlock.weights. intros H.
  inv_bind H as pr Hpr. inv_bind H as s Hs. inv_bind H as a Ha.
  injection H as <-. exists s. cbn [fst snd]. auto.
Qed.

(** C5.  Whenever the call computes its attention weights, the tensor it
    hands on is the mixing of lines 61-68 applied to the softmax of the
    scores of lines 47-57, and that softmax, the weights right after line
    59, has rank 4, its last axis is the key axis of [inputs_kv], and the
    row of every weight in it, that is the weights of one batch element,
    head and query position over all key positions, sums to 1; without
    talking heads it is the tensor handed on.  The weights are computed for
    all rank-3 inputs of one batch size whose channel count is a multiple of
    a positive [num_heads]. *)
Theorem softmax_weights_rows_sum_to_one :
  forall (self : AttentionBlock.t) (params : AttentionBlock.Params)
         (q kv : Tensor),
    (forall pw,
       AttentionBlock.weights self params q kv = Ok pw ->
       exists s,
         AttentionBlock.scores self params (fst pw) = Ok s
         /\ AttentionBlock.post_mix self params (softmax s) = Ok (snd pw)
         /\ ndim (softmax s) = 4%nat
         /\ last_dim (softmax s) = nth 1 (shape kv) 0%nat
         /\ (forall b h qi k0,
               in_bounds [b; h; qi; k0] (shape (softmax s)) = true ->
               Rsum (last_dim (softmax s))
                 (fun k => elem (softmax s) [b; h; qi; k]) = 1)
         /\ (AttentionBlock.talking_heads self = false ->
             snd pw = softmax s))
    /\ (forall b lq c lk c',
          shape q = [b; lq; c] ->
          shape kv = [b; lk; c'] ->
          (0 < AttentionBlock.num_heads self)%Z ->
          (Z.of_nat c mod AttentionBlock.num_heads self = 0)%Z ->
          match AttentionBlock.head_ch self with
          | Some v => (0 <= v)%Z
          | None => True
          end ->
          exists pw,
            AttentionBlock.weights self params q kv = Ok pw
            /\ shape (snd pw)
               = [b; Z.to_nat (AttentionBlock.num_heads self); lq; lk]).
Proof.
  intros self params q kv. split.
  - intros pw H.
    destruct (weights_stages self params q kv pw H) as (s & Hpr & Hs & Hpm).
    exists s. split; [exact Hs|]. split; [exact Hpm|].
    apply project_Ok in Hpr
      as (bq & lq & c & bk & lk & c' & h & d & Hq & Hkv & _ & _ & Hkey & _).
    pose proof Hs as Hs0.
    apply scores_Ok in Hs0
      as (b & h1 & lq1 & lk1 & bk1 & h' & d' & Hss & Hkey').
    rewrite Hkey in Hkey'. injection Hkey' as <- <- <- <-.
    unfold ndim, last_dim. rewrite softmax_shape, Hss, Hkv. simpl.
    split; [reflexivity|]. split; [reflexivity|]. split.
    + intros i hh qi k0 Hin.
      apply (softmax_row_sum s b h1 lq1 lk i hh qi k0 Hss).
      rewrite Hss. exact Hin.
    + intros Hth. unfold AttentionBlock.post_mix in Hpm.
      rewrite Hth in Hpm. injection Hpm as <-. reflexivity.
  - intros b lq c lk c' Hq Hkv Hnh Hmod Hhc.
    destruct (weights_returns self params q kv b lq c lk c' Hq Hkv Hnh Hmod
                Hhc) as [pw [Hpw [Hw _]]].
    exists pw. split; [exact Hpw | exact Hw].
Qed.

Lemma softmax_weights_rows_sum_to_one_witness :
  exists pw,
    AttentionBlock.weights example_attention example_params
      (ones [2; 5; 8]%nat) (ones [2; 3; 8]%nat) = Ok pw
    /\ shape (snd pw) = [2; 2; 5; 3]%nat
    /\ Rsum 3 (fun k => elem (snd pw) [1; 0; 4; k]%nat) = 1.
Proof.
  eexists. split; [reflexivity|]. split; [reflexivity|].
  destruct (proj1
    (softmax_weights_rows_sum_to_one example_attention example_params
       (ones [2; 5; 8]%nat) (ones [2; 3; 8]%nat)) _ eq_refl)
    as (s & _ & _ & _ & _ & Hrow & Hth).
  rewrite <- (Hth eq_refl) in Hrow.
  exact (Hrow 1%nat 0%nat 4%nat 0%nat eq_refl).
Defined.

(** ** Errors of the attention block *)

Lemma later_error_not_configuration (e : PyError) :
  later_error e -> ~ ConfigurationError e.
Proof.
  intros [[s ->]|[c [a ->]]] [H|H]; discriminate.
Qed.

Lemma dim_of_int_Raise (z : Z) (e : PyError) :
  dim_of_int z = Raise e -> later_error e.
Proof.
  unfold dim_of_int. destruct (z <? 0)%Z; [|discriminate].
  intros H. injection H as <-. left. eexists. reflexivity.
Qed.

Lemma broadcast_dim_Raise (a b : nat) (e : PyError) :
  broadcast_dim a b = Raise e -> later_error e.
Proof.
  unfold broadcast_dim.
  destruct (a =? b)%nat; [discriminate|].
  destruct (a =? 1)%nat; [discriminate|].
  destruct (b =? 1)%nat; [discriminate|].
  intros H. injection H as <-. left. eexists. reflexivity.
Qed.

Lemma DenseGeneral_heads_Raise (h d : nat) (ub : bool) (p : DenseParams)
    (x : Tensor) (e : PyError) :
  DenseGeneral_heads h d ub p x = Raise e -> later_error e.
Proof.
  unfold DenseGeneral_heads.
  destruct (shape x) as [|b [|l [|c [|? ?]]]]; try discriminate;
    intros H; injection H as <-; left; eexists; reflexivity.
Qed.

Lemma einsum_qk_Raise (query key : Tensor) (e : PyError) :
  AttentionBlock.einsum_qk query key = Raise e -> later_error e.
Proof.
  unfold AttentionBlock.einsum_qk.
  destruct (shape query) as [|bq [|lq [|h [|d [|? ?]]]]];
    try (intros H; injection H as <-; left; eexists; reflexivity).
  destruct (shape key) as [|bk [|lk [|h' [|d' [|? ?]]]]];
    try (intros H; injection H as <-; left; eexists; reflexivity).
  intros H. apply bind_Raise in H as [H|[a [_ H]]]; [|discriminate].
  apply broadcast_dim_Raise in H. exact H.
Qed.

Lemma einsum_heads_Raise (w : Tensor) (m : Index -> R) (e : PyError) :
  AttentionBlock.einsum_heads w m = Raise e -> later_error e.
Proof.
  unfold AttentionBlock.einsum_heads.
  destruct (shape w) as [|b [|h [|lq [|lk [|? ?]]]]]; try discriminate;
    intros H; injection H as <-; left; eexists; reflexivity.
Qed.

Lemma divisible_inv (c nh : Z) :
  divisible c nh -> nh <> 0%Z /\ (c mod nh = 0)%Z.
Proof.
  unfold divisible, py_mod. destruct (Z.eqb_spec nh 0); [discriminate|].
  intros H. injection H as H. auto.
Qed.

Lemma not_divisible_inv (c nh : Z) :
  ~ divisible c nh -> nh = 0%Z \/ (nh <> 0%Z /\ (c mod nh <> 0)%Z).
Proof.
  unfold divisible, py_mod. destruct (Z.eqb_spec nh 0); [auto|].
  intros H. right. split; [assumption|]. intros Heq. apply H.
  rewrite Heq. reflexivity.
Qed.

Ltac step_Raise H :=
  apply bind_Raise in H;
  let a := fresh "a" in
  let Ha := fresh "Ha" in
  destruct H as [H|[a [Ha H]]].

Lemma weights_Raise_divisible (self : AttentionBlock.t)
    (params : AttentionBlock.Params) (q kv : Tensor) (e : PyError) :
  ndim q = 3%nat -> ndim kv = 3%nat ->
  divisible (Z.of_nat (last_dim q)) (AttentionBlock.num_heads self) ->
  AttentionBlock.weights self params q kv = Raise e ->
  later_error e.
Proof.
  intros Hq Hkv Hdiv. apply divisible_inv in Hdiv as [Hnh Hmod].
  unfold AttentionBlock.weights, AttentionBlock.project.
  rewrite Hq, Hkv. simpl.
  unfold py_mod. destruct (Z.eqb_spec (AttentionBlock.num_heads self) 0);
    [contradiction|]. simpl. rewrite Hmod. simpl.
  intros H. step_Raise H.
  - step_Raise H.
    { unfold py_or, py_int_truediv in H.
      destruct (Z.eqb_spec (AttentionBlock.num_heads self) 0);
        [contradiction|].
      destruct (AttentionBlock.head_ch self) as [v|];
        [destruct (v =? 0)%Z|]; discriminate. }
    step_Raise H.
    { unfold py_or in H.
      destruct (AttentionBlock.out_ch self) as [v|];
        [destruct (v =? 0)%Z|]; discriminate. }
    step_Raise H; [apply dim_of_int_Raise in H; exact H|].
    step_Raise H; [apply dim_of_int_Raise in H; exact H|].
    step_Raise H; [apply DenseGeneral_heads_Raise in H; exact H|].
    step_Raise H; [apply DenseGeneral_heads_Raise in H; exact H|].
    step_Raise H; [apply DenseGeneral_heads_Raise in H; exact H|].
    discriminate.
  - step_Raise H.
    + unfold AttentionBlock.scores in H. step_Raise H.
      * apply einsum_qk_Raise in H. exact H.
      * destruct (AttentionBlock.talking_heads self); [|discriminate].
        apply einsum_heads_Raise in H. exact H.
    + step_Raise H; [|discriminate].
      unfold AttentionBlock.post_mix in H.
      destruct (AttentionBlock.talking_heads self); [|discriminate].
      apply einsum_heads_Raise in H. exact H.
Qed.

Lemma project_Raise_not_divisible (self : AttentionBlock.t)
    (params : AttentionBlock.Params) (q kv : Tensor) :
  ndim q = 3%nat -> ndim kv = 3%nat ->
  ~ divisible (Z.of_nat (last_dim q)) (AttentionBlock.num_heads self) ->
  AttentionBlock.project self params q kv
  = Raise (divisibility_error (AttentionBlock.num_heads self)).
Proof.
  intros Hq Hkv Hdiv. apply not_divisible_inv in Hdiv.
  unfold AttentionBlock.project, divisibility_error.
  rewrite Hq, Hkv. simpl. unfold py_mod.
  destruct (Z.eqb_spec (AttentionBlock.num_heads self) 0) as [H0|H0];
    [reflexivity|].
  destruct Hdiv as [Hd|[_ Hd]]; [contradiction|]. simpl.
  destruct (Z.eqb_spec (Z.of_nat (last_dim q) mod AttentionBlock.num_heads self) 0);
    [contradiction|reflexivity].
Qed.

(** C6.  On rank-3 inputs: when the test [in_ch % self.num_heads == 0] of
    line 28 does not hold, the projection stage, and with it the call,
    raises the error of that line whatever the parameters, the key and the
    contents of the inputs are (an assertion error, or the division by zero
    of the test when [num_heads = 0]); when the test holds, no error the
    call raises comes from line 28. *)
Theorem divisibility_check_guards_the_call :
  forall (self : AttentionBlock.t) (params : AttentionBlock.Params)
         (rng : PRNGKey) (q kv : Tensor) (is_training : bool),
    ndim q = 3%nat -> ndim kv = 3%nat ->
    (~ divisible (Z.of_nat (last_dim q)) (AttentionBlock.num_heads self) ->
     ConfigurationError (divisibility_error (AttentionBlock.num_heads self))
     /\ AttentionBlock.project self params q kv
        = Raise (divisibility_error (AttentionBlock.num_heads self))
     /\ AttentionBlock.call self params rng q kv is_training
        = Raise (divisibility_error (AttentionBlock.num_heads self)))
    /\ (divisible (Z.of_nat (last_dim q)) (AttentionBlock.num_heads self) ->
        forall e,
          AttentionBlock.call self params rng q kv is_training = Raise e ->
          ~ ConfigurationError e).
Proof.
  intros self params rng q kv is_training Hq Hkv. split.
  - intros Hdiv. split.
    + unfold ConfigurationError, divisibility_error.
      destruct (AttentionBlock.num_heads self =? 0)%Z; auto.
    + pose proof (project_Raise_not_divisible self params q kv Hq Hkv Hdiv)
        as Hp.
      split; [exact Hp|].
      unfold AttentionBlock.call, AttentionBlock.weights. rewrite Hp.
      reflexivity.
  - intros Hdiv e H. apply later_error_not_configuration.
    unfold AttentionBlock.call in H. step_Raise H.
    + exact (weights_Raise_divisible self params q kv e Hq Hkv Hdiv H).
    + step_Raise H; [|discriminate].
      rewrite getattr_attn_dropout_rate in H. injection H as <-.
      right. eexists. eexists. reflexivity.
Qed.

Lemma divisibility_check_guards_the_call_witness :
  AttentionBlock.call example_attention example_params example_key
    (ones [2; 5; 7]%nat) (ones [2; 5; 7]%nat) true
  = Raise (AssertionError "in_ch % self.num_heads == 0")
  /\ ~ ConfigurationError (AttributeError "AttentionBlock" "attn_dropout_rate").
Proof.
  split.
  - refine (proj2 (proj2 (proj1
      (divisibility_check_guards_the_call example_attention example_params
         example_key (ones [2; 5; 7]%nat) (ones [2; 5; 7]%nat) true
         eq_refl eq_refl) _))).
    unfold divisible. simpl. discriminate.
  - refine (proj2
      (divisibility_check_guards_the_call example_attention example_params
         example_key (ones [2; 5; 8]%nat) (ones [2; 5; 8]%nat) true
         eq_refl eq_refl) _ _ _).
    + reflexivity.
    + eapply call_raises_after_weights. reflexivity.
Defined.

(** ** Talking heads *)














Lemma softmax_unfold (x : Tensor) :
  softmax x
  = tabulate (shape x) (fun idx =>
      match idx with
      | [b; h; q; k] =>
          exp (elem x [b; h; q; k])
          / Rsum (last_dim x) (fun j => exp (elem x [b; h; q; j]))
      | _ => 0
      end).
Proof. reflexivity. Qed.





(** ** Addition of tensors *)

Lemma broadcast_dim_comm (a b : nat) : broadcast_dim a b = broadcast_dim b a.
Proof.
  unfold broadcast_dim.
  destruct (Nat.eqb_spec a b) as [->|Hab].
  - rewrite Nat.eqb_refl. reflexivity.
  - destruct (Nat.eqb_spec b a) as [Hba|_]; [congruence|].
    destruct (Nat.eqb_spec a 1) as [Ha|Ha];
      destruct (Nat.eqb_spec b 1) as [Hb|Hb]; try reflexivity.
    congruence.
Qed.

Lemma broadcast_rev_same (s : list nat) : broadcast_rev s s = Ok s.
Proof.
  induction s as [|a s IH]; [reflexivity|].
  cbn [broadcast_rev]. rewrite broadcast_dim_same. cbn [bind].
  rewrite IH. reflexivity.
Qed.

Lemma in_bounds_length (idx : Index) (sh : list nat) :
  in_bounds idx sh = true -> List.length idx = List.length sh.
Proof.
  revert sh. induction idx as [|i idx IH]; intros [|n sh]; simpl;
    try discriminate; [reflexivity|].
  intros H. apply andb_true_iff in H as [_ H]. f_equal. apply IH. exact H.
Qed.

Lemma zip_bidx_in_bounds (idx : Index) (sh : list nat) :
  in_bounds idx sh = true -> zip_bidx sh idx = idx.
Proof.
  revert sh. induction idx as [|i idx IH]; intros [|n sh]; simpl;
    try discriminate; [reflexivity|].
  intros H. apply andb_true_iff in H as [Hi H]. apply Nat.ltb_lt in Hi.
  rewrite (IH sh H). f_equal. unfold bidx.
  destruct (Nat.eqb_spec n 1) as [->|_]; [lia|reflexivity].
Qed.

Lemma bcast_index_in_bounds (idx : Index) (sh : list nat) :
  in_bounds idx sh = true -> bcast_index sh idx = idx.
Proof.
  intros H. unfold bcast_index.
  rewrite (in_bounds_length idx sh H), Nat.sub_diag. cbn [skipn].
  apply zip_bidx_in_bounds. exact H.
Qed.

(** The sum of two tensors of one shape is the tensor of that shape of the
    sums of their elements. *)
Lemma tensor_add_same_shape (a b : Tensor) :
  shape a = shape b ->
  exists c,
    tensor_add a b = Ok c
    /\ shape c = shape a
    /\ forall idx,
         in_bounds idx (shape a) = true ->
         elem c idx = elem a idx + elem b idx.
Proof.
  intros H. unfold tensor_add, broadcast_shapes. rewrite <- H.
  rewrite broadcast_rev_same. cbn [bind]. rewrite rev_involutive.
  eexists. split; [reflexivity|]. split; [reflexivity|].
  intros idx Hin. rewrite elem_tabulate by exact Hin.
  rewrite (bcast_index_in_bounds idx _ Hin). reflexivity.
Qed.

Lemma ndim3_shape (x : Tensor) :
  ndim x = 3%nat -> exists b l c, shape x = [b; l; c].
Proof.
  unfold ndim. destruct (shape x) as [|b [|l [|c [|? ?]]]]; try discriminate.
  intros _. exists b, l, c. reflexivity.
Qed.

(** ** The residual sums of the encoder block *)

(** When the attention sublayer returns a tensor [a] of the shape of
    [inputs], the block forms [x1] with [x1 = inputs + a] element by
    element; when the feed-forward sublayer then returns a tensor [f] of
    that shape on the normalised [x1], the block returns [x1 + f] element by
    element.  Both sums take the operand that was not normalised. *)
Lemma encoder_block_residual_sums (L : Layers) (self : EncoderBlock.t)
    (params : EncoderBlock.Params) (rng : PRNGKey) (inputs n a : Tensor)
    (is_training : bool) :
  LayerNorm (EncoderBlock.LayerNorm_0 params) inputs = Ok n ->
  SelfAttentionBlock_call (EncoderBlock.attention self)
    (EncoderBlock.SelfAttentionBlock_0 params) (fold_in rng 0) n is_training
  = Ok a ->
  shape a = shape inputs ->
  exists x1,
    tensor_add a inputs = Ok x1
    /\ shape x1 = shape inputs
    /\ (forall idx,
          in_bounds idx (shape inputs) = true ->
          elem x1 idx = elem inputs idx + elem a idx)
    /\ forall n1 f,
         LayerNorm (EncoderBlock.LayerNorm_1 params) x1 = Ok n1 ->
         FFBlock_call (EncoderBlock.feed_forward self)
           (EncoderBlock.FFBlock_0 params) (fold_in rng 1) n1 is_training
         = Ok f ->
         shape f = shape inputs ->
         exists out,
           EncoderBlock.call self params rng inputs is_training = Ok out
           /\ shape out = shape inputs
           /\ forall idx,
                in_bounds idx (shape inputs) = true ->
                elem out idx = elem x1 idx + elem f idx.
Proof.
  intros Hn Ha Has.
  destruct (tensor_add_same_shape a inputs Has) as (x1 & Hx1 & Hx1s & Hx1e).
  exists x1. split; [exact Hx1|]. split; [congruence|]. split.
  - intros idx Hin. rewrite Hx1e by (rewrite Has; exact Hin). ring.
  - intros n1 f Hn1 Hf Hfs.
    destruct (tensor_add_same_shape x1 f) as (out & Hout & Houts & Houte);
      [congruence|].
    exists out. split; [|split].
    + unfold EncoderBlock.call. rewrite Hn. cbn [bind]. rewrite Ha.
      cbn [bind]. rewrite Hx1. cbn [bind]. rewrite Hn1. cbn [bind].
      rewrite Hf. cbn [bind]. rewrite Hout. reflexivity.
    + congruence.
    + intros idx Hin. apply Houte. rewrite Hx1s, Has. exact Hin.
Qed.

(** ** Configuration of the attention sublayers *)

(** C9.  The self-attention block an encoder block builds, and the attention
    block that one delegates to, have [talking_heads = False],
    [use_bias = False] and the default bias initializer, whatever the
    configuration of the encoder block is, hence also for the blocks of any
    [Encoder] and of any [ViT]; accordingly the weights, the rest of the
    call and the call of that sublayer do not depend on the biases or on the
    head-mixing matrices among its parameters. *)
Theorem encoder_attention_has_no_talking_heads_and_no_bias :
  (forall blk : EncoderBlock.t,
     let sa := EncoderBlock.attention blk in
     SelfAttentionBlock.talking_heads sa = false
     /\ SelfAttentionBlock.use_bias sa = false
     /\ SelfAttentionBlock.bias_init sa = zeros
     /\ AttentionBlock.talking_heads (SelfAttentionBlock.inner sa) = false
     /\ AttentionBlock.use_bias (SelfAttentionBlock.inner sa) = false
     /\ AttentionBlock.bias_init (SelfAttentionBlock.inner sa)
        = AttentionBlock.default_bias_init)
  /\ (forall enc : Encoder.t,
        let sa := EncoderBlock.attention (Encoder.block enc) in
        SelfAttentionBlock.talking_heads sa = false
        /\ SelfAttentionBlock.use_bias sa = false
        /\ SelfAttentionBlock.bias_init sa = zeros)
  /\ (forall vit : ViT.t,
        let sa :=
          EncoderBlock.attention (Encoder.block (ViT.encoder vit)) in
        SelfAttentionBlock.talking_heads sa = false
        /\ SelfAttentionBlock.use_bias sa = false
        /\ SelfAttentionBlock.bias_init sa = zeros)
  /\ (forall (blk : EncoderBlock.t) (params : AttentionBlock.Params)
             (bq bk bv bo pre post : Index -> R) (rng : PRNGKey)
             (x : Tensor) (is_training : bool),
        let a := SelfAttentionBlock.inner (EncoderBlock.attention blk) in
        let params' := set_biases_and_mixing params bq bk bv bo pre post in
        AttentionBlock.weights a params' x x = AttentionBlock.weights a params x x
        /\ (forall pr rate w,
              AttentionBlock.attend a params' rng is_training pr rate w
              = AttentionBlock.attend a params rng is_training pr rate w)
        /\ SelfAttentionBlock.call (EncoderBlock.attention blk) params' rng x
             is_training
           = SelfAttentionBlock.call (EncoderBlock.attention blk) params rng x
               is_training).
Proof.
  split; [intros blk; repeat split|].
  split; [intros enc; repeat split|].
  split; [intros vit; repeat split|].
  intros blk params bq bk bv bo pre post rng x is_training.
  repeat split.
Qed.

(** ** The class token *)

Lemma in_bounds3_intro (i j k a b c : nat) :
  (i < a)%nat -> (j < b)%nat -> (k < c)%nat ->
  in_bounds [i; j; k] [a; b; c] = true.
Proof.
  intros Hi Hj Hk. simpl.
  apply Nat.ltb_lt in Hi, Hj, Hk. rewrite Hi, Hj, Hk. reflexivity.
Qed.

Lemma prepend_cls_spec (self : ViT.t) (cls : Index -> R) (x : Tensor)
    (b l c : nat) :
  shape x = [b; l; c] ->
  ViT.embed_dim self = Z.of_nat c ->
  exists t,
    ViT.prepend_cls self cls x = Ok t
    /\ shape t = [b; S l; c]
    /\ (forall i k, (i < b)%nat -> (k < c)%nat ->
          elem t [i; 0%nat; k] = cls [0%nat; 0%nat; k])
    /\ (forall i j k, (i < b)%nat -> (j < l)%nat -> (k < c)%nat ->
          elem t [i; S j; k] = elem x [i; j; k]).
Proof.
  intros Hx He. unfold ViT.prepend_cls. rewrite Hx, He.
  rewrite dim_of_int_nonneg by lia. rewrite Nat2Z.id. cbn [bind].
  unfold tile_batch. cbn [shape tabulate bind].
  unfold concatenate_axis1. cbn [shape tabulate]. rewrite Hx.
  rewrite Nat.mul_1_r, !Nat.eqb_refl. cbn [andb].
  eexists. split; [reflexivity|]. split; [reflexivity|]. split.
  - intros i k Hi Hk.
    rewrite elem_tabulate by (apply in_bounds3_intro; lia).
    cbn [Nat.ltb Nat.leb].
    rewrite elem_tabulate by (apply in_bounds3_intro; lia).
    rewrite Nat.mod_1_r.
    apply elem_tabulate. apply in_bounds3_intro; lia.
  - intros i j k Hi Hj Hk.
    rewrite elem_tabulate by (apply in_bounds3_intro; lia).
    cbn [Nat.ltb Nat.leb Nat.sub]. rewrite Nat.sub_0_r. reflexivity.
Qed.

Lemma take_row0_spec (y : Tensor) (b l c : nat) :
  shape y = [b; S l; c] ->
  exists r,
    take_row0 y = Ok r
    /\ shape r = [b; c]
    /\ (forall i k, (i < b)%nat -> (k < c)%nat ->
          elem r [i; k] = elem y [i; 0%nat; k]).
Proof.
  intros Hy. unfold take_row0. rewrite Hy. cbn [Nat.eqb].
  eexists. split; [reflexivity|]. split; [reflexivity|].
  intros i k Hi Hk. rewrite elem_tabulate; [reflexivity|].
  simpl. apply Nat.ltb_lt in Hi, Hk. rewrite Hi, Hk. reflexivity.
Qed.

(** C7.  When the patch embedding returns patch tokens [x] of shape
    (b, l, c) with [c = embed_dim], the sequence the model hands to the
    encoder has shape (b, 1 + l, c); at index 0 of every batch element it
    holds the one class-token vector, the same for all batch elements, and
    the patch tokens follow from index 1.  An error of the encoder on that
    sequence is the error of the model; when the encoder returns [y], the
    model returns the head applied to the elements of [y] at sequence index
    0: logit [o] of batch element [i] is the sum over [j] of
    [y[i, 0, j] * kernel[j, o]], plus [bias[o]]. *)
Theorem class_token_is_first_and_is_pooled :
  forall (L : Layers) (self : ViT.t) (params : ViT.Params) (rng : PRNGKey)
         (inputs x : Tensor) (is_training : bool) (b l c : nat),
    py_mod (ViT.embed_dim self) (ViT.num_heads self) = Ok 0%Z ->
    PatchEmbedBlock_call (ViT.patch_embed self) (ViT.PatchEmbedBlock_0 params)
      inputs = Ok x ->
    shape x = [b; l; c] ->
    ViT.embed_dim self = Z.of_nat c ->
    exists t,
      ViT.tokens self params inputs = Ok t
      /\ shape t = [b; S l; c]
      /\ (forall i k, (i < b)%nat -> (k < c)%nat ->
            elem t [i; 0%nat; k] = ViT.cls params [0%nat; 0%nat; k])
      /\ (forall i j k, (i < b)%nat -> (j < l)%nat -> (k < c)%nat ->
            elem t [i; S j; k] = elem x [i; j; k])
      /\ (forall e,
            Encoder.call (ViT.encoder self) (ViT.Encoder_0 params) rng t
              is_training = Raise e ->
            ViT.call self params rng inputs is_training = Raise e)
      /\ (forall y b' l' c',
            Encoder.call (ViT.encoder self) (ViT.Encoder_0 params) rng t
              is_training = Ok y ->
            shape y = [b'; S l'; c'] ->
            (0 <= ViT.num_classes self)%Z ->
            exists out,
              ViT.call self params rng inputs is_training = Ok out
              /\ shape out = [b'; Z.to_nat (ViT.num_classes self)]
              /\ forall i o,
                   (i < b')%nat ->
                   (o < Z.to_nat (ViT.num_classes self))%nat ->
                   elem out [i; o]
                   = Rsum c' (fun j =>
                       elem y [i; 0%nat; j]
                       * kernel (ViT.Dense_0 params) [j; o])
                     + bias (ViT.Dense_0 params) [o]).
Proof.
  intros L self params rng inputs x is_training b l c Hmod Hpatch Hx He.
  destruct (prepend_cls_spec self (ViT.cls params) x b l c Hx He)
    as (t & Ht & Hts & Hcls & Hpatches).
  assert (Htok : ViT.tokens self params inputs = Ok t).
  { unfold ViT.tokens. rewrite Hmod. cbn [bind Z.eqb assert].
    rewrite Hpatch. exact Ht. }
  exists t. split; [exact Htok|]. split; [exact Hts|].
  split; [exact Hcls|]. split; [exact Hpatches|]. split.
  - intros e Hy. unfold ViT.call. rewrite Htok. cbn [bind]. rewrite Hy.
    reflexivity.
  - intros y b' l' c' Hy Hys Hn. unfold ViT.call. rewrite Htok. cbn [bind].
    rewrite Hy. cbn [bind]. unfold ViT.classify.
    destruct (take_row0_spec y b' l' c' Hys) as (r & Hr & Hrs & Hre).
    rewrite Hr. cbn [bind]. rewrite (dim_of_int_nonneg _ Hn). cbn [bind].
    unfold Dense, last_dim. rewrite Hrs. cbn [removelast app bind last].
    eexists. split; [reflexivity|]. split; [reflexivity|].
    intros i o Hi Ho. rewrite elem_tabulate.
    + unfold set_last. cbn [removelast app last]. f_equal.
      apply Rsum_ext. intros j Hj. rewrite (Hre i j Hi Hj). reflexivity.
    + simpl. apply Nat.ltb_lt in Hi, Ho. rewrite Hi, Ho. reflexivity.
Qed.

Lemma class_token_is_first_and_is_pooled_witness :
  exists t,
    ViT.tokens (L := example_layers) (example_vit 0) (example_vit_params 0)
      example_images = Ok t
    /\ shape t = [4; 197; 64]%nat
    /\ elem t [3; 0; 5]%nat = 0
    /\ elem t [3; 1; 5]%nat = 1.
Proof.
  destruct (class_token_is_first_and_is_pooled example_layers (example_vit 0)
              (example_vit_params 0) example_key example_images
              (ones [4; 196; 64]%nat) false 4%nat 196%nat 64%nat
              eq_refl eq_refl eq_refl eq_refl)
    as (t & Ht & Hs & Hcls & Hpatches & _).
  exists t. split; [exact Ht|]. split; [exact Hs|]. split.
  - exact (Hcls 3%nat 5%nat ltac:(lia) ltac:(lia)).
  - exact (Hpatches 3%nat 0%nat 5%nat ltac:(lia) ltac:(lia) ltac:(lia)).
Defined.

(** ** The model with the attention block of the repository *)

Lemma LayerNorm_Ok (p : LayerNormParams) (x : Tensor) (a : nat)
    (rest : list nat) :
  shape x = a :: rest ->
  exists y, LayerNorm p x = Ok y /\ shape y = shape x.
Proof.
  intros Hx. unfold LayerNorm. rewrite Hx.
  eexists. split; reflexivity.
Qed.

Lemma self_attention_raises (self : SelfAttentionBlock.t)
    (params : AttentionBlock.Params) (rng : PRNGKey) (x : Tensor)
    (is_training : bool) (b l c : nat) :
  shape x = [b; l; c] ->
  (0 < SelfAttentionBlock.num_heads self)%Z ->
  (Z.of_nat c mod SelfAttentionBlock.num_heads self = 0)%Z ->
  match SelfAttentionBlock.head_ch self with
  | Some v => (0 <= v)%Z
  | None => True
  end ->
  SelfAttentionBlock.call self params rng x is_training
  = Raise (AttributeError "AttentionBlock" "attn_dropout_rate").
Proof.
  intros Hx Hnh Hmod Hhc. unfold SelfAttentionBlock.call.
  destruct (weights_returns (SelfAttentionBlock.inner self) params x x
              b l c l c Hx Hx Hnh Hmod Hhc) as [pw [Hpw _]].
  exact (call_raises_after_weights _ _ _ _ _ _ pw Hpw).
Qed.

Section Repository.
Variables FFP PosP PatchP : Type.
Variable ff : FFBlock.t -> FFP -> PRNGKey -> Tensor -> bool -> Result Tensor.
Variable pos : PosP -> Tensor -> Result Tensor.
Variable patch : PatchEmbedBlock.t -> PatchP -> Tensor -> Result Tensor.

Local Abbreviation L := (repository_layers FFP PosP PatchP ff pos patch).

Lemma encoder_block_raises (self : EncoderBlock.t)
    (params : EncoderBlock.Params (L := L)) (rng : PRNGKey)
    (inputs : Tensor) (is_training : bool) (b l c : nat) :
  shape inputs = [b; l; c] ->
  (0 < EncoderBlock.num_heads self)%Z ->
  (Z.of_nat c mod EncoderBlock.num_heads self = 0)%Z ->
  EncoderBlock.call self params rng inputs is_training
  = Raise (AttributeError "AttentionBlock" "attn_dropout_rate").
Proof.
  intros Hx Hnh Hmod. unfold EncoderBlock.call.
  destruct (LayerNorm_Ok (EncoderBlock.LayerNorm_0 params) inputs b [l; c] Hx)
    as [y [Hy Hs]].
  rewrite Hy. cbn [bind]. rewrite Hx in Hs.
  change (SelfAttentionBlock_call (EncoderBlock.attention self)
            (EncoderBlock.SelfAttentionBlock_0 params) (fold_in rng 0) y
            is_training)
    with (SelfAttentionBlock.call (EncoderBlock.attention self)
            (EncoderBlock.SelfAttentionBlock_0 params) (fold_in rng 0) y
            is_training).
  rewrite (self_attention_raises (EncoderBlock.attention self) _ _ y
             is_training b l c Hs Hnh Hmod I).
  reflexivity.
Qed.

Lemma encoder_raises (self : Encoder.t) (params : Encoder.Params (L := L))
    (rng : PRNGKey) (inputs x : Tensor) (is_training : bool)
    (b l c : nat) :
  pos (Encoder.AddAbsPosEmbed_0 params) inputs = Ok x ->
  shape x = [b; l; c] ->
  (0 < Encoder.num_layers self)%Z ->
  (0 < Encoder.num_heads self)%Z ->
  (Z.of_nat c mod Encoder.num_heads self = 0)%Z ->
  Encoder.call self params rng inputs is_training
  = Raise (AttributeError "AttentionBlock" "attn_dropout_rate").
Proof.
  intros Hpos Hx Hn Hnh Hmod. unfold Encoder.call.
  change (AddAbsPosEmbed_call (Encoder.AddAbsPosEmbed_0 params) inputs)
    with (pos (Encoder.AddAbsPosEmbed_0 params) inputs).
  rewrite Hpos. cbn [bind].
  destruct (Z.to_nat (Encoder.num_layers self)) as [|n] eqn:En; [lia|].
  cbn [Encoder.layers].
  rewrite (encoder_block_raises (Encoder.block self) _ _ _ is_training
             b l c); [reflexivity| |exact Hnh|exact Hmod].
  rewrite shape_Dropout. exact Hx.
Qed.

Lemma vit_raises (self : ViT.t) (params : ViT.Params (L := L))
    (rng : PRNGKey) (inputs t x : Tensor) (is_training : bool)
    (b l c : nat) :
  ViT.tokens self params inputs = Ok t ->
  pos (Encoder.AddAbsPosEmbed_0 (ViT.Encoder_0 params)) t = Ok x ->
  shape x = [b; l; c] ->
  (0 < ViT.num_layers self)%Z ->
  (0 < ViT.num_heads self)%Z ->
  (Z.of_nat c mod ViT.num_heads self = 0)%Z ->
  ViT.call self params rng inputs is_training
  = Raise (AttributeError "AttentionBlock" "attn_dropout_rate").
Proof.
  intros Ht Hpos Hx Hn Hnh Hmod. unfold ViT.call. rewrite Ht. cbn [bind].
  rewrite (encoder_raises (ViT.encoder self) _ _ t x is_training b l c
             Hpos Hx Hn Hnh Hmod).
  reflexivity.
Qed.

End Repository.

(** C4.  With the self-attention block of [attention.py], whatever the
    three other imported layers are, the encoder block never returns: its
    attention sublayer is called before the first sum and that call does
    not return, so no call of the block computes [x1] or the output.  On an
    input of shape (2, 5, 8), with 8 heads, the call raises the
    [AttributeError] of line 70 of the attention block. *)
Theorem encoder_block_call_raises :
  forall (FFP PosP PatchP : Type)
         (ff : FFBlock.t -> FFP -> PRNGKey -> Tensor -> bool -> Result Tensor)
         (pos : PosP -> Tensor -> Result Tensor)
         (patch : PatchEmbedBlock.t -> PatchP -> Tensor -> Result Tensor)
         (params : EncoderBlock.Params
                     (L := repository_layers FFP PosP PatchP ff pos patch))
         (rng : PRNGKey) (is_training : bool),
    (forall (self : EncoderBlock.t) (inputs out : Tensor),
       EncoderBlock.call
         (L := repository_layers FFP PosP PatchP ff pos patch)
         self params rng inputs is_training <> Ok out)
    /\ EncoderBlock.call
         (L := repository_layers FFP PosP PatchP ff pos patch)
         example_encoder_block params rng (ones [2; 5; 8]%nat) is_training
       = Raise (AttributeError "AttentionBlock" "attn_dropout_rate").
Proof.
  intros FFP PosP PatchP ff pos patch params rng is_training. split.
  - intros self inputs out. unfold EncoderBlock.call.
    destruct (LayerNorm (EncoderBlock.LayerNorm_0 params) inputs) as [n|e];
      [cbn [bind]|discriminate].
    change (SelfAttentionBlock_call (EncoderBlock.attention self)
              (EncoderBlock.SelfAttentionBlock_0 params) (fold_in rng 0) n
              is_training)
      with (AttentionBlock.call
              (SelfAttentionBlock.inner (EncoderBlock.attention self))
              (EncoderBlock.SelfAttentionBlock_0 params) (fold_in rng 0) n n
              is_training).
    pose proof (call_never_returns
                  (SelfAttentionBlock.inner (EncoderBlock.attention self))
                  (EncoderBlock.SelfAttentionBlock_0 params) (fold_in rng 0)
                  n n is_training) as Hnr.
    destruct (AttentionBlock.call
                (SelfAttentionBlock.inner (EncoderBlock.attention self))
                (EncoderBlock.SelfAttentionBlock_0 params) (fold_in rng 0)
                n n is_training) as [a|e]; [|discriminate].
    exfalso. apply (Hnr a). reflexivity.
  - apply (encoder_block_raises FFP PosP PatchP ff pos patch
             example_encoder_block params rng (ones [2; 5; 8]%nat)
             is_training 2%nat 5%nat 8%nat); reflexivity.
Qed.

(** ** The classification head *)

Lemma head_init_kernel_zero (self : ViT.t) (key : PRNGKey) (c n : nat)
    (idx : Index) :
  kernel (ViT.head_init self key c n) idx = 0.
Proof.
  unfold ViT.head_init, zeros. cbn [kernel elem tabulate].
  destruct (in_bounds idx [c; n]); reflexivity.
Qed.

Lemma head_init_bias (self : ViT.t) (key : PRNGKey) (c n : nat) :
  bias (ViT.head_init self key c n)
  = elem (ViT.bias_init self (fold_in key 1) [n]).
Proof. reflexivity. Qed.

Lemma head_init_bias_zero (self : ViT.t) (key : PRNGKey) (c n : nat)
    (idx : Index) :
  ViT.bias_init self = zeros ->
  bias (ViT.head_init self key c n) idx = 0.
Proof.
  intros Hb. unfold ViT.head_init. cbn [bias]. rewrite Hb.
  unfold zeros. cbn [elem tabulate].
  destruct (in_bounds idx [n]); reflexivity.
Qed.

(** With the head as it is created and a zero bias, the head maps every
    encoder output to zero logits. *)
Lemma zero_head_gives_zero_logits (self : ViT.t) (key : PRNGKey)
    (y : Tensor) (b l c : nat) :
  shape y = [b; S l; c] ->
  ViT.bias_init self = zeros ->
  (0 <= ViT.num_classes self)%Z ->
  exists out,
    ViT.classify self
      (ViT.head_init self key c (Z.to_nat (ViT.num_classes self))) y = Ok out
    /\ shape out = [b; Z.to_nat (ViT.num_classes self)]
    /\ forall idx, elem out idx = 0.
Proof.
  intros Hy Hb Hn. unfold ViT.classify.
  destruct (take_row0_spec y b l c Hy) as [r [Hr [Hs _]]].
  rewrite Hr. cbn [bind]. rewrite (dim_of_int_nonneg _ Hn). cbn [bind].
  unfold Dense. rewrite Hs. cbn [removelast app bind].
  eexists. split; [reflexivity|]. split; [reflexivity|].
  intros idx. cbn [elem tabulate].
  destruct (in_bounds idx [b; Z.to_nat (ViT.num_classes self)]);
    [|reflexivity].
  rewrite head_init_bias_zero by exact Hb.
  rewrite Rsum_zero; [ring|].
  intros j _. rewrite head_init_kernel_zero. ring.
Qed.

(** C8.  The model of the second end-to-end scenario, [num_layers = 2], with
    its head as created (zero kernel, zero bias), on a batch of 4 images:
    the call raises the [AttributeError] of line 70 of the attention block
    in its first encoder block instead of returning zero logits. *)
Theorem vit_call_raises_with_zero_head :
  (forall idx, kernel (ViT.Dense_0 (example_vit_params 2)) idx = 0)
  /\ (forall idx, bias (ViT.Dense_0 (example_vit_params 2)) idx = 0)
  /\ ViT.call (L := example_layers) (example_vit 2) (example_vit_params 2)
       example_key example_images false
     = Raise (AttributeError "AttentionBlock" "attn_dropout_rate").
Proof.
  split; [intros idx; apply head_init_kernel_zero|].
  split; [intros idx; apply head_init_bias_zero; reflexivity|].
  eapply (vit_raises unit unit unit stub_ff stub_pos stub_patch
            (example_vit 2) (example_vit_params 2) example_key example_images
            _ _ false 4%nat 197%nat 64%nat).
  - reflexivity.
  - reflexivity.
  - reflexivity.
  - reflexivity.
  - reflexivity.
  - reflexivity.
Qed.

(** Without encoder blocks the same model does return, and its logits are
    zero. *)
Example vit_without_blocks_returns_zero_logits :
  exists out,
    ViT.call (L := example_layers) (example_vit 0) (example_vit_params 0)
      example_key example_images false = Ok out
    /\ shape out = [4; 10]%nat
    /\ forall idx, elem out idx = 0.
Proof.
  unfold ViT.call.
  assert (Ht : exists t,
             ViT.tokens (L := example_layers) (example_vit 0)
               (example_vit_params 0) example_images = Ok t
             /\ shape t = [4; 197; 64]%nat)
    by (eexists; split; reflexivity).
  destruct Ht as [t [Ht Hs]]. rewrite Ht. cbn [bind].
  unfold Encoder.call.
  change (AddAbsPosEmbed_call
            (Encoder.AddAbsPosEmbed_0 (ViT.Encoder_0 (example_vit_params 0))) t)
    with (Ok t).
  cbn [bind].
  change (Encoder.dropout_rate (ViT.encoder (example_vit 0))) with 0.
  rewrite Dropout_rate_0.
  change (Z.to_nat (Encoder.num_layers (ViT.encoder (example_vit 0))))
    with 0%nat.
  cbn [Encoder.layers bind].
  destruct (LayerNorm_Ok
              (Encoder.LayerNorm_0 (ViT.Encoder_0 (example_vit_params 0)))
              t 4%nat [197; 64]%nat Hs) as [y [Hy Hys]].
  rewrite Hy. cbn [bind]. rewrite Hs in Hys.
  exact (zero_head_gives_zero_logits (example_vit 0) example_key y
           4%nat 196%nat 64%nat Hys eq_refl ltac:(discriminate)).
Qed.

(** ** The rest of the call, for a given rate *)

Lemma self_attention_rest_has_claimed_shape (self : SelfAttentionBlock.t)
    (params : AttentionBlock.Params) (rng : PRNGKey) (x : Tensor)
    (is_training : bool) (b l c : nat) :
  shape x = [b; l; c] ->
  (0 < SelfAttentionBlock.num_heads self)%Z ->
  (Z.of_nat c mod SelfAttentionBlock.num_heads self = 0)%Z ->
  SelfAttentionBlock.head_ch self = None ->
  SelfAttentionBlock.out_ch self = None ->
  exists pw,
    AttentionBlock.weights (SelfAttentionBlock.inner self) params x x = Ok pw
    /\ forall rate, exists out,
         AttentionBlock.attend (SelfAttentionBlock.inner self) params rng
           is_training (fst pw) rate (snd pw) = Ok out
         /\ shape out = [b; l; c].
Proof.
  intros Hx Hnh Hmod Hhc Hoc.
  destruct (weights_returns (SelfAttentionBlock.inner self) params x x
              b l c l c Hx Hx Hnh Hmod) as [pw [Hpw [Hw [Ho [d Hv]]]]].
  { cbn [AttentionBlock.head_ch SelfAttentionBlock.inner]. rewrite Hhc.
    exact I. }
  exists pw. split; [exact Hpw|]. intros rate.
  cbn [AttentionBlock.out_ch SelfAttentionBlock.inner] in Ho.
  rewrite Hoc in Ho. cbn [py_or] in Ho. injection Ho as Ho.
  destruct (attend_returns (SelfAttentionBlock.inner self) params rng
              is_training (fst pw) rate (snd pw) b _ l l d Hw Hv)
    as [out [Hout Hs]].
  { rewrite <- Ho. lia. }
  exists out. split; [exact Hout|]. rewrite Hs, <- Ho, Nat2Z.id.
  reflexivity.
Qed.

(** ** Defaults of [head_ch] and [out_ch] *)

Lemma weights_Ok_project (self : AttentionBlock.t)
    (params : AttentionBlock.Params) (q kv : Tensor)
    (pw : AttentionBlock.Projections * Tensor) :
  AttentionBlock.weights self params q kv = Ok pw ->
  AttentionBlock.project self params q kv = Ok (fst pw).
Proof.
  unfold AttentionBlock.weights. intros H.
  inv_bind H as pr Hpr. inv_bind H as s Hs. inv_bind H as a Ha.
  injection H as <-. exact Hpr.
Qed.

Lemma project_locals (self : AttentionBlock.t)
    (params : AttentionBlock.Params) (q kv : Tensor)
    (pr : AttentionBlock.Projections) :
  AttentionBlock.project self params q kv = Ok pr ->
  py_or (AttentionBlock.head_ch self)
    (py_int_truediv (Z.of_nat (last_dim q)) (AttentionBlock.num_heads self))
  = Ok (AttentionBlock.l_head_ch pr)
  /\ py_or (AttentionBlock.out_ch self) (Ok (Z.of_nat (last_dim q)))
     = Ok (AttentionBlock.l_out_ch pr).
Proof.
  unfold AttentionBlock.project. intros H.
  inv_bind H as u1 E1. inv_bind H as m E2. inv_bind H as u2 E3.
  inv_bind H as hc E4. inv_bind H as oc E5. inv_bind H as h E6.
  inv_bind H as d E7. inv_bind H as query E8. inv_bind H as key E9.
  inv_bind H as value E10. injection H as <-. simpl. auto.
Qed.

(** C10.  [head_ch = 0] selects the same head width as [head_ch = None],
    namely [int(in_ch / num_heads)], and [out_ch = 0] the same output width
    as [out_ch = None], namely [in_ch]: the weights with the local
    variables, the rest of the call for any rate, and the call itself
    coincide. *)
Theorem zero_head_ch_and_out_ch_take_the_defaults :
  forall (self : AttentionBlock.t) (params : AttentionBlock.Params)
         (rng : PRNGKey) (q kv : Tensor) (is_training : bool),
    (AttentionBlock.weights (set_head_ch self (Some 0%Z)) params q kv
     = AttentionBlock.weights (set_head_ch self None) params q kv
     /\ (forall pw,
           AttentionBlock.weights (set_head_ch self (Some 0%Z)) params q kv
           = Ok pw ->
           AttentionBlock.l_head_ch (fst pw)
           = Z.quot (Z.of_nat (last_dim q)) (AttentionBlock.num_heads self))
     /\ (forall pr rate w,
           AttentionBlock.attend (set_head_ch self (Some 0%Z)) params rng
             is_training pr rate w
           = AttentionBlock.attend (set_head_ch self None) params rng
               is_training pr rate w)
     /\ AttentionBlock.call (set_head_ch self (Some 0%Z)) params rng q kv
          is_training
        = AttentionBlock.call (set_head_ch self None) params rng q kv
            is_training)
    /\ (AttentionBlock.weights (set_out_ch self (Some 0%Z)) params q kv
        = AttentionBlock.weights (set_out_ch self None) params q kv
        /\ (forall pw,
              AttentionBlock.weights (set_out_ch self (Some 0%Z)) params q kv
              = Ok pw ->
              AttentionBlock.l_out_ch (fst pw) = Z.of_nat (last_dim q))
        /\ (forall pr rate w,
              AttentionBlock.attend (set_out_ch self (Some 0%Z)) params rng
                is_training pr rate w
              = AttentionBlock.attend (set_out_ch self None) params rng
                  is_training pr rate w)
        /\ AttentionBlock.call (set_out_ch self (Some 0%Z)) params rng q kv
             is_training
           = AttentionBlock.call (set_out_ch self None) params rng q kv
               is_training).
Proof.
  intros self params rng q kv is_training. split.
  - split; [reflexivity|]. split; [|split; reflexivity].
    intros pw Hpw. apply weights_Ok_project, project_locals in Hpw.
    destruct Hpw as [Hh _].
    cbn [AttentionBlock.head_ch AttentionBlock.num_heads set_head_ch py_or
         Z.eqb] in Hh.
    unfold py_int_truediv in Hh.
    destruct (AttentionBlock.num_heads self =? 0)%Z; [discriminate|].
    injection Hh as <-. reflexivity.
  - split; [reflexivity|]. split; [|split; reflexivity].
    intros pw Hpw. apply weights_Ok_project, project_locals in Hpw.
    destruct Hpw as [_ Ho].
    cbn [AttentionBlock.out_ch set_out_ch py_or Z.eqb] in Ho.
    injection Ho as <-. reflexivity.
Qed.

Example zero_head_ch_weights_computed :
  exists pw,
    AttentionBlock.weights (set_head_ch example_attention (Some 0%Z))
      example_params (ones [2; 5; 8]%nat) (ones [2; 5; 8]%nat) = Ok pw
    /\ AttentionBlock.l_head_ch (fst pw) = 4%Z
    /\ AttentionBlock.l_out_ch (fst pw) = 8%Z.
Proof. eexists. split; [reflexivity|]. split; reflexivity. Qed.

Lemma zero_head_ch_and_out_ch_take_the_defaults_witness :
  exists pw,
    AttentionBlock.weights (set_head_ch example_attention (Some 0%Z))
      example_params (ones [2; 5; 8]%nat) (ones [2; 5; 8]%nat) = Ok pw
    /\ AttentionBlock.l_head_ch (fst pw) = Z.quot 8 2.
Proof.
  eexists. split; [reflexivity|].
  exact (proj1 (proj2 (proj1
    (zero_head_ch_and_out_ch_take_the_defaults example_attention
       example_params example_key (ones [2; 5; 8]%nat) (ones [2; 5; 8]%nat)
       true))) _ eq_refl).
Defined.

(** * Further properties of the code *)

(** ** The rank assertion of line 25 *)

(** X1.  When one of the two inputs of the attention block is not of rank
    3, the call raises the assertion error of line 25, whatever the
    configuration is: the channel check of line 28 is not reached, not even
    with [num_heads = 0].  When both are of rank 3, no error of the call is
    that assertion error. *)
Theorem rank_assertion_comes_first :
  forall (self : AttentionBlock.t) (params : AttentionBlock.Params)
         (rng : PRNGKey) (q kv : Tensor) (is_training : bool),
    (ndim q <> 3%nat \/ ndim kv <> 3%nat ->
     AttentionBlock.call self params rng q kv is_training
     = Raise (AssertionError "inputs_q.ndim == inputs_kv.ndim == 3"))
    /\ (ndim q = 3%nat -> ndim kv = 3%nat ->
        AttentionBlock.call self params rng q kv is_training
        <> Raise (AssertionError "inputs_q.ndim == inputs_kv.ndim == 3")).
Proof.
  intros self params rng q kv is_training. split.
  - intros H.
    unfold AttentionBlock.call, AttentionBlock.weights, AttentionBlock.project.
    assert (Hb : ((ndim q =? ndim kv)%nat && (ndim kv =? 3)%nat) = false).
    { apply andb_false_iff.
      destruct (Nat.eqb_spec (ndim kv) 3) as [Hkv|Hkv]; [|auto].
      left. apply Nat.eqb_neq. destruct H as [H|H]; [lia|contradiction]. }
    rewrite Hb. reflexivity.
  - intros Hq Hkv H.
    assert (Hdec : divisible (Z.of_nat (last_dim q))
                     (AttentionBlock.num_heads self)
                   \/ ~ divisible (Z.of_nat (last_dim q))
                          (AttentionBlock.num_heads self)).
    { unfold divisible.
      destruct (py_mod (Z.of_nat (last_dim q)) (AttentionBlock.num_heads self))
        as [m|e]; [|right; discriminate].
      destruct (Z.eq_dec m 0) as [->|Hm]; [left; reflexivity|].
      right. intros Heq. injection Heq as Heq. contradiction. }
    destruct Hdec as [Hdiv|Hdiv].
    + unfold AttentionBlock.call in H. step_Raise H.
      * apply (weights_Raise_divisible self params q kv _ Hq Hkv Hdiv) in H.
        destruct H as [[s Hs]|[c [a Ha]]]; discriminate.
      * step_Raise H; [|discriminate].
        rewrite getattr_attn_dropout_rate in H. discriminate.
    + unfold AttentionBlock.call, AttentionBlock.weights in H.
      rewrite (project_Raise_not_divisible self params q kv Hq Hkv Hdiv) in H.
      cbn [bind] in H. unfold divisibility_error in H.
      destruct (AttentionBlock.num_heads self =? 0)%Z; discriminate.
Qed.

Lemma rank_assertion_comes_first_witness :
  AttentionBlock.call (set_head_ch example_attention None) example_params
    example_key (ones [5; 7]%nat) (ones [2; 5; 8]%nat) true
  = Raise (AssertionError "inputs_q.ndim == inputs_kv.ndim == 3").
Proof.
  refine (proj1
    (rank_assertion_comes_first (set_head_ch example_attention None)
       example_params example_key (ones [5; 7]%nat) (ones [2; 5; 8]%nat)
       true) _).
  left. simpl. discriminate.
Defined.

(** ** The weights as probabilities *)

Lemma Rsum_nonneg (n : nat) (f : nat -> R) :
  (forall k, (k < n)%nat -> 0 <= f k) -> 0 <= Rsum n f.
Proof.
  induction n as [|n IH]; intros H; simpl; [lra|].
  assert (0 <= Rsum n f) by (apply IH; intros k Hk; apply H; lia).
  assert (0 <= f n) by (apply H; lia). lra.
Qed.

Lemma Rsum_term_le (n j : nat) (f : nat -> R) :
  (forall k, (k < n)%nat -> 0 <= f k) -> (j < n)%nat -> f j <= Rsum n f.
Proof.
  induction n as [|n IH]; intros H Hj; [lia|]. simpl.
  assert (H0 : 0 <= Rsum n f)
    by (apply Rsum_nonneg; intros k Hk; apply H; lia).
  assert (Hn : 0 <= f n) by (apply H; lia).
  destruct (Nat.eq_dec j n) as [->|Hne]; [lra|].
  assert (f j <= Rsum n f) by (apply IH; [intros k Hk; apply H; lia | lia]).
  lra.
Qed.

Lemma softmax_elem_bounds (s : Tensor) (b h lq lk : nat) (idx : Index) :
  shape s = [b; h; lq; lk] ->
  in_bounds idx (shape s) = true ->
  0 < elem (softmax s) idx <= 1.
Proof.
  intros Hs Hin.
  rewrite softmax_unfold, elem_tabulate by exact Hin.
  rewrite Hs in Hin.
  apply in_bounds4 in Hin as (i & hh & qi & k & -> & Hi & Hh & Hq & Hk).
  unfold last_dim. rewrite Hs. cbn [last].
  set (S := Rsum lk (fun j => exp (elem s [i; hh; qi; j]))).
  assert (HS : 0 < S) by (apply Rsum_exp_pos; lia).
  assert (He : 0 < exp (elem s [i; hh; qi; k])) by apply exp_pos.
  assert (Hle : exp (elem s [i; hh; qi; k]) <= S).
  { apply (Rsum_term_le lk k (fun j => exp (elem s [i; hh; qi; j])));
      [|exact Hk].
    intros j _. left. apply exp_pos. }
  split.
  - apply Rdiv_lt_0_compat; assumption.
  - apply (Rmult_le_reg_r S); [exact HS|].
    unfold Rdiv. rewrite Rmult_assoc, Rinv_l by lra. lra.
Qed.

(** X2.  Whenever the call computes its attention weights, the tensor it
    hands on is the mixing of lines 61-68 applied to the softmax of line 59
    of the scores, and every weight of that softmax lies between 0 and 1;
    without talking heads these are the weights handed to the first
    dropout. *)
Theorem softmax_weights_are_probabilities :
  forall (self : AttentionBlock.t) (params : AttentionBlock.Params)
         (q kv : Tensor) (pw : AttentionBlock.Projections * Tensor),
    AttentionBlock.weights self params q kv = Ok pw ->
    exists s,
      AttentionBlock.scores self params (fst pw) = Ok s
      /\ AttentionBlock.post_mix self params (softmax s) = Ok (snd pw)
      /\ (forall idx,
            in_bounds idx (shape (softmax s)) = true ->
            0 <= elem (softmax s) idx <= 1)
      /\ (AttentionBlock.talking_heads self = false ->
          forall idx,
            in_bounds idx (shape (snd pw)) = true ->
            0 <= elem (snd pw) idx <= 1).
Proof.
  intros self params q kv pw H.
  destruct (weights_stages self params q kv pw H) as (s & _ & Hs & Hpm).
  exists s. split; [exact Hs|]. split; [exact Hpm|].
  pose proof Hs as Hs0.
  apply scores_Ok in Hs0 as (b & h & lq & lk & bk & h' & d' & Hss & _).
  assert (Hb : forall idx,
             in_bounds idx (shape (softmax s)) = true ->
             0 <= elem (softmax s) idx <= 1).
  { intros idx Hin. rewrite softmax_shape in Hin.
    destruct (softmax_elem_bounds s b h lq lk idx Hss Hin). lra. }
  split; [exact Hb|].
  intros Hth idx Hin. unfold AttentionBlock.post_mix in Hpm.
  rewrite Hth in Hpm. injection Hpm as Hpm. rewrite <- Hpm in *.
  apply Hb. exact Hin.
Qed.

Lemma softmax_weights_are_probabilities_witness :
  exists pw,
    AttentionBlock.weights example_attention example_params
      (ones [2; 5; 8]%nat) (ones [2; 3; 8]%nat) = Ok pw
    /\ 0 <= elem (snd pw) [1; 0; 4; 2]%nat <= 1.
Proof.
  eexists. split; [reflexivity|].
  destruct (softmax_weights_are_probabilities example_attention
              example_params (ones [2; 5; 8]%nat) (ones [2; 3; 8]%nat) _
              eq_refl) as (s & _ & _ & _ & Hth).
  exact (Hth eq_refl [1; 0; 4; 2]%nat eq_refl).
Defined.

(** ** Inference mode *)

(** X3.  With [is_training = False] the two dropouts of lines 70-71 and
    86-87 do nothing: for every rate of the first dropout, every
    [out_drop_rate] and every key, lines 70-89 are the weighted sum of the
    values followed by the output projection. *)
Theorem attend_at_inference_has_no_dropout :
  forall (self : AttentionBlock.t) (params : AttentionBlock.Params)
         (rng : PRNGKey) (pr : AttentionBlock.Projections) (rate : R)
         (w : Tensor),
    AttentionBlock.attend self params rng false pr rate w
    = (attn_scores <- AttentionBlock.einsum_wv w (AttentionBlock.l_value pr) ;;
       o <- dim_of_int (AttentionBlock.l_out_ch pr) ;;
       DenseGeneral_merge o (AttentionBlock.use_bias self)
         (AttentionBlock.DenseGeneral_0 params) attn_scores).
Proof.
  intros self params rng pr rate w. unfold AttentionBlock.attend.
  cbn [negb]. rewrite Dropout_deterministic.
  destruct (AttentionBlock.einsum_wv w (AttentionBlock.l_value pr)) as [a|e];
    [cbn [bind]|reflexivity].
  destruct (dim_of_int (AttentionBlock.l_out_ch pr)) as [o|e];
    [cbn [bind]|reflexivity].
  destruct (DenseGeneral_merge o (AttentionBlock.use_bias self)
              (AttentionBlock.DenseGeneral_0 params) a) as [out|e];
    [cbn [bind]|reflexivity].
  rewrite Dropout_deterministic. reflexivity.
Qed.

(** ** The scale of the scores *)

Lemma bidx_lt (a c b i : nat) :
  broadcast_dim a c = Ok b -> (i < b)%nat -> (bidx a i < a)%nat.
Proof.
  unfold broadcast_dim, bidx.
  destruct (Nat.eqb_spec a c) as [->|Hac].
  - intros H Hi. injection H as <-. destruct (c =? 1)%nat eqn:E; [|exact Hi].
    apply Nat.eqb_eq in E. lia.
  - destruct (Nat.eqb_spec a 1) as [->|Ha]; [intros; lia|].
    destruct (c =? 1)%nat; [|discriminate].
    intros H Hi. injection H as <-. exact Hi.
Qed.

Lemma Rsum_div (n : nat) (f : nat -> R) (c : R) :
  Rsum n (fun k => f k / c) = Rsum n f / c.
Proof. unfold Rdiv. apply Rsum_scale. Qed.

(** X4.  Dividing the query by [sqrt(head_ch)] on line 45 divides every
    score of line 47 by it: a score is the inner product of the unscaled
    query projection with the key projection, over [sqrt(head_ch)]. *)
Theorem scaling_the_query_scales_the_scores :
  forall (self : AttentionBlock.t) (params : AttentionBlock.Params)
         (q kv : Tensor) (pr : AttentionBlock.Projections) (s : Tensor),
    AttentionBlock.project self params q kv = Ok pr ->
    AttentionBlock.einsum_qk (AttentionBlock.l_query pr)
      (AttentionBlock.l_key pr) = Ok s ->
    exists uq h d,
      DenseGeneral_heads h d (AttentionBlock.use_bias self)
        (AttentionBlock.queries params) q = Ok uq
      /\ forall i hh qi k,
           in_bounds [i; hh; qi; k] (shape s) = true ->
           elem s [i; hh; qi; k]
           = Rsum d (fun dd =>
               elem uq [bidx (hd 0%nat (shape q)) i; qi; hh; dd]
               * elem (AttentionBlock.l_key pr)
                   [bidx (hd 0%nat (shape kv)) i; k; hh; dd])
             / sqrt (IZR (AttentionBlock.l_head_ch pr)).
Proof.
  intros self params q kv pr s H Hs.
  unfold AttentionBlock.project in H.
  inv_bind H as u1 E1. inv_bind H as m E2. inv_bind H as u2 E3.
  inv_bind H as hc E4. inv_bind H as oc E5. inv_bind H as h E6.
  inv_bind H as d E7. inv_bind H as query E8. inv_bind H as key E9.
  inv_bind H as value E10. injection H as <-.
  cbn [AttentionBlock.l_query AttentionBlock.l_key AttentionBlock.l_head_ch]
    in *.
  exists query, h, d. split; [exact E8|].
  apply DenseGeneral_heads_Ok in E8 as (bq & lq & c & Hq & Hquery).
  apply DenseGeneral_heads_Ok in E9 as (bk & lk & c' & Hkv & Hkey).
  unfold AttentionBlock.einsum_qk in Hs.
  cbn [shape tabulate] in Hs. rewrite Hquery, Hkey in Hs.
  inv_bind Hs as b Hb. injection Hs as <-.
  intros i hh qi k Hin. cbn [shape tabulate] in Hin.
  rewrite elem_tabulate by exact Hin.
  apply in_bounds4 in Hin as (i' & j' & q' & k' & Heq & Hi & Hh & Hqi & Hk).
  injection Heq as <- <- <- <-.
  rewrite Hq, Hkv. cbn [hd].
  rewrite <- Rsum_div. apply Rsum_ext. intros dd Hdd.
  pose proof (in_bounds4_intro (bidx bq i) qi hh dd bq lq h d
                (bidx_lt bq bk b i Hb Hi) Hqi Hh Hdd) as Hib.
  cbn [in_bounds] in Hib. rewrite Hib.
  unfold Rdiv. ring.
Qed.

Lemma scaling_the_query_scales_the_scores_witness :
  exists pr s uq h d,
    AttentionBlock.project example_attention example_params
      (ones [2; 5; 8]%nat) (ones [2; 3; 8]%nat) = Ok pr
    /\ AttentionBlock.einsum_qk (AttentionBlock.l_query pr)
         (AttentionBlock.l_key pr) = Ok s
    /\ DenseGeneral_heads h d (AttentionBlock.use_bias example_attention)
         (AttentionBlock.queries example_params) (ones [2; 5; 8]%nat) = Ok uq
    /\ elem s [1; 0; 4; 2]%nat
       = Rsum d (fun dd =>
           elem uq [1; 4; 0; dd]%nat
           * elem (AttentionBlock.l_key pr) [1; 2; 0; dd]%nat)
         / sqrt (IZR (AttentionBlock.l_head_ch pr)).
Proof.
  destruct (scaling_the_query_scales_the_scores example_attention
              example_params (ones [2; 5; 8]%nat) (ones [2; 3; 8]%nat)
              _ _ eq_refl eq_refl) as (uq & h & d & Huq & Hs).
  eexists. eexists. exists uq, h, d.
  split; [reflexivity|]. split; [reflexivity|]. split; [exact Huq|].
  exact (Hs 1%nat 0%nat 4%nat 2%nat eq_refl).
Defined.

(** ** The bias of the keys *)

Lemma Rsum_plus (n : nat) (f g : nat -> R) :
  Rsum n (fun k => f k + g k) = Rsum n f + Rsum n g.
Proof.
  induction n as [|n IH]; simpl; [ring|]. rewrite IH. ring.
Qed.

Lemma softmax_shift (b h lq lk : nat) (s s' : Tensor) :
  shifted_over_keys b h lq lk s s' -> softmax s' = softmax s.
Proof.
  intros (Hs & Hs' & c & Hc).
  rewrite (softmax_unfold s'), (softmax_unfold s).
  unfold last_dim. rewrite Hs, Hs'. cbn [last].
  apply tabulate_ext. intros idx Hin.
  apply in_bounds4 in Hin as (i & hh & q & k & -> & Hi & Hh & Hq & Hk).
  rewrite (Hc i hh q k Hi Hh Hq Hk).
  rewrite (Rsum_ext lk (fun j => exp (elem s' [i; hh; q; j]))
             (fun j => exp (elem s [i; hh; q; j]) * exp (c i hh q))).
  - rewrite Rsum_scale, exp_plus.
    assert (0 < Rsum lk (fun j => exp (elem s [i; hh; q; j])))
      by (apply Rsum_exp_pos; lia).
    assert (0 < exp (c i hh q)) by apply exp_pos.
    field. split; lra.
  - intros j Hj. rewrite (Hc i hh q j Hi Hh Hq Hj). apply exp_plus.
Qed.

Lemma einsum_heads_shift (b h lq lk : nat) (s s' : Tensor) (m : Index -> R) :
  shifted_over_keys b h lq lk s s' ->
  exists t t',
    AttentionBlock.einsum_heads s m = Ok t
    /\ AttentionBlock.einsum_heads s' m = Ok t'
    /\ shifted_over_keys b h lq lk t t'.
Proof.
  intros (Hs & Hs' & c & Hc).
  unfold AttentionBlock.einsum_heads. rewrite Hs, Hs'.
  eexists. eexists. split; [reflexivity|]. split; [reflexivity|].
  split; [reflexivity|]. split; [reflexivity|].
  exists (fun i hh q => Rsum h (fun j => c i j q * m [j; hh])).
  intros i hh q k Hi Hh Hq Hk.
  rewrite !elem_tabulate by (apply in_bounds4_intro; assumption).
  rewrite <- Rsum_plus. apply Rsum_ext. intros j Hj.
  rewrite (Hc i j q k Hi Hj Hq Hk). ring.
Qed.

Lemma einsum_qk_shift (query key key' : Tensor) (bk lk h d : nat)
    (delta : nat -> nat -> R) :
  shape key = [bk; lk; h; d] ->
  shape key' = [bk; lk; h; d] ->
  (forall i k hh dd,
     (i < bk)%nat -> (k < lk)%nat -> (hh < h)%nat -> (dd < d)%nat ->
     elem key' [i; k; hh; dd] = elem key [i; k; hh; dd] + delta hh dd) ->
  shape query = [hd 0%nat (shape query); nth 1 (shape query) 0%nat; h; d] ->
  (exists e,
     AttentionBlock.einsum_qk query key = Raise e
     /\ AttentionBlock.einsum_qk query key' = Raise e)
  \/ (exists b lq s s',
        AttentionBlock.einsum_qk query key = Ok s
        /\ AttentionBlock.einsum_qk query key' = Ok s'
        /\ shifted_over_keys b h lq lk s s').
Proof.
  intros Hk Hk' Hd Hq. unfold AttentionBlock.einsum_qk.
  rewrite Hq, Hk, Hk'.
  set (bq := hd 0%nat (shape query)). set (lq := nth 1 (shape query) 0%nat).
  destruct (broadcast_dim bq bk) as [b|e] eqn:Hb; cbn [bind].
  - right. exists b, lq. eexists. eexists.
    split; [reflexivity|]. split; [reflexivity|].
    split; [reflexivity|]. split; [reflexivity|].
    exists (fun i hh q =>
              Rsum d (fun dd => elem query [bidx bq i; q; hh; dd] * delta hh dd)).
    intros i hh q k Hi Hh Hqq Hkk.
    rewrite !elem_tabulate by (apply in_bounds4_intro; assumption).
    rewrite <- Rsum_plus. apply Rsum_ext. intros dd Hdd.
    rewrite Hd; [ring| |exact Hkk|exact Hh|exact Hdd].
    apply (bidx_lt bk bq b i); [|exact Hi].
    rewrite broadcast_dim_comm. exact Hb.
  - left. exists e. split; reflexivity.
Qed.

Lemma DenseGeneral_heads_bias (h d : nat) (ub : bool) (p : DenseParams)
    (b' : Index -> R) (x : Tensor) :
  (exists e,
     DenseGeneral_heads h d ub p x = Raise e
     /\ DenseGeneral_heads h d ub {| kernel := kernel p; bias := b' |} x
        = Raise e)
  \/ (exists bk lk key key',
        DenseGeneral_heads h d ub p x = Ok key
        /\ DenseGeneral_heads h d ub {| kernel := kernel p; bias := b' |} x
           = Ok key'
        /\ shape key = [bk; lk; h; d]
        /\ shape key' = [bk; lk; h; d]
        /\ forall i k hh dd,
             (i < bk)%nat -> (k < lk)%nat -> (hh < h)%nat -> (dd < d)%nat ->
             elem key' [i; k; hh; dd]
             = elem key [i; k; hh; dd]
               + (if ub then b' [hh; dd] - bias p [hh; dd] else 0)).
Proof.
  unfold DenseGeneral_heads.
  destruct (shape x) as [|bk [|lk [|c [|? ?]]]];
    try (left; eexists; split; reflexivity).
  right. exists bk, lk. eexists. eexists.
  split; [reflexivity|]. split; [reflexivity|].
  split; [reflexivity|]. split; [reflexivity|].
  intros i k hh dd Hi Hk Hh Hd.
  rewrite !elem_tabulate by (apply in_bounds4_intro; assumption).
  cbn [kernel bias]. destruct ub; ring.
Qed.

(** X5.  The bias of the key projection has no influence on the attention
    weights: with any other key bias the weights handed to the first dropout
    are the same tensor, and the same error is raised when there is one, with
    or without bias and with or without talking heads.  (The bias adds to
    every score of a row the same amount, which the softmax over the keys
    cancels.) *)
Theorem key_bias_does_not_change_the_weights :
  forall (self : AttentionBlock.t) (params : AttentionBlock.Params)
         (b' : Index -> R) (q kv : Tensor),
    result_map snd (AttentionBlock.weights self (set_keys_bias params b') q kv)
    = result_map snd (AttentionBlock.weights self params q kv).
Proof.
  intros self params b' q kv.
  unfold AttentionBlock.weights, AttentionBlock.project.
  cbn [AttentionBlock.queries AttentionBlock.keys AttentionBlock.values
       set_keys_bias].
  destruct (assert ((ndim q =? ndim kv)%nat && (ndim kv =? 3)%nat)
              "inputs_q.ndim == inputs_kv.ndim == 3") as [u1|e];
    [cbn [bind]|reflexivity].
  destruct (py_mod (Z.of_nat (last_dim q)) (AttentionBlock.num_heads self))
    as [m|e]; [cbn [bind]|reflexivity].
  destruct (assert (m =? 0)%Z "in_ch % self.num_heads == 0") as [u2|e];
    [cbn [bind]|reflexivity].
  destruct (py_or (AttentionBlock.head_ch self)
              (py_int_truediv (Z.of_nat (last_dim q))
                 (AttentionBlock.num_heads self))) as [hc|e];
    [cbn [bind]|reflexivity].
  destruct (py_or (AttentionBlock.out_ch self) (Ok (Z.of_nat (last_dim q))))
    as [oc|e]; [cbn [bind]|reflexivity].
  destruct (dim_of_int (AttentionBlock.num_heads self)) as [h|e];
    [cbn [bind]|reflexivity].
  destruct (dim_of_int hc) as [d|e]; [cbn [bind]|reflexivity].
  destruct (DenseGeneral_heads h d (AttentionBlock.use_bias self)
              (AttentionBlock.queries params) q) as [query|e] eqn:Equery;
    [cbn [bind]|reflexivity].
  apply DenseGeneral_heads_Ok in Equery as (bq & lq & c & Hq & Hquery).
  destruct (DenseGeneral_heads_bias h d (AttentionBlock.use_bias self)
              (AttentionBlock.keys params) b' kv)
    as [(e & He & He')|(bk & lk & key & key' & Hkey & Hkey' & Hsk & Hsk' & Hd)].
  { rewrite He, He'. reflexivity. }
  rewrite Hkey, Hkey'. cbn [bind].
  destruct (DenseGeneral_heads h d (AttentionBlock.use_bias self)
              (AttentionBlock.values params) kv) as [value|e];
    [cbn [bind]|reflexivity].
  unfold AttentionBlock.scores.
  cbn [AttentionBlock.l_query AttentionBlock.l_key AttentionBlock.pre_softmax
       AttentionBlock.post_softmax set_keys_bias].
  set (sq := tabulate (shape query)
               (fun idx => elem query idx / sqrt (IZR hc))).
  destruct (einsum_qk_shift sq key key' bk lk h d
              (fun hh dd =>
                 if AttentionBlock.use_bias self
                 then b' [hh; dd] - bias (AttentionBlock.keys params) [hh; dd]
                 else 0) Hsk Hsk' Hd)
    as [(e & He & He')|(b & lq' & s & s' & Hs & Hs' & Hsh)].
  - unfold sq. cbn [shape tabulate]. rewrite Hquery. reflexivity.
  - rewrite He, He'. reflexivity.
  - rewrite Hs, Hs'. cbn [bind].
    unfold AttentionBlock.post_mix.
    cbn [AttentionBlock.pre_softmax AttentionBlock.post_softmax set_keys_bias].
    destruct (AttentionBlock.talking_heads self).
    + destruct (einsum_heads_shift b h lq' lk s s'
                  (AttentionBlock.pre_softmax params) Hsh)
        as (t & t' & Ht & Ht' & Hsh').
      rewrite Ht, Ht'. cbn [bind].
      rewrite (softmax_shift b h lq' lk t t' Hsh').
      destruct (AttentionBlock.einsum_heads (softmax t)
                  (AttentionBlock.post_softmax params)); reflexivity.
    + cbn [bind]. rewrite (softmax_shift b h lq' lk s s' Hsh). reflexivity.
Qed.

(** ** The stack of encoder blocks *)

(** X6.  The loop of lines 64-73 composes: running [n + m] blocks from layer
    [i] is running [n] blocks from layer [i] and then [m] blocks from layer
    [i + n] on their output; an error in the first [n] blocks is the error
    of the whole stack, and the later blocks are not run. *)
Theorem encoder_layers_compose :
  forall (L : Layers) (self : Encoder.t) (params : Encoder.Params)
         (rng : PRNGKey) (is_training : bool) (n m i : nat) (x : Tensor),
    Encoder.layers self params rng is_training (n + m) i x
    = (x' <- Encoder.layers self params rng is_training n i x ;;
       Encoder.layers self params rng is_training m (i + n) x')
    /\ (forall e,
          Encoder.layers self params rng is_training n i x = Raise e ->
          Encoder.layers self params rng is_training (n + m) i x = Raise e).
Proof.
  intros L self params rng is_training n m.
  assert (Hc : forall i x,
             Encoder.layers self params rng is_training (n + m) i x
             = (x' <- Encoder.layers self params rng is_training n i x ;;
                Encoder.layers self params rng is_training m (i + n) x')).
  { induction n as [|n IH]; intros i x.
    - cbn [Nat.add Encoder.layers bind]. rewrite Nat.add_0_r. reflexivity.
    - cbn [Nat.add Encoder.layers].
      destruct (EncoderBlock.call (Encoder.block self)
                  (Encoder.EncoderBlock_ params i) (fold_in rng (S i)) x
                  is_training) as [x1|e]; [cbn [bind]|reflexivity].
      rewrite IH. replace (S i + n)%nat with (i + S n)%nat by lia.
      reflexivity. }
  intros i x. split; [apply Hc|].
  intros e He. rewrite Hc, He. reflexivity.
Qed.

(** ** The first statement of the model *)

(** X9.  When the test [self.embed_dim % self.num_heads == 0] of line 96
    does not evaluate to true, the model raises the error of that line, an
    assertion error, or the division by zero of the test when
    [num_heads = 0], whatever the imported layers, the parameters, the images
    and the number of layers are: the patch embedding is not run. *)
Theorem vit_checks_the_width_first :
  forall (L : Layers) (self : ViT.t) (params : ViT.Params) (rng : PRNGKey)
         (inputs : Tensor) (is_training : bool),
    py_mod (ViT.embed_dim self) (ViT.num_heads self) <> Ok 0%Z ->
    ViT.call self params rng inputs is_training
    = Raise (if (ViT.num_heads self =? 0)%Z then ZeroDivisionError
             else AssertionError "self.embed_dim % self.num_heads == 0")
    /\ ViT.tokens self params inputs
       = Raise (if (ViT.num_heads self =? 0)%Z then ZeroDivisionError
                else AssertionError "self.embed_dim % self.num_heads == 0").
Proof.
  intros L self params rng inputs is_training H.
  assert (Ht : ViT.tokens self params inputs
               = Raise (if (ViT.num_heads self =? 0)%Z then ZeroDivisionError
                        else AssertionError
                               "self.embed_dim % self.num_heads == 0")).
  { unfold ViT.tokens. unfold py_mod in *.
    destruct (ViT.num_heads self =? 0)%Z; [reflexivity|]. cbn [bind].
    destruct (Z.eqb_spec (ViT.embed_dim self mod ViT.num_heads self) 0)
      as [E|E]; [|reflexivity].
    exfalso. apply H. rewrite E. reflexivity. }
  split; [|exact Ht]. unfold ViT.call. rewrite Ht. reflexivity.
Qed.

Lemma vit_checks_the_width_first_witness :
  ViT.call (L := stub_layers)
    {| ViT.num_classes := 10; ViT.num_layers := 2; ViT.num_heads := 7;
       ViT.embed_dim := 64; ViT.patch_shape := (16%Z, 16%Z);
       ViT.expand_ratio := 4; ViT.dropout_rate := 0;
       ViT.attn_dropout_rate := 0; ViT.activation_fn := fun x => x;
       ViT.dtype := float32; ViT.precision := DEFAULT;
       ViT.kernel_init := zeros; ViT.bias_init := zeros |}
    stub_vit_params example_key example_images false
  = Raise (AssertionError "self.embed_dim % self.num_heads == 0").
Proof.
  refine (proj1 (vit_checks_the_width_first stub_layers _ stub_vit_params
                   example_key example_images false _)).
  simpl. discriminate.
Defined.

(** ** What the head reads *)

(** X10.  The logits depend on the output of the encoder only through
    sequence index 0: two encoder outputs of one shape that agree at index 0
    of every batch element give the same result of the head. *)
Theorem logits_depend_on_row_0_only :
  forall (self : ViT.t) (head : DenseParams) (y y' : Tensor) (b l : nat)
         (rest : list nat),
    shape y = b :: l :: rest ->
    shape y' = b :: l :: rest ->
    (forall i idx,
       in_bounds (i :: idx) (b :: rest) = true ->
       elem y (i :: 0%nat :: idx) = elem y' (i :: 0%nat :: idx)) ->
    ViT.classify self head y = ViT.classify self head y'.
Proof.
  intros self head y y' b l rest Hy Hy' H.
  unfold ViT.classify.
  assert (Hr : take_row0 y = take_row0 y').
  { unfold take_row0. rewrite Hy, Hy'.
    destruct (l =? 0)%nat; [reflexivity|].
    f_equal. apply tabulate_ext. intros idx Hin.
    destruct idx as [|i idx]; [reflexivity|]. apply H. exact Hin. }
  rewrite Hr. reflexivity.
Qed.

Lemma logits_depend_on_row_0_only_witness :
  ViT.classify (example_vit 2) dense_ones (ones [2; 3; 4]%nat)
  = ViT.classify (example_vit 2) dense_ones
      (tabulate [2; 3; 4]%nat
         (fun idx => match idx with
                     | [_; O; _] => 1
                     | _ => 5
                     end)).
Proof.
  apply (logits_depend_on_row_0_only (example_vit 2) dense_ones
           (ones [2; 3; 4]%nat)
           (tabulate [2; 3; 4]%nat
              (fun idx => match idx with
                          | [_; O; _] => 1
                          | _ => 5
                          end))
           2%nat 3%nat [4%nat] eq_refl eq_refl).
  intros i idx Hin. unfold ones. cbn [elem tabulate].
  destruct idx as [|k [|? ?]]; cbn [in_bounds] in *;
    try (rewrite ?andb_false_r in Hin; discriminate).
  destruct (in_bounds [i; 0%nat; k] [2%nat; 3%nat; 4%nat]); reflexivity.
Defined.

(** ** A patch embedding of the wrong shape *)

(** X11.  When the patch embedding returns a tensor that is not of shape
    (b, l, embed_dim), lines 106-110 raise and the encoder is not run: a
    tensor that is not of rank 3 fails the unpacking of line 106 with a
    [ValueError], a tensor of rank 3 whose width is not [embed_dim] fails
    the concatenation of line 110 with a [TypeError]. *)
Theorem malformed_patch_embedding_is_rejected :
  forall (L : Layers) (self : ViT.t) (params : ViT.Params) (rng : PRNGKey)
         (inputs x : Tensor) (is_training : bool),
    py_mod (ViT.embed_dim self) (ViT.num_heads self) = Ok 0%Z ->
    PatchEmbedBlock_call (ViT.patch_embed self) (ViT.PatchEmbedBlock_0 params)
      inputs = Ok x ->
    (0 <= ViT.embed_dim self)%Z ->
    (ndim x <> 3%nat ->
     exists msg,
       ViT.tokens self params inputs = Raise (ValueError msg)
       /\ ViT.call self params rng inputs is_training
          = Raise (ValueError msg))
    /\ (ndim x = 3%nat ->
        last_dim x <> Z.to_nat (ViT.embed_dim self) ->
        exists msg,
          ViT.tokens self params inputs = Raise (TypeError msg)
          /\ ViT.call self params rng inputs is_training
             = Raise (TypeError msg)).
Proof.
  intros L self params rng inputs x is_training Hmod Hpatch Hpos.
  assert (Hcall : forall e,
             ViT.tokens self params inputs = Raise e ->
             ViT.call self params rng inputs is_training = Raise e).
  { intros e He. unfold ViT.call. rewrite He. reflexivity. }
  assert (Ht : ViT.tokens self params inputs
               = ViT.prepend_cls self (ViT.cls params) x).
  { unfold ViT.tokens. rewrite Hmod. cbn [bind Z.eqb assert].
    rewrite Hpatch. reflexivity. }
  split.
  - intros Hr.
    assert (He : ViT.tokens self params inputs
                 = Raise (ValueError "wrong number of values to unpack")).
    { rewrite Ht. unfold ViT.prepend_cls. unfold ndim in Hr.
      destruct (shape x) as [|b [|l [|c [|? ?]]]]; try reflexivity.
      exfalso. apply Hr. reflexivity. }
    eexists. split; [exact He|]. apply Hcall. exact He.
  - intros Hr Hc.
    destruct (ndim3_shape x Hr) as (b & l & c & Hx).
    unfold last_dim in Hc. rewrite Hx in Hc. cbn [last] in Hc.
    assert (He : exists msg,
               ViT.tokens self params inputs = Raise (TypeError msg)).
    { rewrite Ht. unfold ViT.prepend_cls. rewrite Hx.
      rewrite (dim_of_int_nonneg _ Hpos). cbn [bind].
      unfold tile_batch. cbn [shape tabulate bind].
      unfold concatenate_axis1. cbn [shape tabulate]. rewrite Hx.
      rewrite Nat.mul_1_r, Nat.eqb_refl. cbn [andb].
      destruct (Nat.eqb_spec (Z.to_nat (ViT.embed_dim self)) c) as [Heq|Hne];
        [|eexists; reflexivity].
      exfalso. apply Hc. symmetry. exact Heq. }
    destruct He as [msg He]. exists msg. split; [exact He|].
    apply Hcall. exact He.
Qed.

Lemma malformed_patch_embedding_is_rejected_witness :
  exists msg,
    ViT.call (L := stub_layers)
      {| ViT.num_classes := 10; ViT.num_layers := 2; ViT.num_heads := 8;
         ViT.embed_dim := 32; ViT.patch_shape := (16%Z, 16%Z);
         ViT.expand_ratio := 4; ViT.dropout_rate := 0;
         ViT.attn_dropout_rate := 0; ViT.activation_fn := fun x => x;
         ViT.dtype := float32; ViT.precision := DEFAULT;
         ViT.kernel_init := zeros; ViT.bias_init := zeros |}
      stub_vit_params example_key example_images false
    = Raise (TypeError msg).
Proof.
  destruct (proj2
    (malformed_patch_embedding_is_rejected stub_layers
       {| ViT.num_classes := 10; ViT.num_layers := 2;
          ViT.num_heads := 8; ViT.embed_dim := 32;
          ViT.patch_shape := (16%Z, 16%Z); ViT.expand_ratio := 4;
          ViT.dropout_rate := 0; ViT.attn_dropout_rate := 0;
          ViT.activation_fn := fun x => x; ViT.dtype := float32;
          ViT.precision := DEFAULT; ViT.kernel_init := zeros;
          ViT.bias_init := zeros |}
       stub_vit_params example_key example_images
       (ones [4; 196; 64]%nat) false eq_refl eq_refl ltac:(discriminate))
    eq_refl) as [msg [_ H]].
  - vm_compute. discriminate.
  - exists msg. exact H.
Defined.

(** ** The encoder in inference mode *)

Lemma encoder_block_inference_key (L : Layers) (self : EncoderBlock.t)
    (params : EncoderBlock.Params) (rng rng' : PRNGKey) (inputs : Tensor) :
  key_free_at_inference L ->
  EncoderBlock.call self params rng inputs false
  = EncoderBlock.call self params rng' inputs false.
Proof.
  intros (Hsa & Hff). unfold EncoderBlock.call.
  destruct (LayerNorm (EncoderBlock.LayerNorm_0 params) inputs) as [n|e];
    [cbn [bind]|reflexivity].
  rewrite (Hsa _ _ (fold_in rng 0) (fold_in rng' 0)).
  destruct (SelfAttentionBlock_call (EncoderBlock.attention self)
              (EncoderBlock.SelfAttentionBlock_0 params) (fold_in rng' 0) n
              false) as [a|e]; [cbn [bind]|reflexivity].
  destruct (tensor_add a inputs) as [x1|e]; [cbn [bind]|reflexivity].
  destruct (LayerNorm (EncoderBlock.LayerNorm_1 params) x1) as [n1|e];
    [cbn [bind]|reflexivity].
  rewrite (Hff _ _ (fold_in rng 1) (fold_in rng' 1)). reflexivity.
Qed.

Lemma encoder_layers_inference_key (L : Layers) (self : Encoder.t)
    (params : Encoder.Params) (rng rng' : PRNGKey) (n i : nat) (x : Tensor) :
  key_free_at_inference L ->
  Encoder.layers self params rng false n i x
  = Encoder.layers self params rng' false n i x.
Proof.
  intros HL. revert i x. induction n as [|n IH]; intros i x; [reflexivity|].
  cbn [Encoder.layers].
  rewrite (encoder_block_inference_key L _ _ (fold_in rng (S i))
             (fold_in rng' (S i)) x HL).
  destruct (EncoderBlock.call (Encoder.block self)
              (Encoder.EncoderBlock_ params i) (fold_in rng' (S i)) x false)
    as [x1|e]; [cbn [bind]|reflexivity].
  apply IH.
Qed.

(** X12.  In inference mode the encoder block and the encoder do not read
    the key of the dropouts, whatever the dropout rates are, as long as the
    imported blocks do not read it in that mode: two calls with different
    keys have the same result. *)
Theorem encoder_at_inference_ignores_the_key :
  forall (L : Layers) (blk : EncoderBlock.t) (bparams : EncoderBlock.Params)
         (enc : Encoder.t) (eparams : Encoder.Params) (rng rng' : PRNGKey)
         (inputs : Tensor),
    key_free_at_inference L ->
    EncoderBlock.call blk bparams rng inputs false
    = EncoderBlock.call blk bparams rng' inputs false
    /\ Encoder.call enc eparams rng inputs false
       = Encoder.call enc eparams rng' inputs false.
Proof.
  intros L blk bparams enc eparams rng rng' inputs HL. split.
  - apply encoder_block_inference_key. exact HL.
  - unfold Encoder.call.
    destruct (AddAbsPosEmbed_call (Encoder.AddAbsPosEmbed_0 eparams) inputs)
      as [x|e]; [cbn [bind negb]|reflexivity].
    rewrite !Dropout_deterministic.
    rewrite (encoder_layers_inference_key L enc eparams rng rng' _ _ x HL).
    reflexivity.
Qed.

Lemma encoder_at_inference_ignores_the_key_witness :
  Encoder.call (L := stub_layers) (ViT.encoder (example_vit 3))
    stub_encoder_params example_key (ones [2; 5; 8]%nat) false
  = Encoder.call (L := stub_layers) (ViT.encoder (example_vit 3))
      stub_encoder_params (fun _ _ => 1) (ones [2; 5; 8]%nat) false.
Proof.
  refine (proj2
    (encoder_at_inference_ignores_the_key stub_layers example_encoder_block
       stub_block_params (ViT.encoder (example_vit 3)) stub_encoder_params
       example_key (fun _ _ => 1) (ones [2; 5; 8]%nat) _)).
  split; reflexivity.
Defined.

(** ** Shape of the weights *)

Lemma dim_of_int_Ok (z : Z) (n : nat) :
  dim_of_int z = Ok n -> (0 <= z)%Z /\ n = Z.to_nat z.
Proof.
  unfold dim_of_int. destruct (Z.ltb_spec z 0) as [Hlt|Hge]; [discriminate|].
  intros Heq. injection Heq as <-. split; [assumption|reflexivity].
Qed.

Lemma einsum_qk_shape (query key s : Tensor) (bq lq h d bk lk h' d' : nat) :
  shape query = [bq; lq; h; d] ->
  shape key = [bk; lk; h'; d'] ->
  AttentionBlock.einsum_qk query key = Ok s ->
  exists b, broadcast_dim bq bk = Ok b /\ shape s = [b; h; lq; lk].
Proof.
  intros Hq Hk. unfold AttentionBlock.einsum_qk. rewrite Hq, Hk.
  intros H. inv_bind H as b Hb. injection H as <-.
  exists b. split; [exact Hb|reflexivity].
Qed.

(** X13.  Whenever the attention weights are computed, both inputs are of
    rank 3, [num_heads] is positive or zero and divides the channel count of
    [inputs_q], the two batch sizes are equal or one of them is 1, and the
    weights have shape (batch, num_heads, query length, key length), the
    batch being the common or the larger batch size.  The channel count of
    [inputs_kv] is not constrained. *)
Theorem weights_shape :
  forall (self : AttentionBlock.t) (params : AttentionBlock.Params)
         (q kv : Tensor) (pw : AttentionBlock.Projections * Tensor),
    AttentionBlock.weights self params q kv = Ok pw ->
    exists bq lq c bk lk c' b,
      shape q = [bq; lq; c]
      /\ shape kv = [bk; lk; c']
      /\ (0 <= AttentionBlock.num_heads self)%Z
      /\ (Z.of_nat c mod AttentionBlock.num_heads self = 0)%Z
      /\ broadcast_dim bq bk = Ok b
      /\ shape (snd pw)
         = [b; Z.to_nat (AttentionBlock.num_heads self); lq; lk].
Proof.
  intros self params q kv pw H.
  unfold AttentionBlock.weights in H.
  inv_bind H as pr Hpr. inv_bind H as s Hs. inv_bind H as w Hw.
  injection H as <-. cbn [snd].
  assert (Hmod : divisible (Z.of_nat (last_dim q))
                   (AttentionBlock.num_heads self)).
  { unfold AttentionBlock.project in Hpr.
    inv_bind Hpr as u1 E1. inv_bind Hpr as m E2. inv_bind Hpr as u2 E3.
    unfold divisible. rewrite E2. f_equal.
    unfold assert in E3. destruct (Z.eqb_spec m 0); [assumption|discriminate]. }
  apply divisible_inv in Hmod as [_ Hmod].
  apply project_Ok in Hpr
    as (bq & lq & c & bk & lk & c' & h & d & Hq & Hkv & Hh & Hquery & Hkey & _).
  apply dim_of_int_Ok in Hh as [Hnh ->].
  unfold last_dim in Hmod. rewrite Hq in Hmod. cbn [last] in Hmod.
  unfold AttentionBlock.scores in Hs. inv_bind Hs as a Ha.
  destruct (einsum_qk_shape _ _ a _ _ _ _ _ _ _ _ Hquery Hkey Ha)
    as [b [Hb Has]].
  assert (Hss : shape s = [b; Z.to_nat (AttentionBlock.num_heads self); lq; lk]).
  { destruct (AttentionBlock.talking_heads self).
    - apply einsum_heads_Ok in Hs as (? & ? & ? & ? & _ & Hs). congruence.
    - injection Hs as <-. exact Has. }
  assert (Hws : shape w = shape s).
  { unfold AttentionBlock.post_mix in Hw.
    destruct (AttentionBlock.talking_heads self).
    - apply einsum_heads_Ok in Hw as (? & ? & ? & ? & _ & Hw).
      rewrite Hw. apply softmax_shape.
    - injection Hw as <-. apply softmax_shape. }
  exists bq, lq, c, bk, lk, c', b.
  repeat split; try assumption. congruence.
Qed.

Lemma weights_shape_witness :
  exists pw,
    AttentionBlock.weights example_attention example_params
      (ones [1; 5; 8]%nat) (ones [3; 4; 6]%nat) = Ok pw
    /\ exists bq lq c bk lk c' b,
         shape (ones [1; 5; 8]%nat) = [bq; lq; c]
         /\ shape (ones [3; 4; 6]%nat) = [bk; lk; c']
         /\ (0 <= AttentionBlock.num_heads example_attention)%Z
         /\ (Z.of_nat c mod AttentionBlock.num_heads example_attention = 0)%Z
         /\ broadcast_dim bq bk = Ok b
         /\ shape (snd pw)
            = [b; Z.to_nat (AttentionBlock.num_heads example_attention);
               lq; lk].
Proof.
  eexists. split; [reflexivity|].
  exact (weights_shape example_attention example_params
           (ones [1; 5; 8]%nat) (ones [3; 4; 6]%nat) _ eq_refl).
Defined.

(** ** A single key *)

(** X14.  Without talking heads, when [inputs_kv] has a single position,
    every attention weight is 1: each query attends fully to the one key,
    whatever the inputs and the parameters are. *)
Theorem a_single_key_gets_all_the_weight :
  forall (self : AttentionBlock.t) (params : AttentionBlock.Params)
         (q kv : Tensor) (pw : AttentionBlock.Projections * Tensor)
         (idx : Index),
    AttentionBlock.talking_heads self = false ->
    nth 1 (shape kv) 0%nat = 1%nat ->
    AttentionBlock.weights self params q kv = Ok pw ->
    in_bounds idx (shape (snd pw)) = true ->
    elem (snd pw) idx = 1.
Proof.
  intros self params q kv pw idx Hth Hlk H Hin.
  unfold AttentionBlock.weights in H.
  inv_bind H as pr Hpr. inv_bind H as s Hs. inv_bind H as w Hw.
  injection H as <-. cbn [snd] in *.
  unfold AttentionBlock.post_mix in Hw. rewrite Hth in Hw.
  injection Hw as <-.
  apply project_Ok in Hpr
    as (bq & lq & c & bk & lk & c' & h & d & Hq & Hkv & _ & _ & Hkey & _).
  apply scores_Ok in Hs as (b & h1 & lq1 & lk1 & bk1 & h' & d' & Hs & Hkey').
  rewrite Hkey in Hkey'. injection Hkey' as <- <- <- <-.
  rewrite Hkv in Hlk. cbn [nth] in Hlk. subst lk.
  rewrite softmax_shape in Hin.
  rewrite softmax_unfold, elem_tabulate by exact Hin.
  rewrite Hs in Hin.
  apply in_bounds4 in Hin as (i & hh & qi & k & -> & Hi & Hh & Hqi & Hk).
  assert (k = 0%nat) by lia. subst k.
  unfold last_dim. rewrite Hs. cbn [last Rsum].
  assert (0 < exp (elem s [i; hh; qi; 0%nat])) by apply exp_pos.
  field. lra.
Qed.

Lemma a_single_key_gets_all_the_weight_witness :
  exists pw,
    AttentionBlock.weights example_attention example_params
      (ones [2; 5; 8]%nat) (ones [2; 1; 8]%nat) = Ok pw
    /\ elem (snd pw) [1; 0; 4; 0]%nat = 1.
Proof.
  eexists. split; [reflexivity|].
  exact (a_single_key_gets_all_the_weight example_attention example_params
           (ones [2; 5; 8]%nat) (ones [2; 1; 8]%nat) _ [1; 0; 4; 0]%nat
           eq_refl eq_refl eq_refl eq_refl).
Defined.

(** ** The order of the keys *)

Lemma list_sum_R_app (l l' : list R) :
  list_sum_R (l ++ l') = list_sum_R l + list_sum_R l'.
Proof. induction l as [|x l IH]; simpl; [ring|]. rewrite IH. ring. Qed.

Lemma Rsum_list (n : nat) (f : nat -> R) :
  Rsum n f = list_sum_R (map f (seq 0 n)).
Proof.
  induction n as [|n IH]; [reflexivity|].
  rewrite seq_S, map_app, list_sum_R_app, <- IH. simpl. ring.
Qed.

Lemma list_sum_R_perm (l l' : list R) :
  Permutation l l' -> list_sum_R l = list_sum_R l'.
Proof.
  induction 1; simpl; lra || congruence.
Qed.

Lemma rearranges_perm (n : nat) (sigma : nat -> nat) :
  rearranges n sigma -> Permutation (map sigma (seq 0 n)) (seq 0 n).
Proof.
  intros [Hr Hi]. apply NoDup_Permutation_bis.
  - clear Hr. assert (Hnd : NoDup (seq 0 n)) by apply seq_NoDup.
    assert (Hin : forall k, In k (seq 0 n) -> (k < n)%nat)
      by (intros k Hk; apply in_seq in Hk; lia).
    induction (seq 0 n) as [|a l IH]; [constructor|].
    simpl. inversion Hnd as [|? ? Ha Hl]; subst. constructor.
    + intros Hin'. apply in_map_iff in Hin' as [k [Hk Hkl]].
      assert (k = a).
      { apply Hi; [apply Hin; right; exact Hkl | apply Hin; left; reflexivity
                  | exact Hk]. }
      subst k. contradiction.
    + apply IH; [exact Hl|]. intros k Hk. apply Hin. right. exact Hk.
  - rewrite length_map. apply Nat.le_refl.
  - intros k Hk. apply in_map_iff in Hk as [j [<- Hj]].
    apply in_seq in Hj. apply in_seq. specialize (Hr j). lia.
Qed.

Lemma Rsum_rearranged (n : nat) (sigma : nat -> nat) (f : nat -> R) :
  rearranges n sigma -> Rsum n (fun k => f (sigma k)) = Rsum n f.
Proof.
  intros H. rewrite !Rsum_list.
  rewrite <- (map_map sigma f).
  apply list_sum_R_perm, Permutation_map, rearranges_perm, H.
Qed.

Lemma DenseGeneral_heads_rearranged (sigma : nat -> nat) (h d : nat)
    (ub : bool) (p : DenseParams) (x : Tensor) :
  rearranges (nth 1 (shape x) 0%nat) sigma ->
  (exists e,
     DenseGeneral_heads h d ub p x = Raise e
     /\ DenseGeneral_heads h d ub p (permute_axis1 sigma x) = Raise e)
  \/ (exists bk lk c key key',
        shape x = [bk; lk; c]
        /\ DenseGeneral_heads h d ub p x = Ok key
        /\ DenseGeneral_heads h d ub p (permute_axis1 sigma x) = Ok key'
        /\ shape key = [bk; lk; h; d]
        /\ shape key' = [bk; lk; h; d]
        /\ forall i k hh dd,
             (i < bk)%nat -> (k < lk)%nat -> (hh < h)%nat -> (dd < d)%nat ->
             elem key' [i; k; hh; dd] = elem key [i; sigma k; hh; dd]).
Proof.
  intros Hsig. unfold DenseGeneral_heads.
  change (shape (permute_axis1 sigma x)) with (shape x).
  destruct (shape x) as [|bk [|lk [|c [|? ?]]]] eqn:Hx;
    try (left; eexists; split; reflexivity).
  right. exists bk, lk, c. eexists. eexists.
  split; [reflexivity|]. split; [reflexivity|]. split; [reflexivity|].
  split; [reflexivity|]. split; [reflexivity|].
  intros i k hh dd Hi Hk Hh Hd. cbn [nth] in Hsig. destruct Hsig as [Hr _].
  rewrite !elem_tabulate
    by (apply in_bounds4_intro; try assumption; apply Hr; assumption).
  assert (Hs : Rsum c (fun j => elem (permute_axis1 sigma x) [i; k; j]
                                * kernel p [j; hh; dd])
               = Rsum c (fun j => elem x [i; sigma k; j]
                                  * kernel p [j; hh; dd])).
  { apply Rsum_ext. intros j Hj. unfold permute_axis1.
    rewrite elem_tabulate; [reflexivity|].
    rewrite Hx. apply in_bounds3_intro; assumption. }
  rewrite Hs. reflexivity.
Qed.

Lemma einsum_qk_rearranged (sigma : nat -> nat) (query key key' : Tensor)
    (bq lq bk lk h d : nat) :
  shape query = [bq; lq; h; d] ->
  shape key = [bk; lk; h; d] ->
  shape key' = [bk; lk; h; d] ->
  (forall i k hh dd,
     (i < bk)%nat -> (k < lk)%nat -> (hh < h)%nat -> (dd < d)%nat ->
     elem key' [i; k; hh; dd] = elem key [i; sigma k; hh; dd]) ->
  rearranges lk sigma ->
  (exists e,
     AttentionBlock.einsum_qk query key = Raise e
     /\ AttentionBlock.einsum_qk query key' = Raise e)
  \/ (exists b s s',
        broadcast_dim bq bk = Ok b
        /\ AttentionBlock.einsum_qk query key = Ok s
        /\ AttentionBlock.einsum_qk query key' = Ok s'
        /\ rearranged_over_keys sigma b h lq lk s s').
Proof.
  intros Hq Hk Hk' Hrel [Hr _]. unfold AttentionBlock.einsum_qk.
  rewrite Hq, Hk, Hk'.
  destruct (broadcast_dim bq bk) as [b|e] eqn:Hb; cbn [bind].
  - right. exists b. eexists. eexists. split; [reflexivity|].
    split; [reflexivity|]. split; [reflexivity|].
    split; [reflexivity|]. split; [reflexivity|].
    intros i hh q k Hi Hh Hqq Hkk.
    rewrite !elem_tabulate
      by (apply in_bounds4_intro; try assumption; apply Hr; assumption).
    apply Rsum_ext. intros dd Hdd. rewrite Hrel; try assumption.
    + reflexivity.
    + apply (bidx_lt bk bq b i); [|exact Hi].
      rewrite broadcast_dim_comm. exact Hb.
  - left. exists e. split; reflexivity.
Qed.

Lemma einsum_heads_rearranged (sigma : nat -> nat) (b h lq lk : nat)
    (s s' : Tensor) (m : Index -> R) :
  rearranges lk sigma ->
  rearranged_over_keys sigma b h lq lk s s' ->
  exists t t',
    AttentionBlock.einsum_heads s m = Ok t
    /\ AttentionBlock.einsum_heads s' m = Ok t'
    /\ rearranged_over_keys sigma b h lq lk t t'.
Proof.
  intros [Hr _] (Hs & Hs' & Hrel).
  unfold AttentionBlock.einsum_heads. rewrite Hs, Hs'.
  eexists. eexists. split; [reflexivity|]. split; [reflexivity|].
  split; [reflexivity|]. split; [reflexivity|].
  intros i hh q k Hi Hh Hq Hk.
  rewrite !elem_tabulate
    by (apply in_bounds4_intro; try assumption; apply Hr; assumption).
  apply Rsum_ext. intros j Hj. rewrite Hrel by assumption. reflexivity.
Qed.

Lemma softmax_rearranged (sigma : nat -> nat) (b h lq lk : nat)
    (s s' : Tensor) :
  rearranges lk sigma ->
  rearranged_over_keys sigma b h lq lk s s' ->
  rearranged_over_keys sigma b h lq lk (softmax s) (softmax s').
Proof.
  intros Hsig (Hs & Hs' & Hrel). pose proof Hsig as [Hr _].
  split; [rewrite softmax_shape; exact Hs|].
  split; [rewrite softmax_shape; exact Hs'|].
  intros i hh q k Hi Hh Hq Hk.
  rewrite (softmax_unfold s'), (softmax_unfold s).
  rewrite Hs, Hs'.
  rewrite !elem_tabulate
    by (apply in_bounds4_intro; try assumption; apply Hr; assumption).
  unfold last_dim. rewrite Hs, Hs'. cbn [last].
  rewrite (Hrel i hh q k Hi Hh Hq Hk). f_equal.
  rewrite <- (Rsum_rearranged lk sigma
                (fun j => exp (elem s [i; hh; q; j])) Hsig).
  apply Rsum_ext. intros j Hj. rewrite (Hrel i hh q j Hi Hh Hq Hj).
  reflexivity.
Qed.

Lemma einsum_wv_rearranged (sigma : nat -> nat) (w w' value value' : Tensor)
    (b h lq lk bk d : nat) :
  rearranges lk sigma ->
  rearranged_over_keys sigma b h lq lk w w' ->
  shape value = [bk; lk; h; d] ->
  shape value' = [bk; lk; h; d] ->
  (forall i k hh dd,
     (i < bk)%nat -> (k < lk)%nat -> (hh < h)%nat -> (dd < d)%nat ->
     elem value' [i; k; hh; dd] = elem value [i; sigma k; hh; dd]) ->
  AttentionBlock.einsum_wv w' value' = AttentionBlock.einsum_wv w value.
Proof.
  intros Hsig (Hw & Hw' & Hrel) Hv Hv' Hvrel.
  unfold AttentionBlock.einsum_wv. rewrite Hw, Hw', Hv, Hv'.
  destruct (broadcast_dim b bk) as [b2|e] eqn:Hb; [cbn [bind]|reflexivity].
  f_equal. apply tabulate_ext. intros idx Hin.
  apply in_bounds4 in Hin as (i & q & hh & dd & -> & Hi & Hq & Hh & Hd).
  assert (Hbi : (bidx b i < b)%nat) by exact (bidx_lt b bk b2 i Hb Hi).
  assert (Hbk : (bidx bk i < bk)%nat).
  { apply (bidx_lt bk b b2 i); [|exact Hi].
    rewrite broadcast_dim_comm. exact Hb. }
  rewrite <- (Rsum_rearranged lk sigma
                (fun k => elem w [bidx b i; hh; q; k]
                          * elem value [bidx bk i; k; hh; dd]) Hsig).
  apply Rsum_ext. intros k Hk.
  rewrite (Hrel _ hh q k Hbi Hh Hq Hk), (Hvrel _ k hh dd Hbk Hk Hh Hd).
  reflexivity.
Qed.

(** X15.  In inference mode the order of the key/value positions does not
    matter: with the positions of [inputs_kv] rearranged, the weights
    followed by lines 70-89 give the same result, for every rate of the
    first dropout, with or without bias and with or without talking
    heads. *)
Theorem key_order_does_not_matter_at_inference :
  forall (self : AttentionBlock.t) (params : AttentionBlock.Params)
         (rng : PRNGKey) (q kv : Tensor) (sigma : nat -> nat) (rate : R),
    rearranges (nth 1 (shape kv) 0%nat) sigma ->
    (pw <- AttentionBlock.weights self params q (permute_axis1 sigma kv) ;;
     AttentionBlock.attend self params rng false (fst pw) rate (snd pw))
    = (pw <- AttentionBlock.weights self params q kv ;;
       AttentionBlock.attend self params rng false (fst pw) rate (snd pw)).
Proof.
  intros self params rng q kv sigma rate Hsig.
  unfold AttentionBlock.weights, AttentionBlock.project.
  change (ndim (permute_axis1 sigma kv)) with (ndim kv).
  destruct (assert ((ndim q =? ndim kv)%nat && (ndim kv =? 3)%nat)
              "inputs_q.ndim == inputs_kv.ndim == 3") as [u1|e];
    [cbn [bind]|reflexivity].
  destruct (py_mod (Z.of_nat (last_dim q)) (AttentionBlock.num_heads self))
    as [m|e]; [cbn [bind]|reflexivity].
  destruct (assert (m =? 0)%Z "in_ch % self.num_heads == 0") as [u2|e];
    [cbn [bind]|reflexivity].
  destruct (py_or (AttentionBlock.head_ch self)
              (py_int_truediv (Z.of_nat (last_dim q))
                 (AttentionBlock.num_heads self))) as [hc|e];
    [cbn [bind]|reflexivity].
  destruct (py_or (AttentionBlock.out_ch self) (Ok (Z.of_nat (last_dim q))))
    as [oc|e]; [cbn [bind]|reflexivity].
  destruct (dim_of_int (AttentionBlock.num_heads self)) as [h|e];
    [cbn [bind]|reflexivity].
  destruct (dim_of_int hc) as [d|e]; [cbn [bind]|reflexivity].
  destruct (DenseGeneral_heads h d (AttentionBlock.use_bias self)
              (AttentionBlock.queries params) q) as [query|e] eqn:Equery;
    [cbn [bind]|reflexivity].
  apply DenseGeneral_heads_Ok in Equery as (bq & lq & c & Hq & Hquery).
  destruct (DenseGeneral_heads_rearranged sigma h d
              (AttentionBlock.use_bias self) (AttentionBlock.keys params) kv
              Hsig)
    as [(e & He & He')
       |(bk & lk & c' & key & key' & Hkv & Hkey & Hkey' & Hsk & Hsk' & Hkrel)].
  { rewrite He, He'. reflexivity. }
  rewrite Hkey, Hkey'. cbn [bind].
  destruct (DenseGeneral_heads_rearranged sigma h d
              (AttentionBlock.use_bias self) (AttentionBlock.values params) kv
              Hsig)
    as [(e & He & He')
       |(bk2 & lk2 & c2 & value & value' & Hkv2 & Hval & Hval' & Hsv & Hsv'
         & Hvrel)].
  { rewrite He, He'. reflexivity. }
  rewrite Hkv in Hkv2. injection Hkv2 as <- <- <-.
  rewrite Hval, Hval'. cbn [bind].
  rewrite Hkv in Hsig. cbn [nth] in Hsig.
  unfold AttentionBlock.scores.
  cbn [AttentionBlock.l_query AttentionBlock.l_key].
  set (sq := tabulate (shape query)
               (fun idx => elem query idx / sqrt (IZR hc))).
  assert (Hsq : shape sq = [bq; lq; h; d]) by exact Hquery.
  destruct (einsum_qk_rearranged sigma sq key key' bq lq bk lk h d
              Hsq Hsk Hsk' Hkrel Hsig)
    as [(e & He & He')|(b & s & s' & Hb & Hs & Hs' & Hrel)].
  { rewrite He, He'. reflexivity. }
  rewrite Hs, Hs'. cbn [bind].
  unfold AttentionBlock.post_mix.
  assert (Hfin : forall t t',
             rearranged_over_keys sigma b h lq lk t t' ->
             AttentionBlock.attend self params rng false
               {| AttentionBlock.l_head_ch := hc;
                  AttentionBlock.l_out_ch := oc;
                  AttentionBlock.l_query := sq;
                  AttentionBlock.l_key := key';
                  AttentionBlock.l_value := value' |} rate t'
             = AttentionBlock.attend self params rng false
                 {| AttentionBlock.l_head_ch := hc;
                    AttentionBlock.l_out_ch := oc;
                    AttentionBlock.l_query := sq;
                    AttentionBlock.l_key := key;
                    AttentionBlock.l_value := value |} rate t).
  { intros t t' Ht. unfold AttentionBlock.attend.
    cbn [negb AttentionBlock.l_value AttentionBlock.l_out_ch].
    rewrite !Dropout_deterministic.
    rewrite (einsum_wv_rearranged sigma t t' value value' b h lq lk bk d
               Hsig Ht Hsv Hsv' Hvrel).
    reflexivity. }
  destruct (AttentionBlock.talking_heads self).
  - destruct (einsum_heads_rearranged sigma b h lq lk s s'
                (AttentionBlock.pre_softmax params) Hsig Hrel)
      as (t & t' & Ht & Ht' & Hrel').
    rewrite Ht, Ht'. cbn [bind].
    pose proof (softmax_rearranged sigma b h lq lk t t' Hsig Hrel') as Hsm.
    destruct (einsum_heads_rearranged sigma b h lq lk (softmax t)
                (softmax t') (AttentionBlock.post_softmax params) Hsig Hsm)
      as (w & w' & Hw & Hw' & Hrelw).
    rewrite Hw, Hw'. cbn [bind fst snd]. apply Hfin. exact Hrelw.
  - cbn [bind fst snd]. apply Hfin.
    apply (softmax_rearranged sigma b h lq lk s s' Hsig Hrel).
Qed.

Lemma swap01_rearranges (n : nat) : (2 <= n)%nat -> rearranges n swap01.
Proof.
  intros Hn. split.
  - intros [|[|k]] Hk; simpl; lia.
  - intros [|[|j]] [|[|k]] Hj Hk; simpl; lia.
Qed.

Lemma key_order_does_not_matter_at_inference_witness :
  (pw <- AttentionBlock.weights example_attention example_params
           (ones [2; 5; 8]%nat) (permute_axis1 swap01 (ones [2; 3; 8]%nat)) ;;
   AttentionBlock.attend example_attention example_params example_key false
     (fst pw) (/ 2) (snd pw))
  = (pw <- AttentionBlock.weights example_attention example_params
             (ones [2; 5; 8]%nat) (ones [2; 3; 8]%nat) ;;
     AttentionBlock.attend example_attention example_params example_key false
       (fst pw) (/ 2) (snd pw)).
Proof.
  apply (key_order_does_not_matter_at_inference example_attention
           example_params example_key (ones [2; 5; 8]%nat)
           (ones [2; 3; 8]%nat) swap01 (/ 2)).
  apply swap01_rearranges. simpl. lia.
Defined.

(** ** The order of the queries *)

Lemma einsum_qk_rearranged_queries (sigma : nat -> nat)
    (query query' key : Tensor) (bq lq bk lk h d : nat) :
  shape query = [bq; lq; h; d] ->
  shape query' = [bq; lq; h; d] ->
  shape key = [bk; lk; h; d] ->
  (forall i k hh dd,
     (i < bq)%nat -> (k < lq)%nat -> (hh < h)%nat -> (dd < d)%nat ->
     elem query' [i; k; hh; dd] = elem query [i; sigma k; hh; dd]) ->
  selects lq sigma ->
  (exists e,
     AttentionBlock.einsum_qk query key = Raise e
     /\ AttentionBlock.einsum_qk query' key = Raise e)
  \/ (exists b s s',
        broadcast_dim bq bk = Ok b
        /\ AttentionBlock.einsum_qk query key = Ok s
        /\ AttentionBlock.einsum_qk query' key = Ok s'
        /\ rearranged_over_queries sigma b h lq lk s s').
Proof.
  intros Hq Hq' Hk Hrel Hr. unfold AttentionBlock.einsum_qk.
  rewrite Hq, Hq', Hk.
  destruct (broadcast_dim bq bk) as [b|e] eqn:Hb; cbn [bind].
  - right. exists b. eexists. eexists. split; [reflexivity|].
    split; [reflexivity|]. split; [reflexivity|].
    split; [reflexivity|]. split; [reflexivity|].
    intros i hh q k Hi Hh Hqq Hkk.
    rewrite !elem_tabulate
      by (apply in_bounds4_intro; try assumption; apply Hr; assumption).
    apply Rsum_ext. intros dd Hdd. rewrite Hrel; try assumption.
    + reflexivity.
    + exact (bidx_lt bq bk b i Hb Hi).
  - left. exists e. split; reflexivity.
Qed.

Lemma einsum_heads_rearranged_queries (sigma : nat -> nat) (b h lq lk : nat)
    (s s' : Tensor) (m : Index -> R) :
  selects lq sigma ->
  rearranged_over_queries sigma b h lq lk s s' ->
  exists t t',
    AttentionBlock.einsum_heads s m = Ok t
    /\ AttentionBlock.einsum_heads s' m = Ok t'
    /\ rearranged_over_queries sigma b h lq lk t t'.
Proof.
  intros Hr (Hs & Hs' & Hrel).
  unfold AttentionBlock.einsum_heads. rewrite Hs, Hs'.
  eexists. eexists. split; [reflexivity|]. split; [reflexivity|].
  split; [reflexivity|]. split; [reflexivity|].
  intros i hh q k Hi Hh Hq Hk.
  rewrite !elem_tabulate
    by (apply in_bounds4_intro; try assumption; apply Hr; assumption).
  apply Rsum_ext. intros j Hj. rewrite Hrel by assumption. reflexivity.
Qed.

Lemma softmax_rearranged_queries (sigma : nat -> nat) (b h lq lk : nat)
    (s s' : Tensor) :
  selects lq sigma ->
  rearranged_over_queries sigma b h lq lk s s' ->
  rearranged_over_queries sigma b h lq lk (softmax s) (softmax s').
Proof.
  intros Hr (Hs & Hs' & Hrel).
  split; [rewrite softmax_shape; exact Hs|].
  split; [rewrite softmax_shape; exact Hs'|].
  intros i hh q k Hi Hh Hq Hk.
  rewrite (softmax_unfold s'), (softmax_unfold s).
  rewrite Hs, Hs'.
  rewrite !elem_tabulate
    by (apply in_bounds4_intro; try assumption; apply Hr; assumption).
  unfold last_dim. rewrite Hs, Hs'. cbn [last].
  rewrite (Hrel i hh q k Hi Hh Hq Hk). f_equal.
  apply Rsum_ext. intros j Hj. rewrite (Hrel i hh q j Hi Hh Hq Hj).
  reflexivity.
Qed.

Lemma DenseGeneral_heads_selected (sigma : nat -> nat) (h d : nat)
    (ub : bool) (p : DenseParams) (x : Tensor) :
  selects (nth 1 (shape x) 0%nat) sigma ->
  (exists e,
     DenseGeneral_heads h d ub p x = Raise e
     /\ DenseGeneral_heads h d ub p (permute_axis1 sigma x) = Raise e)
  \/ (exists bq lq c query query',
        shape x = [bq; lq; c]
        /\ DenseGeneral_heads h d ub p x = Ok query
        /\ DenseGeneral_heads h d ub p (permute_axis1 sigma x) = Ok query'
        /\ shape query = [bq; lq; h; d]
        /\ shape query' = [bq; lq; h; d]
        /\ forall i k hh dd,
             (i < bq)%nat -> (k < lq)%nat -> (hh < h)%nat -> (dd < d)%nat ->
             elem query' [i; k; hh; dd] = elem query [i; sigma k; hh; dd]).
Proof.
  intros Hr. unfold DenseGeneral_heads.
  change (shape (permute_axis1 sigma x)) with (shape x).
  destruct (shape x) as [|bq [|lq [|c [|? ?]]]] eqn:Hx;
    try (left; eexists; split; reflexivity).
  right. exists bq, lq, c. eexists. eexists.
  split; [reflexivity|]. split; [reflexivity|]. split; [reflexivity|].
  split; [reflexivity|]. split; [reflexivity|].
  intros i k hh dd Hi Hk Hh Hd. cbn [nth] in Hr.
  rewrite !elem_tabulate
    by (apply in_bounds4_intro; try assumption; apply Hr; assumption).
  assert (Hs : Rsum c (fun j => elem (permute_axis1 sigma x) [i; k; j]
                                * kernel p [j; hh; dd])
               = Rsum c (fun j => elem x [i; sigma k; j]
                                  * kernel p [j; hh; dd])).
  { apply Rsum_ext. intros j Hj. unfold permute_axis1.
    rewrite elem_tabulate; [reflexivity|].
    rewrite Hx. apply in_bounds3_intro; assumption. }
  rewrite Hs. reflexivity.
Qed.

Lemma einsum_wv_selected (sigma : nat -> nat) (w w' value : Tensor)
    (b h lq lk bk d : nat) :
  selects lq sigma ->
  rearranged_over_queries sigma b h lq lk w w' ->
  shape value = [bk; lk; h; d] ->
  (exists e,
     AttentionBlock.einsum_wv w value = Raise e
     /\ AttentionBlock.einsum_wv w' value = Raise e)
  \/ (exists b2 c c',
        AttentionBlock.einsum_wv w value = Ok c
        /\ AttentionBlock.einsum_wv w' value = Ok c'
        /\ shape c = [b2; lq; h; d]
        /\ shape c' = [b2; lq; h; d]
        /\ forall i q hh dd,
             (i < b2)%nat -> (q < lq)%nat -> (hh < h)%nat -> (dd < d)%nat ->
             elem c' [i; q; hh; dd] = elem c [i; sigma q; hh; dd]).
Proof.
  intros Hr (Hw & Hw' & Hrel) Hv.
  unfold AttentionBlock.einsum_wv. rewrite Hw, Hw', Hv.
  destruct (broadcast_dim b bk) as [b2|e] eqn:Hb; cbn [bind].
  - right. exists b2. eexists. eexists.
    split; [reflexivity|]. split; [reflexivity|].
    split; [reflexivity|]. split; [reflexivity|].
    intros i q hh dd Hi Hq Hh Hd.
    rewrite !elem_tabulate
      by (apply in_bounds4_intro; try assumption; apply Hr; assumption).
    apply Rsum_ext. intros k Hk.
    rewrite (Hrel _ hh q k (bidx_lt b bk b2 i Hb Hi) Hh Hq Hk).
    reflexivity.
  - left. exists e. split; reflexivity.
Qed.

Lemma DenseGeneral_merge_selected (sigma : nat -> nat) (o : nat) (ub : bool)
    (p : DenseParams) (c c' : Tensor) (b lq h d : nat) :
  selects lq sigma ->
  shape c = [b; lq; h; d] ->
  shape c' = [b; lq; h; d] ->
  (forall i q hh dd,
     (i < b)%nat -> (q < lq)%nat -> (hh < h)%nat -> (dd < d)%nat ->
     elem c' [i; q; hh; dd] = elem c [i; sigma q; hh; dd]) ->
  DenseGeneral_merge o ub p c'
  = result_map (permute_axis1 sigma) (DenseGeneral_merge o ub p c).
Proof.
  intros Hr Hc Hc' Hrel. unfold DenseGeneral_merge. rewrite Hc, Hc'.
  cbn [result_map]. f_equal. unfold permute_axis1.
  cbn [shape tabulate]. apply tabulate_ext. intros idx Hin.
  apply in_bounds3 in Hin as (i & t & oo & -> & Hi & Ht & Ho).
  rewrite (elem_tabulate _ _ [i; sigma t; oo])
    by (apply in_bounds3_intro; try assumption; apply Hr; assumption).
  assert (Hs : Rsum h (fun hh =>
                 Rsum d (fun dd =>
                   elem c' [i; t; hh; dd] * kernel p [hh; dd; oo]))
               = Rsum h (fun hh =>
                   Rsum d (fun dd =>
                     elem c [i; sigma t; hh; dd] * kernel p [hh; dd; oo]))).
  { apply Rsum_ext. intros hh Hh. apply Rsum_ext. intros dd Hd.
    rewrite (Hrel i t hh dd Hi Ht Hh Hd). reflexivity. }
  rewrite Hs. reflexivity.
Qed.

(** X16.  In inference mode every output row is computed from its own query
    row (and the keys and values) alone: if the rows of [inputs_q] are
    picked by [sigma] (rearranged, or repeated), the rows of the result are
    picked the same way, and an error is the same error.  This holds for
    every rate of the first dropout, with or without bias and with or
    without talking heads. *)
Theorem output_rows_follow_the_query_rows :
  forall (self : AttentionBlock.t) (params : AttentionBlock.Params)
         (rng : PRNGKey) (q kv : Tensor) (sigma : nat -> nat) (rate : R),
    selects (nth 1 (shape q) 0%nat) sigma ->
    (pw <- AttentionBlock.weights self params (permute_axis1 sigma q) kv ;;
     AttentionBlock.attend self params rng false (fst pw) rate (snd pw))
    = result_map (permute_axis1 sigma)
        (pw <- AttentionBlock.weights self params q kv ;;
         AttentionBlock.attend self params rng false (fst pw) rate (snd pw)).
Proof.
  intros self params rng q kv sigma rate Hsig.
  unfold AttentionBlock.weights, AttentionBlock.project.
  change (ndim (permute_axis1 sigma q)) with (ndim q).
  change (last_dim (permute_axis1 sigma q)) with (last_dim q).
  destruct (assert ((ndim q =? ndim kv)%nat && (ndim kv =? 3)%nat)
              "inputs_q.ndim == inputs_kv.ndim == 3") as [u1|e];
    [cbn [bind]|reflexivity].
  destruct (py_mod (Z.of_nat (last_dim q)) (AttentionBlock.num_heads self))
    as [m|e]; [cbn [bind]|reflexivity].
  destruct (assert (m =? 0)%Z "in_ch % self.num_heads == 0") as [u2|e];
    [cbn [bind]|reflexivity].
  destruct (py_or (AttentionBlock.head_ch self)
              (py_int_truediv (Z.of_nat (last_dim q))
                 (AttentionBlock.num_heads self))) as [hc|e];
    [cbn [bind]|reflexivity].
  destruct (py_or (AttentionBlock.out_ch self) (Ok (Z.of_nat (last_dim q))))
    as [oc|e]; [cbn [bind]|reflexivity].
  destruct (dim_of_int (AttentionBlock.num_heads self)) as [h|e];
    [cbn [bind]|reflexivity].
  destruct (dim_of_int hc) as [d|e]; [cbn [bind]|reflexivity].
  destruct (DenseGeneral_heads_selected sigma h d
              (AttentionBlock.use_bias self) (AttentionBlock.queries params) q
              Hsig)
    as [(e & He & He')
       |(bq & lq & c & query & query' & Hq & Hquery & Hquery' & Hsq & Hsq'
         & Hqrel)].
  { rewrite He, He'. reflexivity. }
  rewrite Hquery, Hquery'. cbn [bind].
  rewrite Hq in Hsig. cbn [nth] in Hsig.
  destruct (DenseGeneral_heads h d (AttentionBlock.use_bias self)
              (AttentionBlock.keys params) kv) as [key|e] eqn:Ekey;
    [cbn [bind]|reflexivity].
  apply DenseGeneral_heads_Ok in Ekey as (bk & lk & c' & Hkv & Hkey).
  destruct (DenseGeneral_heads h d (AttentionBlock.use_bias self)
              (AttentionBlock.values params) kv) as [value|e] eqn:Evalue;
    [cbn [bind]|reflexivity].
  apply DenseGeneral_heads_Ok in Evalue as (bk2 & lk2 & c2 & Hkv2 & Hvalue).
  rewrite Hkv in Hkv2. injection Hkv2 as <- <- <-.
  unfold AttentionBlock.scores.
  cbn [AttentionBlock.l_query AttentionBlock.l_key].
  rewrite Hsq, Hsq'.
  set (sq := tabulate [bq; lq; h; d]
               (fun idx => elem query idx / sqrt (IZR hc))).
  set (sq' := tabulate [bq; lq; h; d]
                (fun idx => elem query' idx / sqrt (IZR hc))).
  assert (Hsqrel : forall i k hh dd,
             (i < bq)%nat -> (k < lq)%nat -> (hh < h)%nat -> (dd < d)%nat ->
             elem sq' [i; k; hh; dd] = elem sq [i; sigma k; hh; dd]).
  { intros i k hh dd Hi Hk Hh Hd. unfold sq, sq'.
    rewrite !elem_tabulate
      by (apply in_bounds4_intro; try assumption; apply Hsig; assumption).
    rewrite (Hqrel i k hh dd Hi Hk Hh Hd). reflexivity. }
  destruct (einsum_qk_rearranged_queries sigma sq sq' key bq lq bk lk h d
              eq_refl eq_refl Hkey Hsqrel Hsig)
    as [(e & He & He')|(b & s & s' & Hb & Hs & Hs' & Hrel)].
  { rewrite He, He'. reflexivity. }
  rewrite Hs, Hs'. cbn [bind].
  unfold AttentionBlock.post_mix.
  assert (Hfin : forall t t',
             rearranged_over_queries sigma b h lq lk t t' ->
             AttentionBlock.attend self params rng false
               {| AttentionBlock.l_head_ch := hc;
                  AttentionBlock.l_out_ch := oc;
                  AttentionBlock.l_query := sq';
                  AttentionBlock.l_key := key;
                  AttentionBlock.l_value := value |} rate t'
             = result_map (permute_axis1 sigma)
                 (AttentionBlock.attend self params rng false
                    {| AttentionBlock.l_head_ch := hc;
                       AttentionBlock.l_out_ch := oc;
                       AttentionBlock.l_query := sq;
                       AttentionBlock.l_key := key;
                       AttentionBlock.l_value := value |} rate t)).
  { intros t t' Ht. unfold AttentionBlock.attend.
    cbn [negb AttentionBlock.l_value AttentionBlock.l_out_ch].
    rewrite !Dropout_deterministic.
    destruct (einsum_wv_selected sigma t t' value b h lq lk bk d
                Hsig Ht Hvalue)
      as [(e & He & He')|(b2 & cx & cx' & Hc & Hc' & Hsc & Hsc' & Hcrel)].
    { rewrite He, He'. reflexivity. }
    rewrite Hc, Hc'. cbn [bind].
    destruct (dim_of_int oc) as [o|e]; [cbn [bind]|reflexivity].
    rewrite (DenseGeneral_merge_selected sigma o
               (AttentionBlock.use_bias self)
               (AttentionBlock.DenseGeneral_0 params) cx cx' b2 lq h d
               Hsig Hsc Hsc' Hcrel).
    destruct (DenseGeneral_merge o (AttentionBlock.use_bias self)
                (AttentionBlock.DenseGeneral_0 params) cx) as [out|e];
      [|reflexivity].
    cbn [result_map bind]. rewrite !Dropout_deterministic. reflexivity. }
  destruct (AttentionBlock.talking_heads self).
  - destruct (einsum_heads_rearranged_queries sigma b h lq lk s s'
                (AttentionBlock.pre_softmax params) Hsig Hrel)
      as (t & t' & Ht & Ht' & Hrel').
    rewrite Ht, Ht'. cbn [bind].
    pose proof (softmax_rearranged_queries sigma b h lq lk t t' Hsig Hrel')
      as Hsm.
    destruct (einsum_heads_rearranged_queries sigma b h lq lk (softmax t)
                (softmax t') (AttentionBlock.post_softmax params) Hsig Hsm)
      as (w & w' & Hw & Hw' & Hrelw).
    rewrite Hw, Hw'. cbn [bind fst snd]. apply Hfin. exact Hrelw.
  - cbn [bind fst snd]. apply Hfin.
    apply (softmax_rearranged_queries sigma b h lq lk s s' Hsig Hrel).
Qed.

Lemma output_rows_follow_the_query_rows_witness :
  (pw <- AttentionBlock.weights example_attention example_params
           (permute_axis1 swap01 (ones [2; 5; 8]%nat)) (ones [2; 3; 8]%nat) ;;
   AttentionBlock.attend example_attention example_params example_key false
     (fst pw) (/ 2) (snd pw))
  = result_map (permute_axis1 swap01)
      (pw <- AttentionBlock.weights example_attention example_params
               (ones [2; 5; 8]%nat) (ones [2; 3; 8]%nat) ;;
       AttentionBlock.attend example_attention example_params example_key
         false (fst pw) (/ 2) (snd pw)).
Proof.
  apply (output_rows_follow_the_query_rows example_attention
           example_params example_key (ones [2; 5; 8]%nat)
           (ones [2; 3; 8]%nat) swap01 (/ 2)).
  intros [|[|k]] Hk; simpl in *; lia.
Defined.
